(** * blockchain-go: the embedded page store (package [db])

    A shallow embedding of the storage engine of
    YuriyLisovskiy/blockchain-go: the page header and meta page codec
    ([page], [meta]), the pager ([DB.Open], [DB.mmap], [DB.init], [DB.page],
    [DB.meta], [DB.allocate], [DB.sync]) and the transaction front end
    ([DB.Transaction], [DB.RWTransaction], [DB.removeTransaction],
    [Transaction.page], [Transaction.Bucket], [Transaction.Get], [DB.Get]).

    The Go code reaches page and meta fields through [unsafe.Pointer] casts
    over byte buffers, so memory is modelled as [list byte] and a pointer as
    an offset into a buffer; struct fields are little-endian loads and
    stores at the offsets the Go compiler assigns on a 64-bit target. *)

From Stdlib Require Import ZArith Lia List.
From Stdlib Require Import Strings.Byte.
From stdpp Require Import gmap strings list fin_maps sorting.

Local Open Scope Z_scope.

(** ** Raw memory: little-endian fields inside a byte buffer *)

Module Mem.

Definition byte_to_Z (b : byte) : Z := Z.of_N (Byte.to_N b).

Definition byte_of_Z (z : Z) : byte :=
  match Byte.of_N (Z.to_N (z mod 256)) with
  | Some b => b
  | None => Byte.x00
  end.

(** [n] bytes of [v], least significant first. *)
Fixpoint encode (n : nat) (v : Z) : list byte :=
  match n with
  | O => []
  | S k => byte_of_Z v :: encode k (v / 256)
  end.

Fixpoint decode (bs : list byte) : Z :=
  match bs with
  | [] => 0
  | b :: r => byte_to_Z b + 256 * decode r
  end.

(** Reading an [n]-byte unsigned field at offset [off]. *)
Definition load (m : list byte) (off n : nat) : Z :=
  decode (take n (drop off m)).

(** Writing an [n]-byte unsigned field at offset [off]; the value is
    truncated to the field width, as a Go conversion to [uintN] does. *)
Definition store (m : list byte) (off n : nat) (v : Z) : list byte :=
  list_inserts off (encode n v) m.

(** [make([]byte, n)]: a zeroed buffer. *)
Definition make (n : nat) : list byte := replicate n Byte.x00.

End Mem.

(** ** Machine integers

    Go's [uint32], [uint64] ([pgid], [txnid]) and [int] are [Z]
    with the wrap-around of each conversion written out. *)

Definition u32 (z : Z) : Z := z mod 2 ^ 32.
Definition u64 (z : Z) : Z := z mod 2 ^ 64.

(** [int] is 64 bits wide on the targets the package builds for
    ([bolt_linux.go]); signed wrap-around. *)
Definition int64 (z : Z) : Z := (z + 2 ^ 63) mod 2 ^ 64 - 2 ^ 63.

Definition is_u32 (z : Z) : Prop := 0 <= z < 2 ^ 32.
Definition is_u64 (z : Z) : Prop := 0 <= z < 2 ^ 64.

(** ** Constants of package [db] *)

Definition magic : Z := 0xDEADC0DE.
Definition version : Z := 1.
Definition minPageSize : Z := 0x1000.
Definition minKeysPerPage : Z := 2.
Definition maxNodesPerPage : Z := 65535.
Definition pageHeaderSize : nat := 16.

Definition p_branch : Z := 0x01.
Definition p_leaf : Z := 0x02.
Definition p_meta : Z := 0x04.
Definition p_sys : Z := 0x08.
Definition p_freelist : Z := 0x10.

(** Modelled from the spec: [DB.init] names the flag of the bucket-catalog
    page [p_buckets] and the meta fields [freelist] and [buckets], while the
    declarations under src/ call them [p_sys], [free] and [sys]. The spec
    uses one name for each pair (freelist-pgid, buckets-pgid) and fixes the
    field order of the meta body, which is followed here: [p_buckets] is the
    catalog flag [p_sys], [m.freelist] is [m.free], [m.buckets] is [m.sys]. *)
Definition p_buckets : Z := p_sys.

(** The size handed to [Mmap]: [2 << 30]. *)
Definition mmap_size : Z := Z.shiftl 2 30.

(** [runtime.maxAlloc], the largest size of one allocation on 64-bit
    Linux: [make] panics beyond it. A buffer within it is taken to be
    available (running out of memory is not modelled). *)
Definition maxAlloc : Z := 2 ^ 48.

(** ** Errors and outcomes *)

(** The error values of the package. [Error] is the wrapper
    [&Error{message, cause}]; [SysError] stands for an error returned by the
    operating system; [EOF] is [io.EOF]. *)
#[warnings="-register-all"]
Inductive error : Type :=
  | InvalidError
  | VersionMismatchError
  | DatabaseAlreadyOpenedError
  | DatabaseNotOpenError
  | EOF
  | SysError (errno : Z)
  | Error (message : string) (cause : option error).

(** A Go call either returns or panics (index out of range, nil
    dereference, [makeslice]), or blocks for ever on a mutex that is held. *)
Inductive outcome (A : Type) : Type :=
  | Ret (a : A)
  | Panic (msg : string)
  | Blocked.
Arguments Ret {A} a.
Arguments Panic {A} msg.
Arguments Blocked {A}.

#[global] Instance outcome_ret : MRet outcome := fun A a => Ret a.
#[global] Instance outcome_bind : MBind outcome := fun A B k x =>
  match x with
  | Ret a => k a
  | Panic msg => Panic msg
  | Blocked => Blocked
  end.

(** ** Pages (type [page])

    [type page struct { id pgid; flags uint16; count uint16;
    overflow uint32; ptr uintptr }]: a [*page] is an offset [p] into a
    buffer [b]. *)

Module Page.

Definition off_id : nat := 0.
Definition off_flags : nat := 8.
Definition off_count : nat := 10.
Definition off_overflow : nat := 12.
Definition off_ptr : nat := 16.

Definition id (b : list byte) (p : nat) : Z := Mem.load b (p + off_id) 8.
Definition flags (b : list byte) (p : nat) : Z := Mem.load b (p + off_flags) 2.
Definition count (b : list byte) (p : nat) : Z := Mem.load b (p + off_count) 2.
Definition overflow (b : list byte) (p : nat) : Z := Mem.load b (p + off_overflow) 4.

Definition set_id (b : list byte) (p : nat) (v : Z) : list byte :=
  Mem.store b (p + off_id) 8 v.
Definition set_flags (b : list byte) (p : nat) (v : Z) : list byte :=
  Mem.store b (p + off_flags) 2 v.
Definition set_count (b : list byte) (p : nat) (v : Z) : list byte :=
  Mem.store b (p + off_count) 2 v.
Definition set_overflow (b : list byte) (p : nat) (v : Z) : list byte :=
  Mem.store b (p + off_overflow) 4 v.

(** [func (p *page) meta() *meta]: the address of [p.ptr]. *)
Definition meta (p : nat) : nat := (p + off_ptr)%nat.

(** [func (p *page) freelist() []pgid]: [count] page ids starting at
    [p.ptr]. *)
Definition freelist (b : list byte) (p : nat) : list Z :=
  map (fun i : nat => Mem.load b (p + off_ptr + 8 * i) 8)
      (seq 0 (Z.to_nat (count b p))).

End Page.

(** ** Meta (type [meta])

    [type meta struct { magic, version, pageSize uint32; pgid, free, sys
    pgid; txnid txnid }]; the three 32-bit fields are followed by four
    bytes of padding so that the 64-bit fields are aligned. *)

Record meta : Type := Meta {
  meta_magic : Z;
  meta_version : Z;
  meta_pageSize : Z;
  meta_pgid : Z;
  meta_free : Z;
  meta_sys : Z;
  meta_txnid : Z
}.

Module MetaAt.

Definition off_magic : nat := 0.
Definition off_version : nat := 4.
Definition off_pageSize : nat := 8.
Definition off_pgid : nat := 16.
Definition off_free : nat := 24.
Definition off_sys : nat := 32.
Definition off_txnid : nat := 40.
Definition size : nat := 48.

Definition magic (b : list byte) (q : nat) : Z := Mem.load b (q + off_magic) 4.
Definition version (b : list byte) (q : nat) : Z := Mem.load b (q + off_version) 4.
Definition pageSize (b : list byte) (q : nat) : Z := Mem.load b (q + off_pageSize) 4.
Definition pgid (b : list byte) (q : nat) : Z := Mem.load b (q + off_pgid) 8.
Definition free (b : list byte) (q : nat) : Z := Mem.load b (q + off_free) 8.
Definition sys (b : list byte) (q : nat) : Z := Mem.load b (q + off_sys) 8.
Definition txnid (b : list byte) (q : nat) : Z := Mem.load b (q + off_txnid) 8.

Definition set_magic b q v := Mem.store b (q + off_magic) 4 v.
Definition set_version b q v := Mem.store b (q + off_version) 4 v.
Definition set_pageSize b q v := Mem.store b (q + off_pageSize) 4 v.
Definition set_pgid b q v := Mem.store b (q + off_pgid) 8 v.
Definition set_free b q v := Mem.store b (q + off_free) 8 v.
Definition set_sys b q v := Mem.store b (q + off_sys) 8 v.
Definition set_txnid b q v := Mem.store b (q + off_txnid) 8 v.

(** Dereferencing a [*meta]. *)
Definition read (b : list byte) (q : nat) : meta :=
  {| meta_magic := magic b q;
     meta_version := version b q;
     meta_pageSize := pageSize b q;
     meta_pgid := pgid b q;
     meta_free := free b q;
     meta_sys := sys b q;
     meta_txnid := txnid b q |}.

End MetaAt.

Definition meta_wf (m : meta) : Prop :=
  is_u32 (meta_magic m) /\ is_u32 (meta_version m) /\ is_u32 (meta_pageSize m) /\
  is_u64 (meta_pgid m) /\ is_u64 (meta_free m) /\ is_u64 (meta_sys m) /\
  is_u64 (meta_txnid m).

(** [func (m *meta) validate() error] *)
Definition validate (m : meta) : option error :=
  if negb (meta_magic m =? magic) then Some InvalidError
  else if negb (meta_version m =? version) then Some VersionMismatchError
  else None.

(** [func (m *meta) copy(dest *meta)]: [dest] is the offset [q] in [b];
    the assignments are in the order of the source. *)
Definition meta_copy (m : meta) (b : list byte) (q : nat) : list byte :=
  let b := MetaAt.set_magic b q (meta_magic m) in
  let b := MetaAt.set_version b q (meta_version m) in
  let b := MetaAt.set_pageSize b q (meta_pageSize m) in
  let b := MetaAt.set_pgid b q (meta_pgid m) in
  let b := MetaAt.set_free b q (meta_free m) in
  let b := MetaAt.set_txnid b q (meta_txnid m) in
  MetaAt.set_sys b q (meta_sys m).

(** [func (m *meta) write(p *page)] *)
Definition meta_write (m : meta) (b : list byte) (p : nat) : list byte :=
  let b := Page.set_id b p (u64 (meta_txnid m mod 2)) in
  let b := Page.set_flags b p (Z.lor (Page.flags b p) p_meta) in
  meta_copy m b (Page.meta p).

(** ** The operating system

    [db.os], [db.syscall] and the [file] interface are the
    seams through which the package reaches the system (the tests replace
    them by mocks). A [World] holds the bytes of the file at [db.path], the
    answer each call will give, and the log of the calls made so far, oldest
    first. A write that fails answers with the number of bytes it has
    written by then and its error, as [WriteAt] returns them. *)

(** [db.file] is opened [O_RDWR|O_CREATE], [db.metafile] [O_RDWR|O_SYNC]. *)
Inductive handle : Type := DataFile | MetaFile.

Inductive event : Type :=
  | EvOpenFile (h : handle)
  | EvStat
  | EvReadAt (off : Z) (len : nat)
  | EvWriteAt (h : handle) (off : Z) (len : nat)
  | EvMmap (size : Z)
  | EvFsync (h : handle).

Record World : Type := MkWorld {
  w_disk : list byte;
  w_pagesize : Z;
  w_open_err : handle -> option error;
  w_stat_err : option error;
  w_readat_err : option error;
  w_writeat_err : option (nat * error);
  w_mmap_err : option error;
  w_fsync_err : option error;
  w_trace : list event
}.

Definition log (w : World) (e : event) : World :=
  MkWorld (w_disk w) (w_pagesize w) (w_open_err w) (w_stat_err w)
    (w_readat_err w) (w_writeat_err w) (w_mmap_err w) (w_fsync_err w)
    (w_trace w ++ [e]).

Definition set_disk (w : World) (d : list byte) : World :=
  MkWorld d (w_pagesize w) (w_open_err w) (w_stat_err w)
    (w_readat_err w) (w_writeat_err w) (w_mmap_err w) (w_fsync_err w)
    (w_trace w).

(** [os.OpenFile(path, flags, mode)] *)
Definition os_OpenFile (w : World) (h : handle) : World * option handle * option error :=
  match w_open_err w h with
  | Some e => (log w (EvOpenFile h), None, Some e)
  | None => (log w (EvOpenFile h), Some h, None)
  end.

(** [file.Stat()], reduced to [info.Size()] (an [int64]; its conversion to
    [int] in [DB.mmap] changes nothing). *)
Definition file_Stat (w : World) : World * Z * option error :=
  match w_stat_err w with
  | Some e => (log w EvStat, 0, Some e)
  | None => (log w EvStat, Z.of_nat (length (w_disk w)), None)
  end.

(** [file.ReadAt(b, off)] with [len(b) = n]: a short read fills the rest
    with what was there (zeroes, the buffer being fresh) and returns
    [io.EOF]. *)
Definition file_ReadAt (w : World) (n : nat) (off : nat) : World * list byte * option error :=
  let w' := log w (EvReadAt (Z.of_nat off) n) in
  match w_readat_err w with
  | Some e => (w', Mem.make n, Some e)
  | None =>
      let got := take n (drop off (w_disk w)) in
      if (length got <? n)%nat
      then (w', got ++ Mem.make (n - length got), Some EOF)
      else (w', got, None)
  end.

(** The file after the bytes [b] are written at [off]: it grows (zero
    filled) when the write ends past its end; a write of no byte changes
    nothing. *)
Definition pwrite (d : list byte) (b : list byte) (off : nat) : list byte :=
  match b with
  | [] => d
  | _ => list_inserts off b (d ++ Mem.make (off + length b - length d))
  end.

(** [file.WriteAt(b, off)], reduced to its error (no caller looks at the
    count). A write that fails after [n] bytes leaves these [n] bytes in
    the file. *)
Definition file_WriteAt (w : World) (h : handle) (b : list byte) (off : nat)
  : World * option error :=
  let w' := log w (EvWriteAt h (Z.of_nat off) (length b)) in
  match w_writeat_err w with
  | Some (n, e) => (set_disk w' (pwrite (w_disk w) (take n b) off), Some e)
  | None => (set_disk w' (pwrite (w_disk w) b off), None)
  end.

(** [syscall.Mmap(fd, 0, size, PROT_READ, MAP_SHARED)]. The mapping shows
    the file; no operation below writes the file once it is mapped, so the
    bytes are taken at the time of the call. The file backs the mapping up
    to [mapped_end]; the tail of the last backed page reads as zero. *)
Definition syscall_Mmap (w : World) (size : Z) : World * option (list byte) * option error :=
  match w_mmap_err w with
  | Some e => (log w (EvMmap size), None, Some e)
  | None => (log w (EvMmap size), Some (w_disk w), None)
  end.

(** The end of the part of a mapping that the file backs: the size of the
    file rounded up to the page size of the system. *)
Definition mapped_end (w : World) : Z :=
  let n := Z.of_nat (length (w_disk w)) in
  let s := w_pagesize w in
  if 0 <? s then (n + s - 1) / s * s else n.

(** A load of the [n] bytes at offset [p] of the mapping. The pages of the
    mapping that lie wholly past the end of the file have nothing behind
    them: a load that reaches one of them raises SIGBUS, which ends the
    process. *)
Definition mapped_load (w : World) (p : nat) (n : Z) : outcome () :=
  if Z.of_nat p + n <=? mapped_end w then Ret ()
  else Panic "unexpected fault address".

(** [syscall.Fsync(fd)] *)
Definition syscall_Fsync (w : World) (h : handle) : World * option error :=
  (log w (EvFsync h), w_fsync_err w).

(** ** Freelist *)

(** Modelled from the spec: the [freelist] type and its methods [read],
    [allocate] and [release] are used by the methods of [DB] but declared
    in no file under src/. The spec (section 4.2): the state is an ordered
    list of free page ids and a mapping from txid to the pages released by
    that txid. *)
Record freelist : Type := MkFreelist {
  fl_ids : list Z;
  fl_pending : gmap Z (list Z)
}.

(** [&freelist{pending: make(map[txnid][]pgid)}] *)
Definition freelist_new : freelist := MkFreelist [] ∅.

(** Modelled from the spec: [freelist.read(page)] (absent from src/)
    deserializes the free set from a freelist page, whose body is [count]
    page ids ([page.freelist()]). *)
Definition freelist_read (f : freelist) (b : list byte) (p : nat) : freelist :=
  MkFreelist (Page.freelist b p) (fl_pending f).

(** The bytes of a freelist page that [freelist.read] loads: the page
    header and the [count] page ids after it. *)
Definition freelist_size (b : list byte) (p : nat) : Z :=
  Z.of_nat pageHeaderSize + 8 * Page.count b p.

(** Modelled from the spec: part of [freelist.allocate] (absent from
    src/); the [n] ids from [start] on are all free. *)
Definition is_free_run (ids : list Z) (start n : Z) : bool :=
  forallb (fun id => bool_decide (id ∈ ids)) (seqZ start n).

(** Modelled from the spec: [freelist.allocate(n)] (absent from src/)
    finds the lowest-id contiguous run of length [n] in the free set,
    removes it and returns its first id; it returns 0 if there is none. *)
Definition freelist_allocate (f : freelist) (n : Z) : freelist * Z :=
  match List.find (fun id => is_free_run (fl_ids f) id n)
                  (merge_sort Z.le (fl_ids f)) with
  | Some id =>
      (MkFreelist (filter (fun x => x ∉ seqZ id n) (fl_ids f)) (fl_pending f), id)
  | None => (f, 0)
  end.

(** Modelled from the spec: part of [freelist.release] (absent from src/);
    the pages of the pending entries with key at most [minid]. *)
Definition released (f : freelist) (minid : Z) : list Z :=
  mjoin (snd <$> map_to_list (filter (fun kv : Z * list Z => kv.1 <= minid)
                                     (fl_pending f))).

(** Modelled from the spec: [freelist.release(minid)] (absent from src/)
    moves every pending entry with key at most [minid] into the free set,
    which is kept sorted by id. *)
Definition freelist_release (f : freelist) (minid : Z) : freelist :=
  MkFreelist (merge_sort Z.le (fl_ids f ++ released f minid))
             (filter (fun kv : Z * list Z => ¬ kv.1 <= minid) (fl_pending f)).

(** ** Transactions and the database value (types [Transaction], [DB]) *)

(** Modelled from the spec: the [sys] type (the in-memory bucket catalog
    read by [Transaction.init] and searched by [Transaction.Bucket]) and its
    [bucket] entries are declared in no file under src/. The spec (section
    3): the catalog is a mapping from bucket name to a bucket descriptor
    that contains the root page id of the bucket's tree; [sys.get(name)] is
    the lookup in that mapping and returns nil for a name without entry. *)
Record bucket : Type := MkBucket { bucket_root : Z }.

(** Modelled from the spec: [sys.get(name)] (absent from src/) is the
    lookup of a name in the catalog. *)
Definition sys_get (s : gmap string bucket) (name : string) : option bucket :=
  s !! name.

(** A [*meta] held by a transaction points into the mapping (readers) or to
    a copy of its own on the heap (the writer). *)
Inductive metaref : Type :=
  | MetaMmap (q : nat)
  | MetaHeap (m : meta).

(** A [*page] points into the mapping or is a buffer of the writer. *)
Inductive pageref : Type :=
  | PageMmap (p : nat)
  | PageHeap (buf : list byte).

(** [type Transaction struct { id int; db *DB; meta *meta; sys *sys;
    pages map[pgid]*page }]. The back pointer [db] is the [DB] argument of
    each operation; a nil [pages] map is [None]. *)
Record Transaction : Type := MkTransaction {
  tx_id : Z;
  tx_meta : metaref;
  tx_sys : gmap string bucket;
  tx_pages : option (gmap Z (list byte))
}.

(** Modelled from the spec: the [RWTransaction] type is declared in no file
    under src/; [DB.RWTransaction] builds it with an empty [nodes] map, calls its
    [init] and reaches its [meta] field. The spec (section 4.5): a
    read/write transaction copies the current meta, increments the
    transaction id and maintains a dirty-page map from new page id to page
    buffer. The [node] values are declared outside src/ as well, and no
    operation below reads the map. *)
Record RWTransaction : Type := MkRWTransaction {
  rw_tx : Transaction;
  rw_nodes : gmap Z ()
}.

(** [type DB struct]. [transactions] is a slice of pointers: each element
    is the address of a [Transaction] with the struct it points to;
    [db_heap] is the next address [&Transaction{}] returns. [meta0] and
    [meta1] point into [data]. [rwlock] is the writer mutex ([true] when
    held); [metalock] is taken and released within each call and [mmaplock]
    is never taken by the operations below. *)
Record DB : Type := MkDB {
  db_path : string;
  db_file : option handle;
  db_metafile : option handle;
  db_data : option (list byte);
  db_meta0 : option nat;
  db_meta1 : option nat;
  db_pageSize : Z;
  db_opened : bool;
  db_rwtransaction : option RWTransaction;
  db_transactions : list (nat * Transaction);
  db_freelist : option freelist;
  db_rwlock : bool;
  db_heap : nat
}.

(** [func NewDB() *DB { return &DB{} }] *)
Definition NewDB : DB :=
  MkDB "" None None None None None 0 false None [] None false 0.

Definition set_path (db : DB) (v : string) : DB :=
  MkDB v (db_file db) (db_metafile db) (db_data db) (db_meta0 db) (db_meta1 db)
    (db_pageSize db) (db_opened db) (db_rwtransaction db) (db_transactions db)
    (db_freelist db) (db_rwlock db) (db_heap db).
Definition set_file (db : DB) (v : option handle) : DB :=
  MkDB (db_path db) v (db_metafile db) (db_data db) (db_meta0 db) (db_meta1 db)
    (db_pageSize db) (db_opened db) (db_rwtransaction db) (db_transactions db)
    (db_freelist db) (db_rwlock db) (db_heap db).
Definition set_metafile (db : DB) (v : option handle) : DB :=
  MkDB (db_path db) (db_file db) v (db_data db) (db_meta0 db) (db_meta1 db)
    (db_pageSize db) (db_opened db) (db_rwtransaction db) (db_transactions db)
    (db_freelist db) (db_rwlock db) (db_heap db).
Definition set_data (db : DB) (v : option (list byte)) : DB :=
  MkDB (db_path db) (db_file db) (db_metafile db) v (db_meta0 db) (db_meta1 db)
    (db_pageSize db) (db_opened db) (db_rwtransaction db) (db_transactions db)
    (db_freelist db) (db_rwlock db) (db_heap db).
Definition set_meta0 (db : DB) (v : option nat) : DB :=
  MkDB (db_path db) (db_file db) (db_metafile db) (db_data db) v (db_meta1 db)
    (db_pageSize db) (db_opened db) (db_rwtransaction db) (db_transactions db)
    (db_freelist db) (db_rwlock db) (db_heap db).
Definition set_meta1 (db : DB) (v : option nat) : DB :=
  MkDB (db_path db) (db_file db) (db_metafile db) (db_data db) (db_meta0 db) v
    (db_pageSize db) (db_opened db) (db_rwtransaction db) (db_transactions db)
    (db_freelist db) (db_rwlock db) (db_heap db).
Definition set_pageSize (db : DB) (v : Z) : DB :=
  MkDB (db_path db) (db_file db) (db_metafile db) (db_data db) (db_meta0 db)
    (db_meta1 db) v (db_opened db) (db_rwtransaction db) (db_transactions db)
    (db_freelist db) (db_rwlock db) (db_heap db).
Definition set_opened (db : DB) (v : bool) : DB :=
  MkDB (db_path db) (db_file db) (db_metafile db) (db_data db) (db_meta0 db)
    (db_meta1 db) (db_pageSize db) v (db_rwtransaction db) (db_transactions db)
    (db_freelist db) (db_rwlock db) (db_heap db).
Definition set_rwtransaction (db : DB) (v : option RWTransaction) : DB :=
  MkDB (db_path db) (db_file db) (db_metafile db) (db_data db) (db_meta0 db)
    (db_meta1 db) (db_pageSize db) (db_opened db) v (db_transactions db)
    (db_freelist db) (db_rwlock db) (db_heap db).
Definition set_transactions (db : DB) (v : list (nat * Transaction)) : DB :=
  MkDB (db_path db) (db_file db) (db_metafile db) (db_data db) (db_meta0 db)
    (db_meta1 db) (db_pageSize db) (db_opened db) (db_rwtransaction db) v
    (db_freelist db) (db_rwlock db) (db_heap db).
Definition set_freelist (db : DB) (v : option freelist) : DB :=
  MkDB (db_path db) (db_file db) (db_metafile db) (db_data db) (db_meta0 db)
    (db_meta1 db) (db_pageSize db) (db_opened db) (db_rwtransaction db)
    (db_transactions db) v (db_rwlock db) (db_heap db).
Definition set_rwlock (db : DB) (v : bool) : DB :=
  MkDB (db_path db) (db_file db) (db_metafile db) (db_data db) (db_meta0 db)
    (db_meta1 db) (db_pageSize db) (db_opened db) (db_rwtransaction db)
    (db_transactions db) (db_freelist db) v (db_heap db).
Definition set_heap (db : DB) (v : nat) : DB :=
  MkDB (db_path db) (db_file db) (db_metafile db) (db_data db) (db_meta0 db)
    (db_meta1 db) (db_pageSize db) (db_opened db) (db_rwtransaction db)
    (db_transactions db) (db_freelist db) (db_rwlock db) v.

(** The bytes behind [db.data]. *)
Definition db_bytes (db : DB) : list byte := default [] (db_data db).

(** [len(db.data)]: nil before [mmap], the mapped size after. *)
Definition data_len (db : DB) : Z :=
  match db_data db with
  | None => 0
  | Some _ => mmap_size
  end.

(** The buffer and offset behind a [*page], and the struct behind a
    [*meta]. *)
Definition page_bytes (db : DB) (r : pageref) : list byte * nat :=
  match r with
  | PageMmap p => (db_bytes db, p)
  | PageHeap buf => (buf, 0%nat)
  end.

Definition meta_of (db : DB) (r : metaref) : meta :=
  match r with
  | MetaMmap q => MetaAt.read (db_bytes db) q
  | MetaHeap m => m
  end.

(** [func (db *DB) page(id pgid) *page]:
    [&db.data[id*pgid(db.pageSize)]], with Go's bounds check. *)
Definition DB_page (db : DB) (id : Z) : outcome nat :=
  let i := u64 (id * u64 (db_pageSize db)) in
  if i <? data_len db then Ret (Z.to_nat i)
  else Panic "index out of range".

(** [func (db *DB) pageInBuffer(b []byte, id pgid) *page] *)
Definition DB_pageInBuffer (db : DB) (b : list byte) (id : Z) : outcome nat :=
  let i := u64 (id * u64 (db_pageSize db)) in
  if i <? Z.of_nat (length b) then Ret (Z.to_nat i)
  else Panic "index out of range".

(** [func (db *DB) meta() *meta] *)
Definition DB_meta (db : DB) : outcome nat :=
  match db_meta0 db, db_meta1 db with
  | Some q0, Some q1 =>
      if MetaAt.txnid (db_bytes db) q0 >? MetaAt.txnid (db_bytes db) q1
      then Ret q0
      else Ret q1
  | _, _ => Panic "nil pointer dereference"
  end.

(** [func (t *Transaction) page(id pgid) *page] *)
Definition Transaction_page (db : DB) (t : Transaction) (id : Z) : outcome pageref :=
  match tx_pages t with
  | Some pages =>
      match pages !! id with
      | Some p => Ret (PageHeap p)
      | None => p ← DB_page db id; Ret (PageMmap p)
      end
  | None => p ← DB_page db id; Ret (PageMmap p)
  end.

(** [func (t *Transaction) Close()]: the body holds a TODO comment and no
    statement. The transaction is named by its address [a]. *)
Definition Transaction_Close (db : DB) (a : nat) : DB := db.

(** [func (db *DB) removeTransaction(t *Transaction)]: drops the first
    element of [db.transactions] that is the pointer [t]. *)
Fixpoint remove_first (a : nat) (l : list (nat * Transaction)) : list (nat * Transaction) :=
  match l with
  | [] => []
  | x :: r => if (x.1 =? a)%nat then r else x :: remove_first a r
  end.

Definition DB_removeTransaction (db : DB) (a : nat) : DB :=
  set_transactions db (remove_first a (db_transactions db)).

(** [type Bucket struct { *bucket; name string; transaction *Transaction }] *)
Record Bucket : Type := MkBucketRef {
  b_bucket : bucket;
  b_name : string
}.

(** [func (t *Transaction) Bucket(name string) *Bucket] *)
Definition Transaction_Bucket (t : Transaction) (name : string) : option Bucket :=
  match sys_get (tx_sys t) name with
  | None => None
  | Some b => Some (MkBucketRef b name)
  end.

(** [func (db *DB) close()] *)
Definition DB_close (db : DB) : DB := set_freelist db None.

(** [func (db *DB) Close()] *)
Definition DB_Close (db : DB) : DB := DB_close db.

(** [func (db *DB) sync(force bool) error] *)
Definition DB_sync (db : DB) (w : World) (force : bool) : outcome (World * option error) :=
  if db_opened db then Ret (w, Some DatabaseAlreadyOpenedError)
  else
    match db_file db with
    | None => Panic "nil pointer dereference"
    | Some h =>
        let '(w, err) := syscall_Fsync w h in
        match err with
        | Some e => Ret (w, Some e)
        | None => Ret (w, None)
        end
    end.

(** ** Creating, mapping and opening the file *)

(** The body of the loop of [DB.init] for the meta page [i], once
    [pageInBuffer] has given the page [p]. *)
Definition init_meta_at (db : DB) (buf : list byte) (p : nat) (i : Z) : list byte :=
  let buf := Page.set_id buf p (u64 i) in
  let buf := Page.set_flags buf p p_meta in
  let q := Page.meta p in
  let buf := MetaAt.set_magic buf q magic in
  let buf := MetaAt.set_version buf q version in
  let buf := MetaAt.set_pageSize buf q (u32 (db_pageSize db)) in
  let buf := MetaAt.set_version buf q version in
  let buf := MetaAt.set_free buf q 2 in
  let buf := MetaAt.set_sys buf q 3 in
  let buf := MetaAt.set_pgid buf q 4 in
  MetaAt.set_txnid buf q (u64 i).

Definition init_meta (db : DB) (buf : list byte) (i : Z) : outcome (list byte) :=
  p ← DB_pageInBuffer db buf i;
  Ret (init_meta_at db buf p i).

(** The three assignments [p.id = pgid(i); p.flags = fl; p.count = 0] that
    [DB.init] makes for the freelist page and for the catalog page. *)
Definition init_empty_at (buf : list byte) (p : nat) (i : Z) (fl : Z) : list byte :=
  let buf := Page.set_id buf p (u64 i) in
  let buf := Page.set_flags buf p fl in
  Page.set_count buf p 0.

(** The buffer [DB.init] builds before it writes it. *)
Definition init_buffer (db : DB) : outcome (list byte) :=
  let n := int64 (db_pageSize db * 4) in
  if (n <? 0) || (maxAlloc <? n) then Panic "makeslice: len out of range"
  else
    let buf := Mem.make (Z.to_nat n) in
    buf ← init_meta db buf 0;
    buf ← init_meta db buf 1;
    p ← DB_pageInBuffer db buf 2;
    let buf := init_empty_at buf p 2 p_freelist in
    p ← DB_pageInBuffer db buf 3;
    let buf := init_empty_at buf p 3 p_buckets in
    Ret buf.

(** The buffer of [DB.init] in closed form, for a page size within which
    the four index computations of [pageInBuffer] stay in the buffer
    (lemma [init_buffer_closed]). *)
Definition init_bytes (db : DB) : list byte :=
  let P := Z.to_nat (db_pageSize db) in
  let buf := Mem.make (4 * P) in
  let buf := init_meta_at db buf 0 0 in
  let buf := init_meta_at db buf P 1 in
  let buf := init_empty_at buf (2 * P) 2 p_freelist in
  init_empty_at buf (3 * P) 3 p_buckets.

(** [func (db *DB) init() error] *)
Definition DB_init (db : DB) (w : World) : outcome (DB * World * option error) :=
  let db := set_pageSize db (w_pagesize w) in
  buf ← init_buffer db;
  match db_metafile db with
  | None => Panic "nil pointer dereference"
  | Some h =>
      let '(w, err) := file_WriteAt w h buf 0 in
      match err with
      | Some e => Ret (db, w, Some e)
      | None => Ret (db, w, None)
      end
  end.

(** [func (db *DB) mmap() error] *)
Definition DB_mmap (db : DB) (w : World) : outcome (DB * World * option error) :=
  let '(w, size, err) := file_Stat w in
  match err with
  | Some e => Ret (db, w, Some (Error "mmap stat error" (Some e)))
  | None =>
      if size <? int64 (db_pageSize db * 2)
      then Ret (db, w, Some (Error "file size too small" None))
      else
        let '(w, data, err) := syscall_Mmap w mmap_size in
        let db := set_data db data in
        match err with
        | Some e => Ret (db, w, Some e)
        | None =>
            p0 ← DB_page db 0;
            let db := set_meta0 db (Some (Page.meta p0)) in
            p1 ← DB_page db 1;
            let db := set_meta1 db (Some (Page.meta p1)) in
            match validate (MetaAt.read (db_bytes db) (Page.meta p0)) with
            | Some e => Ret (db, w, Some (Error "meta0 error" (Some e)))
            | None =>
                match validate (MetaAt.read (db_bytes db) (Page.meta p1)) with
                | Some e => Ret (db, w, Some (Error "meta1 error" (Some e)))
                | None => Ret (db, w, None)
                end
            end
        end
  end.

(** The branch of [DB.Open] for a file that is not empty: the first
    [minPageSize] bytes give the page size. *)
Definition read_pageSize (db : DB) (w : World) : outcome (DB * World * option error) :=
  let '(w, buf, err) := file_ReadAt w (Z.to_nat minPageSize) 0 in
  match err with
  | None =>
      p ← DB_pageInBuffer db buf 0;
      let m := MetaAt.read buf (Page.meta p) in
      match validate m with
      | Some e => Ret (db, w, Some (Error "meta error" (Some e)))
      | None => Ret (set_pageSize db (meta_pageSize m), w, None)
      end
  | Some _ => Ret (db, w, None)
  end.

(** [func (db *DB) Open(path string, mode os.FileMode) error] *)
Definition DB_Open (db : DB) (w : World) (path : string) (mode : Z)
  : outcome (DB * World * option error) :=
  if db_opened db then Ret (db, w, Some DatabaseAlreadyOpenedError)
  else
    let db := set_path db path in
    let '(w, f, err) := os_OpenFile w DataFile in
    let db := set_file db f in
    match err with
    | Some e => Ret (DB_close db, w, Some e)
    | None =>
    let '(w, f, err) := os_OpenFile w MetaFile in
    let db := set_metafile db f in
    match err with
    | Some e => Ret (DB_close db, w, Some e)
    | None =>
    let '(w, size, err) := file_Stat w in
    match err with
    | Some e => Ret (db, w, Some (Error "stat error" (Some e)))
    | None =>
    '(db, w, err) ← (if size =? 0 then DB_init db w else read_pageSize db w);
    match err with
    | Some e => Ret (db, w, Some e)
    | None =>
    '(db, w, err) ← DB_mmap db w;
    match err with
    | Some e => Ret (DB_close db, w, Some e)
    | None =>
    let db := set_freelist db (Some freelist_new) in
    q ← DB_meta db;
    p ← DB_page db (MetaAt.free (db_bytes db) q);
    _ ← mapped_load w p (freelist_size (db_bytes db) p);
    let db := set_freelist db (Some (freelist_read freelist_new (db_bytes db) p)) in
    Ret (set_opened db true, w, None)
    end end end end end.

(** ** Allocation *)

Definition set_meta_pgid (m : meta) (v : Z) : meta :=
  Meta (meta_magic m) (meta_version m) (meta_pageSize m) v
       (meta_free m) (meta_sys m) (meta_txnid m).

Definition set_meta_txnid (m : meta) (v : Z) : meta :=
  Meta (meta_magic m) (meta_version m) (meta_pageSize m) (meta_pgid m)
       (meta_free m) (meta_sys m) v.

Definition set_tx_meta (t : Transaction) (r : metaref) : Transaction :=
  MkTransaction (tx_id t) r (tx_sys t) (tx_pages t).

Definition set_tx_pages (t : Transaction) (v : option (gmap Z (list byte))) : Transaction :=
  MkTransaction (tx_id t) (tx_meta t) (tx_sys t) v.

(** [func (db *DB) allocate(count int) *page]. The result is the buffer
    the returned [*page] points to (at offset 0). *)
Definition DB_allocate (db : DB) (count : Z) : outcome (DB * list byte) :=
  let n := int64 (count * db_pageSize db) in
  if (n <? 0) || (maxAlloc <? n) then Panic "makeslice: len out of range"
  else if n =? 0 then Panic "index out of range"
  else
    let buf := Mem.make (Z.to_nat n) in
    let buf := Page.set_overflow buf 0 (u32 (count - 1)) in
    match db_freelist db with
    | None => Panic "nil pointer dereference"
    | Some f =>
        let '(f, id) := freelist_allocate f count in
        let db := set_freelist db (Some f) in
        let buf := Page.set_id buf 0 id in
        if negb (Page.id buf 0 =? 0) then Ret (db, buf)
        else
          match db_rwtransaction db with
          | None => Panic "nil pointer dereference"
          | Some rw =>
              match tx_meta (rw_tx rw) with
              | MetaMmap _ => Panic "write to a read-only mapping"
              | MetaHeap m =>
                  let buf := Page.set_id buf 0 (meta_pgid m) in
                  let m := set_meta_pgid m (u64 (meta_pgid m + u64 count)) in
                  let rw := MkRWTransaction (set_tx_meta (rw_tx rw) (MetaHeap m))
                                            (rw_nodes rw) in
                  Ret (set_rwtransaction db (Some rw), buf)
              end
          end
    end.

(** ** Beginning transactions and reading through them *)

Section Engine.

(** Modelled from the spec: [sys.read(page)], which deserializes the bucket
    catalog from its page, is declared in no file under src/, and the spec
    gives the catalog page no byte layout; the decoder is a parameter. It
    receives the buffer and the offset of the page. *)
Variable sys_read : list byte -> nat -> gmap string bucket.

(** Modelled from the spec: [Cursor], [Bucket.Cursor] and [Cursor.Get] (the
    B+tree lookup: "exact match lookup: seek(key) then verify equality")
    are declared in no file under src/; they are parameters. A nil
    [*Cursor] and a nil [[]byte] are [None]. *)
Variable Cursor : Type.
Variable Bucket_Cursor : Transaction -> Bucket -> option Cursor.
Variable Cursor_Get : DB -> Transaction -> Cursor -> list byte -> option (list byte).

(** [func (t *Transaction) init(db *DB)] on a fresh [&Transaction{}]. *)
Definition Transaction_init (db : DB) : outcome Transaction :=
  q ← DB_meta db;
  let t := MkTransaction 0 (MetaMmap q) ∅ None in
  r ← Transaction_page db t (meta_sys (meta_of db (tx_meta t)));
  let '(b, p) := page_bytes db r in
  Ret (MkTransaction (tx_id t) (tx_meta t) (sys_read b p) (tx_pages t)).

(** Modelled from the spec: [RWTransaction.init] is declared in no file
    under src/. The spec (section 4.5): the writer copies the current meta,
    increments the transaction id and maintains a dirty-page map. [nodes]
    is the map the struct literal [&RWTransaction{nodes: ...}] was built
    with. *)
Definition RWTransaction_init (db : DB) (nodes : gmap Z ()) : outcome RWTransaction :=
  t ← Transaction_init db;
  let m := meta_of db (tx_meta t) in
  let m := set_meta_txnid m (u64 (meta_txnid m + 1)) in
  Ret (MkRWTransaction (set_tx_pages (set_tx_meta t (MetaHeap m)) (Some ∅))
                       nodes).

(** Modelled from the spec: [Transaction.id()] is called by
    [DB.RWTransaction] but declared in no file under src/ (the struct field
    [id] is assigned nowhere). The spec: a reader captures the current meta
    at begin, and its txid is the transaction id of that snapshot. *)
Definition Transaction_id (db : DB) (t : Transaction) : Z :=
  meta_txnid (meta_of db (tx_meta t)).

(** [func (db *DB) Transaction()], returning the transaction and an error. *)
Definition DB_Transaction (db : DB)
  : outcome (DB * option (nat * Transaction) * option error) :=
  if negb (db_opened db) then Ret (db, None, Some DatabaseNotOpenError)
  else
    t ← Transaction_init db;
    let a := db_heap db in
    let db := set_heap db (S a) in
    let db := set_transactions db (db_transactions db ++ [(a, t)]) in
    Ret (db, Some (a, t), None).

(** The largest [txnid], the start value of the loop below. *)
Definition max_txnid : Z := 0xFFFFFFFFFFFFFFFF.

(** The loop of [DB.RWTransaction] over [db.transactions]. *)
Definition min_reader (db : DB) : Z :=
  fold_left
    (fun minid (at_ : nat * Transaction) =>
       if Transaction_id db at_.2 <? minid then Transaction_id db at_.2 else minid)
    (db_transactions db) 0xFFFFFFFFFFFFFFFF.

(** [func (db *DB) RWTransaction()], returning the writer and an error. *)
Definition DB_RWTransaction (db : DB)
  : outcome (DB * option RWTransaction * option error) :=
  if db_rwlock db then Blocked
  else
    let db := set_rwlock db true in
    if negb (db_opened db) then
      Ret (set_rwlock db false, None, Some DatabaseNotOpenError)
    else
      t ← RWTransaction_init db ∅;
      let db := set_rwtransaction db (Some t) in
      let minid := min_reader db in
      if minid >? 0 then
        match db_freelist db with
        | None => Panic "nil pointer dereference"
        | Some f =>
            Ret (set_freelist db (Some (freelist_release f (u64 (minid - 1)))),
                 Some t, None)
        end
      else Ret (db, Some t, None).

(** [func (t *Transaction) Cursor(name string) *Cursor] *)
Definition Transaction_Cursor (t : Transaction) (name : string) : option Cursor :=
  match Transaction_Bucket t name with
  | None => None
  | Some b => Bucket_Cursor t b
  end.

(** [func (t *Transaction) Get(name string, key []byte) []byte] *)
Definition Transaction_Get (db : DB) (t : Transaction) (name : string) (key : list byte)
  : option (list byte) :=
  match Transaction_Cursor t name with
  | None => None
  | Some c => Cursor_Get db t c key
  end.

(** [func (db *DB) Bucket(name string)], returning the bucket and an error. *)
Definition DB_Bucket (db : DB) (name : string)
  : outcome (DB * option Bucket * option error) :=
  '(db, t, err) ← DB_Transaction db;
  match err, t with
  | Some e, _ => Ret (db, None, Some e)
  | None, Some (a, t) =>
      let b := Transaction_Bucket t name in
      Ret (Transaction_Close db a, b, None)
  | None, None => Panic "nil pointer dereference"
  end.

(** [func (db *DB) Get(name string, key []byte) ([]byte, error)] *)
Definition DB_Get (db : DB) (name : string) (key : list byte)
  : outcome (DB * option (list byte) * option error) :=
  '(db, t, err) ← DB_Transaction db;
  match err, t with
  | Some e, _ => Ret (db, None, Some e)
  | None, Some (a, t) =>
      let v := Transaction_Get db t name key in
      Ret (Transaction_Close db a, v, None)
  | None, None => Panic "nil pointer dereference"
  end.

End Engine.

(** ** Concrete databases

    The inputs at which the properties below are evaluated. *)

Module Ex.

(** A system where every call succeeds, with 4096-byte pages and no file
    yet. *)
Definition world_new : World :=
  MkWorld [] 4096 (fun _ => None) None None None None None [].

(** A [DB] whose two handles are open, as [Open] has it when it calls
    [init]. *)
Definition db_files : DB :=
  set_metafile (set_file NewDB (Some DataFile)) (Some MetaFile).

(** The file [init] creates, and the same file with the magic of the second
    meta page overwritten by zeroes. *)
Definition disk : list byte := init_bytes (set_pageSize NewDB 4096).
Definition disk_bad_meta1 : list byte := Mem.store disk (4096 + 16) 4 0.

Definition world : World := set_disk world_new disk.
Definition world_bad_meta1 : World := set_disk world_new disk_bad_meta1.

(** The database [Open] returns on [world]. *)
Definition db_open : DB :=
  match DB_Open NewDB world "chain.db" 384 with
  | Ret (db, _, _) => db
  | _ => NewDB
  end.

(** A catalog decoder that finds no bucket. *)
Definition no_buckets : list byte -> nat -> gmap string bucket := fun _ _ => ∅.

(** [db_open] with one reader and with pages 5 and 6 pending release by
    transaction 0. *)
Definition db_reader : DB :=
  match DB_Transaction no_buckets db_open with
  | Ret (db, _, _) => set_freelist db (Some (MkFreelist [] {[ 0 := [5; 6] ]}))
  | _ => NewDB
  end.

(** [db_open] during a writer transaction, with the pages 7, 8 and 9
    free. *)
Definition writer_meta : meta := Meta magic version 4096 4 2 3 2.
Definition writer : RWTransaction :=
  MkRWTransaction (MkTransaction 0 (MetaHeap writer_meta) ∅ (Some ∅)) ∅.
Definition db_writer : DB :=
  set_freelist (set_rwtransaction (set_rwlock db_open true) (Some writer))
               (Some (MkFreelist [7; 8; 9] ∅)).

End Ex.

(** The part of [DB.Open] after the branch on the size of the file, as a
    function of what that branch returned: map the file, read the freelist,
    mark the database open. [DB_Open] is its branch followed by this
    (lemma [DB_Open_run]). *)
Definition Open_finish : DB * World * option error -> outcome (DB * World * option error) :=
  fun '(db, w, err) =>
    match err with
    | Some e => Ret (db, w, Some e)
    | None =>
    '(db, w, err) ← DB_mmap db w;
    match err with
    | Some e => Ret (DB_close db, w, Some e)
    | None =>
    let db := set_freelist db (Some freelist_new) in
    q ← DB_meta db;
    p ← DB_page db (MetaAt.free (db_bytes db) q);
    _ ← mapped_load w p (freelist_size (db_bytes db) p);
    let db := set_freelist db (Some (freelist_read freelist_new (db_bytes db) p)) in
    Ret (set_opened db true, w, None)
    end end.

(** ** The rest of the facade of [DB] and of [Transaction] *)

(** [func (db *DB) Path() string] *)
Definition DB_Path (db : DB) : string := db_path db.

(** [func (t *Transaction) Buckets() []*Bucket]: the body logs a warning
    and returns nil. *)
Definition Transaction_Buckets (t : Transaction) : option (list Bucket) := None.

(** [func (t *Transaction) stat(name string) *Stat]: returns nil. *)
Definition Transaction_stat (t : Transaction) (name : string) : option () := None.

(** The answers of the calls [DB.Copy] and [DB.CopyFile] make to package
    [os] and [io] directly: [os.Create(path)], [os.Open(db.path)] and
    [io.Copy(w, f)], which fails after [n] bytes when [ce_copy_err] is
    [Some (n, e)]. *)
Record CopyEnv : Type := MkCopyEnv {
  ce_create_err : option error;
  ce_open_err : option error;
  ce_copy_err : option (nat * error)
}.

Section Facade.

(** Modelled from the spec: [sys.read], as in section [Engine]. *)
Variable sys_read : list byte -> nat -> gmap string bucket.

(** Modelled from the spec: the methods [CreateBucket], [DeleteBucket],
    [Put], [Delete], [Commit] and [Rollback] of [RWTransaction] are called
    by the facade but declared in no file under src/; they are parameters.
    The writer they act on is [db.rwtransaction]; they may reach the
    file. *)
Variable RW_CreateBucket : DB -> World -> string -> outcome (DB * World * option error).
Variable RW_DeleteBucket : DB -> World -> string -> outcome (DB * World * option error).
Variable RW_Put : DB -> World -> string -> list byte -> list byte -> outcome (DB * World * option error).
Variable RW_Delete : DB -> World -> string -> list byte -> outcome (DB * World * option error).
Variable RW_Commit : DB -> World -> outcome (DB * World * option error).
Variable RW_Rollback : DB -> World -> outcome (DB * World).

(** The shape the four writing operations of the facade share: begin a
    writer, run the operation on it, roll back and return its error if it
    fails, commit otherwise. *)
Definition with_writer (db : DB) (w : World)
    (op : DB -> World -> outcome (DB * World * option error))
  : outcome (DB * World * option error) :=
  '(db, t, err) ← DB_RWTransaction sys_read db;
  match err with
  | Some e => Ret (db, w, Some e)
  | None =>
      '(db, w, err) ← op db w;
      match err with
      | Some e => '(db, w) ← RW_Rollback db w; Ret (db, w, Some e)
      | None => RW_Commit db w
      end
  end.

(** [func (db *DB) CreateBucket(name string) error] *)
Definition DB_CreateBucket (db : DB) (w : World) (name : string) :=
  with_writer db w (fun db w => RW_CreateBucket db w name).

(** [func (db *DB) DeleteBucket(name string) error] *)
Definition DB_DeleteBucket (db : DB) (w : World) (name : string) :=
  with_writer db w (fun db w => RW_DeleteBucket db w name).

(** [func (db *DB) Put(name string, key []byte, value []byte) error] *)
Definition DB_Put (db : DB) (w : World) (name : string) (key value : list byte) :=
  with_writer db w (fun db w => RW_Put db w name key value).

(** [func (db *DB) Delete(name string, key []byte) error] *)
Definition DB_Delete (db : DB) (w : World) (name : string) (key : list byte) :=
  with_writer db w (fun db w => RW_Delete db w name key).

(** [func (db *DB) Buckets()], returning the buckets and an error. *)
Definition DB_Buckets (db : DB)
  : outcome (DB * option (list Bucket) * option error) :=
  '(db, t, err) ← DB_Transaction sys_read db;
  match err, t with
  | Some e, _ => Ret (db, None, Some e)
  | None, Some (a, t) =>
      let bs := Transaction_Buckets t in
      Ret (Transaction_Close db a, bs, None)
  | None, None => Panic "nil pointer dereference"
  end.

(** [func (db *DB) Copy(w io.Writer) error]: the result holds the bytes
    that reached the writer. *)
Definition DB_Copy (db : DB) (w : World) (env : CopyEnv)
  : outcome (DB * list byte * option error) :=
  if negb (db_opened db) then Ret (db, [], Some DatabaseNotOpenError)
  else
    '(db, t, err) ← DB_Transaction sys_read db;
    match err, t with
    | Some e, _ => Ret (db, [], Some e)
    | None, Some (a, t) =>
        match ce_open_err env with
        | Some e => Ret (Transaction_Close db a, [], Some e)
        | None =>
            match ce_copy_err env with
            | Some (n, e) => Ret (Transaction_Close db a, take n (w_disk w), Some e)
            | None => Ret (Transaction_Close db a, w_disk w, None)
            end
        end
    | None, None => Panic "nil pointer dereference"
    end.

(** [func (db *DB) CopyFile(path string) error]: [dest] is the file at
    [path] before the call ([None] when there is none), the result holds
    it after the call, [path] being a file other than [db.path].
    [os.Create] creates the file or truncates it. *)
Definition DB_CopyFile (db : DB) (w : World) (env : CopyEnv) (dest : option (list byte))
  : outcome (DB * option (list byte) * option error) :=
  match ce_create_err env with
  | Some e => Ret (db, dest, Some e)
  | None =>
      '(db, written, err) ← DB_Copy db w env;
      Ret (db, Some written, err)
  end.

End Facade.

(** ** Sorting pages by id

    [type pages []*page] with the three methods of [sort.Interface]. The
    pointers are [pageref]s, read through the database they belong to;
    indices are Go [int]s. *)

Definition pages_Len (s : list pageref) : Z := Z.of_nat (length s).

Definition pages_at (s : list pageref) (i : Z) : outcome pageref :=
  if (0 <=? i) && (i <? Z.of_nat (length s)) then
    match s !! Z.to_nat i with
    | Some r => Ret r
    | None => Panic "index out of range"
    end
  else Panic "index out of range".

(** [func (s pages) Swap(i, j int) { s[i], s[j] = s[j], s[i] }] *)
Definition pages_Swap (s : list pageref) (i j : Z) : outcome (list pageref) :=
  pj ← pages_at s j;
  pi ← pages_at s i;
  Ret (<[Z.to_nat j := pi]> (<[Z.to_nat i := pj]> s)).

(** The [id] field behind a [*page]. *)
Definition pageref_id (db : DB) (r : pageref) : Z :=
  let '(b, p) := page_bytes db r in Page.id b p.

(** [func (s pages) Less(i, j int) bool { return s[i].id < s[j].id }] *)
Definition pages_Less (db : DB) (s : list pageref) (i j : Z) : outcome bool :=
  pi ← pages_at s i;
  pj ← pages_at s j;
  Ret (pageref_id db pi <? pageref_id db pj).

(** ** Values named in the further properties *)

(** The writer after [db.rwtransaction.meta.pgid += pgid(count)]. *)
Definition grow_writer (rw : RWTransaction) (m : meta) (count : Z) : RWTransaction :=
  MkRWTransaction
    (set_tx_meta (rw_tx rw) (MetaHeap (set_meta_pgid m (u64 (meta_pgid m + u64 count)))))
    (rw_nodes rw).

(** The first eight bytes of a meta body that validates: [magic] and
    [version], little endian. *)
Definition signature : list byte :=
  [Byte.xde; Byte.xc0; Byte.xad; Byte.xde; Byte.x01; Byte.x00; Byte.x00; Byte.x00].

(** ** More concrete inputs *)

Module ExMore.

(** The system after [Open] returned [Ex.db_open]. *)
Definition world_opened : World :=
  match DB_Open NewDB Ex.world "chain.db" 384 with
  | Ret (_, w, _) => w
  | _ => Ex.world
  end.

(** The file of [Ex] cut after its first page, and after 100 bytes. *)
Definition world_one_page : World := set_disk Ex.world_new (take 4096 Ex.disk).
Definition world_100_bytes : World := set_disk Ex.world_new (take 100 Ex.disk).

(** A system where a write fails with [ENOSPC] after 100 bytes. *)
Definition world_no_write : World :=
  MkWorld [] 4096 (fun _ => None) None None (Some (100%nat, SysError 28)) None None [].

(** [Ex.db_open] during a writer transaction, with no free page. *)
Definition db_writer_eof : DB :=
  set_freelist (set_rwtransaction (set_rwlock Ex.db_open true) (Some Ex.writer))
               (Some freelist_new).

(** The pages 5 and 6 pending from transaction 1, and [Ex.db_open] with
    that freelist. *)
Definition pending : freelist := MkFreelist [] {[ 1 := [5; 6] ]}.
Definition db_pending : DB := set_freelist Ex.db_open (Some pending).

(** Two heap pages with the ids 9 and 4. *)
Definition page9 : list byte := Page.set_id (Mem.make 4096) 0 9.
Definition page4 : list byte := Page.set_id (Mem.make 4096) 0 4.
Definition two_pages : list pageref := [PageHeap page9; PageHeap page4].

(** Calls of [os] and [io] that all succeed. *)
Definition copy_ok : CopyEnv := MkCopyEnv None None None.

(** Transaction methods that are never reached. *)
Definition no_op : DB -> World -> outcome (DB * World * option error) :=
  fun db w => Ret (db, w, None).
Definition no_rollback : DB -> World -> outcome (DB * World) :=
  fun db w => Ret (db, w).

End ExMore.

(** * Properties *)

(** ** Loads and stores *)

Module MemFacts.

Lemma byte_to_Z_range b : 0 <= Mem.byte_to_Z b < 256.
Proof.
  unfold Mem.byte_to_Z. pose proof (Byte.to_N_bounded b) as Hb.
  lia.
Qed.

Lemma byte_to_of_Z z : Mem.byte_to_Z (Mem.byte_of_Z z) = z mod 256.
Proof.
  unfold Mem.byte_to_Z, Mem.byte_of_Z.
  assert (Hr : 0 <= z mod 256 < 256) by (apply Z.mod_pos_bound; lia).
  destruct (Byte.of_N (Z.to_N (z mod 256))) as [b|] eqn:E.
  - apply Byte.to_of_N in E. rewrite E. lia.
  - apply Byte.of_N_None_iff in E. lia.
Qed.

Lemma length_encode n v : length (Mem.encode n v) = n.
Proof. revert v; induction n as [|n IH]; intros v; simpl; [done|]. by rewrite IH. Qed.

Lemma decode_range bs : 0 <= Mem.decode bs < 2 ^ (8 * Z.of_nat (length bs)).
Proof.
  induction bs as [|b r IH]; simpl Mem.decode; simpl length.
  - simpl. lia.
  - pose proof (byte_to_Z_range b) as Hb.
    replace (8 * Z.of_nat (S (length r))) with (8 + 8 * Z.of_nat (length r)) by lia.
    rewrite Z.pow_add_r by lia. change (2 ^ 8) with 256. nia.
Qed.

Lemma decode_encode n v : Mem.decode (Mem.encode n v) = v mod 2 ^ (8 * Z.of_nat n).
Proof.
  revert v; induction n as [|n IH]; intros v.
  - simpl. by rewrite Z.mod_1_r.
  - cbn [Mem.encode Mem.decode]. rewrite byte_to_of_Z, IH.
    replace (8 * Z.of_nat (S n)) with (8 + 8 * Z.of_nat n) by lia.
    rewrite Z.pow_add_r by lia. change (2 ^ 8) with 256.
    rewrite Z.rem_mul_r by lia. lia.
Qed.

Lemma length_store m off n v : length (Mem.store m off n v) = length m.
Proof. unfold Mem.store. apply length_inserts. Qed.

Lemma load_range m off n : 0 <= Mem.load m off n < 2 ^ (8 * Z.of_nat n).
Proof.
  unfold Mem.load. pose proof (decode_range (take n (drop off m))) as H.
  assert (Hl : (length (take n (drop off m)) <= n)%nat) by (rewrite length_take; lia).
  split; [lia|]. eapply Z.lt_le_trans; [apply H|].
  apply Z.pow_le_mono_r; lia.
Qed.

Lemma load_store_same m off n v :
  (off + n <= length m)%nat ->
  Mem.load (Mem.store m off n v) off n = v mod 2 ^ (8 * Z.of_nat n).
Proof.
  intros Hlen. unfold Mem.load, Mem.store.
  rewrite <- (decode_encode n v). f_equal.
  apply list_eq. intros i.
  pose proof (length_encode n v) as Hn.
  destruct (decide (i < n)%nat) as [Hi|Hi].
  - rewrite lookup_take_lt, lookup_drop by done.
    rewrite list_lookup_inserts by lia. f_equal. lia.
  - rewrite lookup_take_ge by lia. symmetry.
    apply lookup_ge_None. lia.
Qed.

Lemma load_store_same_eq m off off' n v :
  off = off' ->
  (off + n <= length m)%nat ->
  Mem.load (Mem.store m off n v) off' n = v mod 2 ^ (8 * Z.of_nat n).
Proof. intros <-. apply load_store_same. Qed.

Lemma length_make n : length (Mem.make n) = n.
Proof. apply length_replicate. Qed.

Lemma load_store_other m off n v off' n' :
  (off' + n' <= off \/ off + n <= off')%nat ->
  Mem.load (Mem.store m off n v) off' n' = Mem.load m off' n'.
Proof.
  intros Hdisj. unfold Mem.load, Mem.store. f_equal.
  apply list_eq. intros i.
  pose proof (length_encode n v) as Hn.
  destruct (decide (i < n')%nat) as [Hi|Hi].
  - rewrite !lookup_take_lt, !lookup_drop by done.
    destruct Hdisj as [Hd|Hd].
    + apply list_lookup_inserts_lt. lia.
    + apply list_lookup_inserts_ge. lia.
  - by rewrite !lookup_take_ge by lia.
Qed.

Lemma load_make len off n : Mem.load (Mem.make len) off n = 0.
Proof.
  unfold Mem.load, Mem.make. rewrite drop_replicate, take_replicate.
  induction (n `min` (len - off))%nat as [|k IH]; simpl; [done|].
  rewrite IH. reflexivity.
Qed.

End MemFacts.

(** ** Fields of pages and metas *)

Ltac fields_unfold :=
  unfold meta_write, meta_copy, MetaAt.read,
    MetaAt.magic, MetaAt.version, MetaAt.pageSize, MetaAt.pgid, MetaAt.free,
    MetaAt.sys, MetaAt.txnid,
    MetaAt.set_magic, MetaAt.set_version, MetaAt.set_pageSize, MetaAt.set_pgid,
    MetaAt.set_free, MetaAt.set_sys, MetaAt.set_txnid,
    Page.id, Page.flags, Page.count, Page.overflow,
    Page.set_id, Page.set_flags, Page.set_count, Page.set_overflow, Page.meta,
    MetaAt.off_magic, MetaAt.off_version, MetaAt.off_pageSize, MetaAt.off_pgid,
    MetaAt.off_free, MetaAt.off_sys, MetaAt.off_txnid,
    Page.off_id, Page.off_flags, Page.off_count, Page.off_overflow, Page.off_ptr in *.

(** A load after stores: skip the stores to other fields, read the one to
    the same field. *)
Ltac load_step :=
  first
    [ rewrite MemFacts.load_store_other by lia
    | rewrite MemFacts.load_store_same_eq
        by (rewrite ?MemFacts.length_store, ?MemFacts.length_make; lia) ].

Ltac fields := fields_unfold; repeat load_step.

Lemma width2 : 8 * Z.of_nat 2 = 16.
Proof. reflexivity. Qed.
Lemma width4 : 8 * Z.of_nat 4 = 32.
Proof. reflexivity. Qed.
Lemma width8 : 8 * Z.of_nat 8 = 64.
Proof. reflexivity. Qed.

Lemma u64_small z : is_u64 z -> z mod 2 ^ 64 = z.
Proof. intros H. apply Z.mod_small. exact H. Qed.

Lemma u32_small z : is_u32 z -> z mod 2 ^ 32 = z.
Proof. intros H. apply Z.mod_small. exact H. Qed.

Lemma is_u64_load b off : is_u64 (Mem.load b off 8).
Proof. unfold is_u64. rewrite <- width8. apply MemFacts.load_range. Qed.

Lemma is_u32_load b off : is_u32 (Mem.load b off 4).
Proof. unfold is_u32. rewrite <- width4. apply MemFacts.load_range. Qed.

(** Setting the bit [p_meta] in a 16-bit flag word leaves it set after the
    truncation to 16 bits. *)
Lemma flag_meta_set x : Z.land (Z.lor x p_meta mod 2 ^ 16) p_meta = p_meta.
Proof.
  rewrite <- Z.land_ones by lia.
  apply Z.bits_inj'. intros n Hn.
  rewrite !Z.land_spec, Z.lor_spec.
  change p_meta with (2 ^ 2). rewrite Z.pow2_bits_eqb by lia.
  destruct (Z.eqb_spec 2 n) as [<-|Hne].
  - rewrite Z.ones_spec_low by lia. by rewrite orb_true_r.
  - by rewrite !andb_false_r.
Qed.

Lemma meta_read_wf b q : meta_wf (MetaAt.read b q).
Proof.
  unfold meta_wf, MetaAt.read; cbn.
  repeat split; first [apply is_u32_load | apply is_u64_load].
Qed.

(** ** The meta page codec *)

(** C6. For every meta value [m] (with fields in the range of their Go
    types) and every page [p] of a buffer with room for the page header and
    the meta body, after [m.write(p)] the page id is [m.txnid mod 2], the
    flag [p_meta] is set, and the meta read back through [p.meta()] has
    exactly the magic, version, page size, next-unallocated page id,
    freelist page id, catalog page id and transaction id of [m]. *)
Theorem meta_write_roundtrip (m : meta) (b : list byte) (p : nat) :
  meta_wf m ->
  (p + 64 <= length b)%nat ->
  Page.id (meta_write m b p) p = meta_txnid m mod 2 /\
  Z.land (Page.flags (meta_write m b p) p) p_meta = p_meta /\
  MetaAt.read (meta_write m b p) (Page.meta p) = m.
Proof.
  intros (Hmg & Hv & Hps & Hpg & Hf & Hs & Ht) Hlen.
  split; [|split].
  - fields. rewrite width8. unfold u64.
    assert (0 <= meta_txnid m mod 2 < 2) by (apply Z.mod_pos_bound; lia).
    assert (H64 : 2 < 2 ^ 64) by reflexivity.
    rewrite !(Z.mod_small (meta_txnid m mod 2) (2 ^ 64)) by lia.
    reflexivity.
  - fields. rewrite width2. apply flag_meta_set.
  - fields. rewrite width4, width8.
    rewrite !u32_small, !u64_small by assumption.
    by destruct m.
Qed.

(** ** The current meta *)

(** C1. In a database whose meta references are set (as [Open] leaves
    them) and whose two meta pages hold the transaction ids [t0] and [t1],
    [DB.meta()] returns [meta0] when [t0 > t1] and [meta1] otherwise; a
    transaction initialised on that database roots itself at that meta and
    reads its catalog from the page the meta names. *)
Theorem DB_meta_greater_txnid (db : DB) (q0 q1 : nat) :
  db_meta0 db = Some q0 ->
  db_meta1 db = Some q1 ->
  let t0 := MetaAt.txnid (db_bytes db) q0 in
  let t1 := MetaAt.txnid (db_bytes db) q1 in
  let cur := if t0 >? t1 then q0 else q1 in
  DB_meta db = Ret cur /\
  (t0 > t1 -> DB_meta db = Ret q0) /\
  (t0 <= t1 -> DB_meta db = Ret q1) /\
  (forall sys_read t,
      Transaction_init sys_read db = Ret t ->
      tx_meta t = MetaMmap cur /\
      exists p, DB_page db (MetaAt.sys (db_bytes db) cur) = Ret p /\
                tx_sys t = sys_read (db_bytes db) p).
Proof.
  intros H0 H1 t0 t1 cur.
  assert (Hm : DB_meta db = Ret cur).
  { unfold DB_meta. rewrite H0, H1. fold t0 t1. subst cur.
    by destruct (t0 >? t1). }
  split; [exact Hm|]. split; [|split].
  - intros Hgt. rewrite Hm. subst cur.
    destruct (Z.gtb_spec t0 t1); [done|lia].
  - intros Hle. rewrite Hm. subst cur.
    destruct (Z.gtb_spec t0 t1); [lia|done].
  - intros sys_read t Hinit. unfold Transaction_init in Hinit.
    rewrite Hm in Hinit. cbn in Hinit.
    unfold Transaction_page in Hinit. cbn in Hinit.
    destruct (DB_page db (MetaAt.sys (db_bytes db) cur)) as [p| |] eqn:Hp;
      cbn in Hinit; [|done..].
    inversion Hinit; subst t; cbn. eauto.
Qed.

(** ** Page lookup through a transaction *)

(** C9. [t.page(id)] returns the buffered page whenever [id] is a key of
    the dirty-page map of [t], and otherwise the page [db.page(id)]
    resolves in the mapping; so a transaction that has buffered a page
    under [id] gets that buffer back, and a reader (its map is nil) always
    gets the page of the mapping, whatever a writer has buffered. *)
Theorem Transaction_page_dirty_first (db : DB) (t : Transaction) (id : Z) :
  (forall pages p,
      tx_pages t = Some pages -> pages !! id = Some p ->
      Transaction_page db t id = Ret (PageHeap p)) /\
  ((forall pages, tx_pages t = Some pages -> pages !! id = None) ->
   Transaction_page db t id = (p ← DB_page db id; Ret (PageMmap p))) /\
  (forall pages p,
      Transaction_page db (set_tx_pages t (Some (<[id := p]> pages))) id
      = Ret (PageHeap p)) /\
  (forall sys_read r,
      Transaction_init sys_read db = Ret r ->
      Transaction_page db r id = (p ← DB_page db id; Ret (PageMmap p))).
Proof.
  split; [|split; [|split]].
  - intros pages p Hp Hid. unfold Transaction_page. by rewrite Hp, Hid.
  - intros Hnone. unfold Transaction_page.
    destruct (tx_pages t) as [pages|] eqn:Hp; [|done].
    by rewrite (Hnone pages eq_refl).
  - intros pages p. unfold Transaction_page, set_tx_pages.
    cbn [tx_pages]. by rewrite lookup_insert_eq.
  - intros sys_read r Hinit. unfold Transaction_init in Hinit.
    destruct (DB_meta db) as [q| |]; [|done..].
    unfold mbind, outcome_bind in Hinit.
    destruct (Transaction_page _ _ _) as [pr| |]; [|done..].
    destruct (page_bytes db pr). inversion Hinit; subst r. done.
Qed.

(** ** Flushing *)

(** C3 (what the code does). On an open database [sync] returns
    [DatabaseAlreadyOpenedError] before it reaches [Fsync]: no call is
    made to the system. *)
Theorem DB_sync_open_fails (db : DB) (w : World) (force : bool) :
  db_opened db = true ->
  DB_sync db w force = Ret (w, Some DatabaseAlreadyOpenedError).
Proof. intros Ho. unfold DB_sync. by rewrite Ho. Qed.

(** On a database that is not marked open, [sync] calls [Fsync] on the
    data file and returns what it returns. *)
Lemma DB_sync_closed (db : DB) (w : World) (force : bool) (h : handle) :
  db_opened db = false ->
  db_file db = Some h ->
  DB_sync db w force = Ret (log w (EvFsync h), w_fsync_err w).
Proof.
  intros Ho Hf. unfold DB_sync, syscall_Fsync. rewrite Ho, Hf.
  by destruct (w_fsync_err w).
Qed.

(** ** Creating the file *)

Lemma int64_small z : - 2 ^ 63 <= z < 2 ^ 63 -> int64 z = z.
Proof. intros H. unfold int64. rewrite Z.mod_small; lia. Qed.

Lemma make_in_range n :
  0 <= n <= maxAlloc -> (n <? 0) || (maxAlloc <? n) = false.
Proof.
  intros H.
  destruct (Z.ltb_spec n 0); [lia|].
  by destruct (Z.ltb_spec maxAlloc n); [lia|].
Qed.

Lemma length_init_meta_at db buf p i : length (init_meta_at db buf p i) = length buf.
Proof. unfold init_meta_at. fields_unfold. by rewrite !MemFacts.length_store. Qed.

Lemma length_init_empty_at buf p i fl : length (init_empty_at buf p i fl) = length buf.
Proof. unfold init_empty_at. fields_unfold. by rewrite !MemFacts.length_store. Qed.


Lemma DB_pageInBuffer_in db buf i :
  0 <= i -> 0 <= db_pageSize db < 2 ^ 32 -> i < 2 ^ 31 ->
  i * db_pageSize db < Z.of_nat (length buf) ->
  DB_pageInBuffer db buf i = Ret (Z.to_nat i * Z.to_nat (db_pageSize db))%nat.
Proof.
  intros Hi Hps Hi' Hlt. unfold DB_pageInBuffer, u64.
  assert (H32 : 2 ^ 32 < 2 ^ 64) by reflexivity.
  assert (H3132 : 2 ^ 31 * 2 ^ 32 < 2 ^ 64) by reflexivity.
  rewrite (Z.mod_small (db_pageSize db)) by lia.
  rewrite Z.mod_small by nia.
  destruct (Z.ltb_spec (i * db_pageSize db) (Z.of_nat (length buf))); [|lia].
  f_equal. rewrite Z2Nat.inj_mul by lia. done.
Qed.

Lemma init_buffer_closed db :
  0 < db_pageSize db < 2 ^ 32 ->
  init_buffer db = Ret (init_bytes db).
Proof.
  intros Hps. unfold init_buffer, init_bytes.
  assert (H32 : 2 ^ 32 * 4 < 2 ^ 63) by reflexivity.
  assert (H48 : 2 ^ 32 * 4 < maxAlloc) by reflexivity.
  rewrite int64_small by lia.
  rewrite make_in_range by lia.
  replace (Z.to_nat (db_pageSize db * 4)) with (4 * Z.to_nat (db_pageSize db))%nat by lia.
  unfold init_meta.
  rewrite (DB_pageInBuffer_in db _ 0) by (rewrite ?MemFacts.length_make; lia).
  unfold mbind, outcome_bind.
  rewrite (DB_pageInBuffer_in db _ 1)
    by (rewrite ?length_init_meta_at, ?MemFacts.length_make; lia).
  rewrite (DB_pageInBuffer_in db _ 2)
    by (rewrite ?length_init_meta_at, ?MemFacts.length_make; lia).
  rewrite (DB_pageInBuffer_in db _ 3)
    by (rewrite ?length_init_empty_at, ?length_init_meta_at, ?MemFacts.length_make; lia).
  repeat f_equal; lia.
Qed.

Ltac init_unfold :=
  unfold init_bytes, init_meta_at, init_empty_at.

Lemma init_bytes_length db : length (init_bytes db) = (4 * Z.to_nat (db_pageSize db))%nat.
Proof.
  unfold init_bytes.
  by rewrite !length_init_empty_at, !length_init_meta_at, MemFacts.length_make.
Qed.

Lemma init_bytes_meta db (i : nat) :
  64 <= db_pageSize db < 2 ^ 32 ->
  (i < 2)%nat ->
  let p := (i * Z.to_nat (db_pageSize db))%nat in
  Page.id (init_bytes db) p = Z.of_nat i /\
  Page.flags (init_bytes db) p = p_meta /\
  MetaAt.read (init_bytes db) (Page.meta p) =
    Meta magic version (db_pageSize db) 4 2 3 (Z.of_nat i).
Proof.
  intros Hps Hi p. subst p.
  init_unfold.
  set (P := Z.to_nat (db_pageSize db)).
  assert (HP : (64 <= P)%nat) by lia.
  assert (Hu : u32 (db_pageSize db) mod 2 ^ 32 = db_pageSize db).
  { unfold u32. rewrite Z.mod_mod by lia. apply Z.mod_small. lia. }
  destruct i as [|[|i]]; [| |lia].
  - (repeat split; fields; rewrite ?width2, ?width4, ?width8, ?Hu; reflexivity).
  - (repeat split; fields; rewrite ?width2, ?width4, ?width8, ?Hu; reflexivity).
Qed.

Lemma init_bytes_empty_pages db :
  64 <= db_pageSize db < 2 ^ 32 ->
  let P := Z.to_nat (db_pageSize db) in
  let d := init_bytes db in
  (Page.id d (2 * P) = 2 /\ Page.flags d (2 * P) = p_freelist /\
   Page.count d (2 * P) = 0 /\ Page.freelist d (2 * P) = []) /\
  (Page.id d (3 * P) = 3 /\ Page.flags d (3 * P) = p_buckets /\
   Page.count d (3 * P) = 0).
Proof.
  intros Hps P d. subst d.
  assert (HP : (64 <= P)%nat) by (subst P; lia).
  assert (Hc : Page.count (init_bytes db) (2 * P) = 0).
  { init_unfold. fold P. fields. reflexivity. }
  split; [split; [|split; [|split]]|split; [|split]];
    try exact Hc;
    try (init_unfold; fold P; fields; reflexivity).
  unfold Page.freelist. rewrite Hc. reflexivity.
Qed.

Lemma pwrite_empty b : pwrite [] b 0 = b.
Proof.
  unfold pwrite. destruct b as [|x b]; [done|].
  cbn [app]. replace (0 + length (x :: b) - length [])%nat with (length (x :: b)) by (cbn; lia).
  rewrite <- (app_nil_r (Mem.make (length (x :: b)))).
  rewrite list_inserts_0_r by (by rewrite MemFacts.length_make).
  by rewrite app_nil_r.
Qed.

Lemma file_WriteAt_empty w h b :
  w_writeat_err w = None ->
  w_disk w = [] ->
  file_WriteAt w h b 0 = (set_disk (log w (EvWriteAt h 0 (length b))) b, None).
Proof.
  intros Hw Hd. unfold file_WriteAt. rewrite Hw, Hd. by rewrite pwrite_empty.
Qed.

(** C7 (as amended). On a new, empty file and with an OS page size [ps]
    that holds a page header and a meta body and fits the 32-bit field,
    [DB.init] sets [db.pageSize] to [ps] and writes, in one positioned write
    at offset 0 through the metadata handle, a buffer of four pages: meta
    pages at ids 0 and 1 that validate (magic [0xDEADC0DE], version 1, page
    size [ps], next-unallocated page id 4, freelist page id 2, catalog page
    id 3, transaction ids 0 and 1), an empty freelist page (count 0) at id
    2 and an empty catalog page (count 0) at id 3. The write is the only
    call [init] makes: it issues no fsync. *)
Theorem DB_init_layout (db : DB) (w : World) (h : handle) :
  db_metafile db = Some h ->
  w_writeat_err w = None ->
  w_disk w = [] ->
  64 <= w_pagesize w < 2 ^ 32 ->
  let ps := w_pagesize w in
  let P := Z.to_nat ps in
  exists db' w',
    DB_init db w = Ret (db', w', None) /\
    db_pageSize db' = ps /\
    w_trace w' = w_trace w ++ [EvWriteAt h 0 (4 * P)] /\
    (forall h', EvFsync h' ∈ w_trace w' -> EvFsync h' ∈ w_trace w) /\
    let d := w_disk w' in
    length d = (4 * P)%nat /\
    (Page.id d 0 = 0 /\ Page.flags d 0 = p_meta /\
     MetaAt.read d (Page.meta 0) = Meta magic version ps 4 2 3 0 /\
     validate (MetaAt.read d (Page.meta 0)) = None) /\
    (Page.id d P = 1 /\ Page.flags d P = p_meta /\
     MetaAt.read d (Page.meta P) = Meta magic version ps 4 2 3 1 /\
     validate (MetaAt.read d (Page.meta P)) = None) /\
    (Page.id d (2 * P) = 2 /\ Page.flags d (2 * P) = p_freelist /\
     Page.count d (2 * P) = 0 /\ Page.freelist d (2 * P) = []) /\
    (Page.id d (3 * P) = 3 /\ Page.flags d (3 * P) = p_buckets /\
     Page.count d (3 * P) = 0).
Proof.
  intros Hh Hw Hd Hps ps P.
  set (db1 := set_pageSize db (w_pagesize w)).
  assert (Hps1 : db_pageSize db1 = ps) by reflexivity.
  assert (Hlen : length (init_bytes db1) = (4 * P)%nat).
  { rewrite init_bytes_length, Hps1. done. }
  exists db1, (set_disk (log w (EvWriteAt h 0 (4 * P)%nat)) (init_bytes db1)).
  split.
  { unfold DB_init. fold db1.
    rewrite init_buffer_closed by (rewrite Hps1; subst ps; lia).
    unfold mbind, outcome_bind.
    replace (db_metafile db1) with (Some h) by (symmetry; exact Hh).
    rewrite file_WriteAt_empty by assumption.
    rewrite Hlen. reflexivity. }
  split; [exact Hps1|]. split; [reflexivity|].
  split.
  { intros h' Hin. cbn [w_trace set_disk log] in Hin.
    apply elem_of_app in Hin as [Hin|Hin]; [exact Hin|].
    by apply list_elem_of_singleton in Hin. }
  cbn [w_disk set_disk].
  pose proof (init_bytes_meta db1 0) as H0.
  pose proof (init_bytes_meta db1 1) as H1.
  pose proof (init_bytes_empty_pages db1) as H23.
  rewrite Hps1 in H0, H1, H23. fold P in H0, H1, H23.
  specialize (H0 Hps ltac:(lia)). specialize (H1 Hps ltac:(lia)).
  specialize (H23 Hps).
  cbn zeta in H0, H1, H23.
  change (0 * P)%nat with 0%nat in H0.
  replace (1 * P)%nat with P in H1 by lia.
  destruct H0 as (H0i & H0f & H0m), H1 as (H1i & H1f & H1m), H23 as [Hp2 Hp3].
  rewrite H0m, H1m.
  repeat split; try assumption; try apply Hp2; try apply Hp3.
Qed.

(** ** Opening an existing file *)

Lemma load_take k m off n :
  (off + n <= k)%nat -> Mem.load (take k m) off n = Mem.load m off n.
Proof.
  intros H. unfold Mem.load. f_equal.
  apply list_eq. intros i.
  destruct (decide (i < n)%nat) as [Hi|Hi].
  - rewrite !lookup_take_lt, !lookup_drop by done.
    apply lookup_take_lt. lia.
  - by rewrite !lookup_take_ge by lia.
Qed.

Lemma meta_read_take k m q :
  (q + 48 <= k)%nat -> MetaAt.read (take k m) q = MetaAt.read m q.
Proof.
  intros H. fields_unfold. by rewrite !load_take by lia.
Qed.

Lemma os_OpenFile_ok w h :
  w_open_err w h = None -> os_OpenFile w h = (log w (EvOpenFile h), Some h, None).
Proof. intros H. unfold os_OpenFile. by rewrite H. Qed.

Lemma file_Stat_ok w :
  w_stat_err w = None ->
  file_Stat w = (log w EvStat, Z.of_nat (length (w_disk w)), None).
Proof. intros H. unfold file_Stat. by rewrite H. Qed.

Lemma file_ReadAt_full w n :
  w_readat_err w = None ->
  (n <= length (w_disk w))%nat ->
  file_ReadAt w n 0 = (log w (EvReadAt 0 n), take n (w_disk w), None).
Proof.
  intros H Hn. unfold file_ReadAt. rewrite H. rewrite drop_0.
  rewrite length_take.
  destruct (Nat.ltb_spec (n `min` length (w_disk w)) n); [lia|]. done.
Qed.

Lemma syscall_Mmap_ok w size :
  w_mmap_err w = None ->
  syscall_Mmap w size = (log w (EvMmap size), Some (w_disk w), None).
Proof. intros H. unfold syscall_Mmap. by rewrite H. Qed.

Lemma DB_page_in db d id :
  db_data db = Some d ->
  0 <= id -> 0 <= db_pageSize db < 2 ^ 32 ->
  id * db_pageSize db < mmap_size ->
  DB_page db id = Ret (Z.to_nat (id * db_pageSize db)).
Proof.
  intros Hd Hid Hps Hlt. unfold DB_page, data_len, u64. rewrite Hd.
  assert (H32 : 2 ^ 32 < 2 ^ 64) by reflexivity.
  assert (Hm : mmap_size < 2 ^ 64) by reflexivity.
  rewrite (Z.mod_small (db_pageSize db)) by lia.
  rewrite Z.mod_small by nia.
  by destruct (Z.ltb_spec (id * db_pageSize db) mmap_size); [|lia].
Qed.

Lemma bind_Ret_inv {A B} (c : outcome A) (k : A -> outcome B) (r : B) :
  (c ≫= k) = Ret r -> exists a, c = Ret a /\ k a = Ret r.
Proof. destruct c as [a| |]; [|done..]. intros H. by exists a. Qed.

(** What [DB.mmap] leaves behind when it returns no error. *)
Lemma DB_mmap_ok db w db' w' :
  DB_mmap db w = Ret (db', w', None) ->
  exists p0 p1,
    db_data db' = Some (w_disk w) /\
    db_pageSize db' = db_pageSize db /\
    DB_page db' 0 = Ret p0 /\ DB_page db' 1 = Ret p1 /\
    db_meta0 db' = Some (Page.meta p0) /\
    db_meta1 db' = Some (Page.meta p1) /\
    validate (MetaAt.read (w_disk w) (Page.meta p0)) = None /\
    validate (MetaAt.read (w_disk w) (Page.meta p1)) = None.
Proof.
  unfold DB_mmap, file_Stat, syscall_Mmap. intros H.
  destruct (w_stat_err w); [done|].
  destruct (_ <? _); [done|].
  cbn [w_mmap_err log] in H.
  destruct (w_mmap_err w); [done|].
  apply bind_Ret_inv in H as (p0 & Hp0 & H).
  apply bind_Ret_inv in H as (p1 & Hp1 & H).
  change (db_bytes _) with (w_disk w) in H.
  destruct (validate (MetaAt.read (w_disk w) (Page.meta p0))) eqn:Hv0; [done|].
  destruct (validate (MetaAt.read (w_disk w) (Page.meta p1))) eqn:Hv1; [done|].
  inversion H; subst db' w'. exists p0, p1.
  repeat split; done.
Qed.

(** Whatever the file and the answers of the system, a database that
    [Open] returns without error is marked open, its two meta references
    are set, both meta pages validate and its freelist is present. *)
Lemma DB_Open_ok db w path mode db' w' :
  DB_Open db w path mode = Ret (db', w', None) ->
  db_opened db' = true /\
  is_Some (db_freelist db') /\
  exists d p0 p1,
    db_data db' = Some d /\
    DB_page db' 0 = Ret p0 /\ DB_page db' 1 = Ret p1 /\
    db_meta0 db' = Some (Page.meta p0) /\
    db_meta1 db' = Some (Page.meta p1) /\
    validate (MetaAt.read d (Page.meta p0)) = None /\
    validate (MetaAt.read d (Page.meta p1)) = None.
Proof.
  unfold DB_Open. intros H.
  destruct (db_opened db); [done|].
  destruct (os_OpenFile w DataFile) as [[w1 f1] [e1|]]; [done|].
  destruct (os_OpenFile w1 MetaFile) as [[w2 f2] [e2|]]; [done|].
  destruct (file_Stat w2) as [[w3 size] [e3|]]; [done|].
  apply bind_Ret_inv in H as ([[db4 w4] [e4|]] & _ & H); [done|].
  apply bind_Ret_inv in H as ([[db5 w5] [e5|]] & Hmmap & H); [done|].
  apply bind_Ret_inv in H as (q & _ & H).
  apply bind_Ret_inv in H as (p & _ & H).
  apply bind_Ret_inv in H as (u & _ & H).
  inversion H; subst db' w'. clear H.
  apply DB_mmap_ok in Hmmap
    as (p0 & p1 & Hd & _ & Hp0 & Hp1 & Hm0 & Hm1 & Hv0 & Hv1).
  split; [reflexivity|]. split; [by eexists|].
  exists (w_disk w4), p0, p1. repeat split; assumption.
Qed.

Lemma DB_pageInBuffer_0 db buf :
  (0 < length buf)%nat -> DB_pageInBuffer db buf 0 = Ret 0%nat.
Proof.
  intros H. unfold DB_pageInBuffer, u64. rewrite Z.mul_0_l, Z.mod_0_l by lia.
  by destruct (Z.ltb_spec 0 (Z.of_nat (length buf))); [|lia].
Qed.

Lemma bind_Ret {A B} (a : A) (k : A -> outcome B) : (Ret a ≫= k) = k a.
Proof. reflexivity. Qed.

Lemma read_pageSize_run db w :
  w_readat_err w = None ->
  minPageSize <= Z.of_nat (length (w_disk w)) ->
  let m0 := MetaAt.read (w_disk w) (Page.meta 0) in
  let w' := log w (EvReadAt 0 (Z.to_nat minPageSize)) in
  read_pageSize db w =
    match validate m0 with
    | Some e => Ret (db, w', Some (Error "meta error" (Some e)))
    | None => Ret (set_pageSize db (meta_pageSize m0), w', None)
    end.
Proof.
  intros Hread Hsize m0 w'.
  assert (Hmin : minPageSize = 4096) by reflexivity.
  unfold read_pageSize.
  rewrite file_ReadAt_full by (try assumption; lia).
  rewrite DB_pageInBuffer_0 by (rewrite length_take; lia).
  rewrite bind_Ret.
  rewrite meta_read_take by (unfold Page.meta, Page.off_ptr; lia).
  reflexivity.
Qed.

Lemma DB_mmap_run db w :
  w_stat_err w = None ->
  w_mmap_err w = None ->
  0 <= db_pageSize db < mmap_size ->
  db_pageSize db * 2 <= Z.of_nat (length (w_disk w)) ->
  let P := Z.to_nat (db_pageSize db) in
  let db0 := set_meta0 (set_data db (Some (w_disk w))) (Some (Page.meta 0)) in
  let db1 := set_meta1 db0 (Some (Page.meta P)) in
  let w' := log (log w EvStat) (EvMmap mmap_size) in
  DB_mmap db w =
    match validate (MetaAt.read (w_disk w) (Page.meta 0)) with
    | Some e => Ret (db1, w', Some (Error "meta0 error" (Some e)))
    | None =>
        match validate (MetaAt.read (w_disk w) (Page.meta P)) with
        | Some e => Ret (db1, w', Some (Error "meta1 error" (Some e)))
        | None => Ret (db1, w', None)
        end
    end.
Proof.
  intros Hstat Hmmap Hps Hsize P db0 db1 w'.
  assert (Hm : mmap_size = 2 ^ 31) by reflexivity.
  assert (H31 : 2 ^ 31 < 2 ^ 32) by reflexivity.
  assert (H3263 : 2 ^ 32 * 2 < 2 ^ 63) by reflexivity.
  unfold DB_mmap.
  rewrite file_Stat_ok by assumption.
  cbv beta iota zeta.
  rewrite !int64_small by lia.
  destruct (Z.ltb_spec (Z.of_nat (length (w_disk w))) (db_pageSize db * 2)); [lia|].
  rewrite syscall_Mmap_ok by assumption.
  cbv beta iota zeta. cbn [w_disk log].
  rewrite (DB_page_in _ (w_disk w) 0) by (try done; cbn; lia).
  rewrite bind_Ret.
  rewrite (DB_page_in _ (w_disk w) 1) by (try done; cbn; lia).
  rewrite bind_Ret.
  rewrite Z.mul_0_l, Z.mul_1_l.
  change (Z.to_nat 0) with 0%nat.
  change (db_pageSize (set_data db (Some (w_disk w)))) with (db_pageSize db).
  fold P. fold db0. fold db1.
  change (db_bytes db1) with (w_disk w).
  reflexivity.
Qed.

Lemma file_ReadAt_short w n :
  w_readat_err w = None ->
  (length (w_disk w) < n)%nat ->
  file_ReadAt w n 0 =
    (log w (EvReadAt 0 n), w_disk w ++ Mem.make (n - length (w_disk w)), Some EOF).
Proof.
  intros H Hn. unfold file_ReadAt. rewrite H, drop_0.
  rewrite take_ge by lia.
  by destruct (Nat.ltb_spec (length (w_disk w)) n); [|lia].
Qed.

(** [Open] up to its branch on the size of the file, when the two
    [OpenFile] calls and [Stat] succeed. *)
Lemma DB_Open_run db w path mode :
  db_opened db = false ->
  (forall h, w_open_err w h = None) ->
  w_stat_err w = None ->
  let db1 := set_metafile (set_file (set_path db path) (Some DataFile)) (Some MetaFile) in
  let w1 := log (log (log w (EvOpenFile DataFile)) (EvOpenFile MetaFile)) EvStat in
  DB_Open db w path mode =
    ((if Z.of_nat (length (w_disk w)) =? 0
      then DB_init db1 w1 else read_pageSize db1 w1) ≫= Open_finish).
Proof.
  intros Ho Hopen Hstat db1 w1.
  unfold DB_Open. rewrite Ho.
  rewrite os_OpenFile_ok by apply Hopen.
  cbv beta iota zeta.
  rewrite os_OpenFile_ok by apply Hopen.
  cbv beta iota zeta.
  rewrite file_Stat_ok by assumption.
  cbv beta iota zeta. cbn [w_disk log].
  reflexivity.
Qed.

(** The file backs the mapping at least up to its own end. *)
Lemma mapped_end_ge w : Z.of_nat (length (w_disk w)) <= mapped_end w.
Proof.
  unfold mapped_end.
  destruct (Z.ltb_spec 0 (w_pagesize w)) as [Hs|Hs]; [|lia].
  set (n := Z.of_nat (length (w_disk w))). set (s := w_pagesize w) in *.
  pose proof (Z.div_mod (n + s - 1) s ltac:(lia)) as Hd.
  pose proof (Z.mod_pos_bound (n + s - 1) s Hs) as Hr.
  nia.
Qed.

Lemma mapped_load_in w p n :
  Z.of_nat p + n <= mapped_end w -> mapped_load w p n = Ret ().
Proof.
  intros H. unfold mapped_load.
  by destruct (Z.leb_spec (Z.of_nat p + n) (mapped_end w)); [|lia].
Qed.

Lemma DB_page_1_inv db p1 :
  - 2 ^ 63 <= db_pageSize db < 2 ^ 63 ->
  DB_page db 1 = Ret p1 ->
  0 <= db_pageSize db < mmap_size /\ p1 = Z.to_nat (db_pageSize db).
Proof.
  intros Hint. unfold DB_page, u64.
  assert (Hm : mmap_size = 2 ^ 31) by reflexivity.
  assert (H3163 : 2 ^ 31 < 2 ^ 63) by reflexivity.
  assert (H6364 : 2 ^ 63 + 2 ^ 63 = 2 ^ 64) by reflexivity.
  rewrite Z.mul_1_l, Z.mod_mod by lia.
  destruct (Z.ltb_spec (db_pageSize db mod 2 ^ 64) (data_len db)) as [Hlt|]; [|done].
  intros [= <-].
  assert (Hd : data_len db <= mmap_size) by (unfold data_len; destruct (db_data db); lia).
  destruct (Z.lt_ge_cases (db_pageSize db) 0) as [Hneg|Hpos].
  - exfalso.
    assert (Hmod : db_pageSize db mod 2 ^ 64 = db_pageSize db + 2 ^ 64).
    { symmetry. apply (Z.mod_unique_pos _ _ (-1)); lia. }
    lia.
  - rewrite Z.mod_small in * by lia. split; [lia|reflexivity].
Qed.

(** [Open_finish] on a file that holds two pages of the size in
    [db.pageSize]: the file is mapped, both meta pages are validated, and
    the freelist page that the current meta names is loaded. *)
Lemma Open_finish_metas db w :
  w_stat_err w = None ->
  w_mmap_err w = None ->
  - 2 ^ 63 <= db_pageSize db < 2 ^ 63 ->
  let ps := db_pageSize db in
  let m0 := MetaAt.read (w_disk w) (Page.meta 0) in
  let m1 := MetaAt.read (w_disk w) (Page.meta (Z.to_nat ps)) in
  (forall db' w',
      Open_finish (db, w, None) = Ret (db', w', None) ->
      validate m0 = None /\ validate m1 = None) /\
  (0 <= ps < mmap_size ->
   ps * 2 <= Z.of_nat (length (w_disk w)) ->
   match validate m0 with
   | Some e =>
       exists db' w',
         Open_finish (db, w, None) = Ret (db', w', Some (Error "meta0 error" (Some e)))
   | None =>
       match validate m1 with
       | Some e =>
           exists db' w',
             Open_finish (db, w, None) = Ret (db', w', Some (Error "meta1 error" (Some e)))
       | None =>
           let cur := if meta_txnid m0 >? meta_txnid m1 then m0 else m1 in
           let p := Z.to_nat (meta_free cur * ps) in
           meta_free cur * ps < mmap_size ->
           if Z.of_nat p + freelist_size (w_disk w) p <=? mapped_end w
           then
             exists db' w',
               Open_finish (db, w, None) = Ret (db', w', None) /\
               db_opened db' = true /\
               db_data db' = Some (w_disk w) /\
               db_pageSize db' = ps /\
               db_meta0 db' = Some (Page.meta 0) /\
               db_meta1 db' = Some (Page.meta (Z.to_nat ps)) /\
               db_freelist db' = Some (freelist_read freelist_new (w_disk w) p)
           else Open_finish (db, w, None) = Panic "unexpected fault address"
       end
   end).
Proof.
  intros Hstat Hmmap Hint ps m0 m1.
  assert (Hm : mmap_size = 2 ^ 31) by reflexivity.
  assert (H3132 : 2 ^ 31 < 2 ^ 32) by reflexivity.
  split.
  - intros db' w' H. unfold Open_finish in H.
    apply bind_Ret_inv in H as ([[db5 w5] [e5|]] & Hmap & H); [done|].
    apply DB_mmap_ok in Hmap
      as (p0 & p1 & Hd & Hps5 & Hp0 & Hp1 & _ & _ & Hv0 & Hv1).
    assert (p0 = 0%nat) as ->.
    { unfold DB_page, u64 in Hp0. rewrite Z.mul_0_l, Z.mod_0_l in Hp0 by lia.
      destruct (0 <? data_len db5); [|done]. by inversion Hp0. }
    apply DB_page_1_inv in Hp1 as [_ ->]; [|by rewrite Hps5].
    rewrite Hps5 in Hv1. done.
  - intros Hps Hsize. unfold Open_finish.
    rewrite DB_mmap_run by assumption.
    fold ps m0 m1.
    destruct (validate m0) as [e|] eqn:Hv0.
    { rewrite bind_Ret. eauto. }
    destruct (validate m1) as [e|] eqn:Hv1.
    { rewrite bind_Ret. eauto. }
    intros Hfree.
    set (cur := if meta_txnid m0 >? meta_txnid m1 then m0 else m1) in *.
    set (p := Z.to_nat (meta_free cur * ps)) in *.
    rewrite bind_Ret. cbv beta iota zeta.
    set (db2 := set_freelist _ (Some freelist_new)).
    assert (Hmeta : DB_meta db2 =
              Ret (if meta_txnid m0 >? meta_txnid m1
                   then Page.meta 0 else Page.meta (Z.to_nat ps))).
    { unfold DB_meta. cbn. by destruct (_ >? _). }
    rewrite Hmeta, bind_Ret.
    assert (Hf : 0 <= meta_free cur < 2 ^ 64).
    { subst cur. destruct (_ >? _); apply is_u64_load. }
    assert (Hcur : MetaAt.free (db_bytes db2)
              (if meta_txnid m0 >? meta_txnid m1
               then Page.meta 0 else Page.meta (Z.to_nat ps)) = meta_free cur).
    { subst cur. by destruct (_ >? _). }
    rewrite Hcur.
    rewrite (DB_page_in db2 (w_disk w))
      by (try done; cbn [db2 db_pageSize set_pageSize set_freelist set_meta1 set_meta0 set_data];
          fold ps; lia).
    rewrite bind_Ret.
    change (db_pageSize db2) with ps. fold p.
    change (db_bytes db2) with (w_disk w).
    unfold mapped_load.
    change (mapped_end (log (log w EvStat) (EvMmap mmap_size))) with (mapped_end w).
    destruct (Z.of_nat p + freelist_size (w_disk w) p <=? mapped_end w); [|reflexivity].
    rewrite bind_Ret.
    eexists _, _. split; [reflexivity|]. done.
Qed.

(** C2 (as amended). [Open] on an existing file that is not empty, when the
    system calls succeed. The meta pages are validated (magic [0xDEADC0DE],
    version 1): the first before the file is mapped when the file holds
    [minPageSize] bytes (a shorter file gives no page size, and is mapped
    with the one the [DB] value has), and both after the file is mapped.
    [Open] returns nil only if both meta pages validate. It fails with a
    meta error that wraps the validation error as soon as either meta page
    fails validation (the file holding two pages of the page size, within
    the mapping), and when both validate it succeeds if the freelist page
    that the current meta names lies in the part of the mapping that the
    file backs; when that page lies past it, [Open] does not return: the
    load of the freelist faults. *)
Theorem DB_Open_existing (db : DB) (w : World) (path : string) (mode : Z) :
  db_opened db = false ->
  - 2 ^ 63 <= db_pageSize db < 2 ^ 63 ->
  (forall h, w_open_err w h = None) ->
  w_stat_err w = None ->
  w_readat_err w = None ->
  w_mmap_err w = None ->
  0 < Z.of_nat (length (w_disk w)) ->
  let long := minPageSize <=? Z.of_nat (length (w_disk w)) in
  let m0 := MetaAt.read (w_disk w) (Page.meta 0) in
  let ps := if long then meta_pageSize m0 else db_pageSize db in
  let m1 := MetaAt.read (w_disk w) (Page.meta (Z.to_nat ps)) in
  (forall db' w',
      DB_Open db w path mode = Ret (db', w', None) ->
      validate m0 = None /\ validate m1 = None) /\
  match validate m0 with
  | Some e =>
      if long
      then
        exists db' w',
          DB_Open db w path mode = Ret (db', w', Some (Error "meta error" (Some e)))
      else
        0 <= ps < mmap_size ->
        ps * 2 <= Z.of_nat (length (w_disk w)) ->
        exists db' w',
          DB_Open db w path mode = Ret (db', w', Some (Error "meta0 error" (Some e)))
  | None =>
      0 <= ps < mmap_size ->
      ps * 2 <= Z.of_nat (length (w_disk w)) ->
      match validate m1 with
      | Some e =>
          exists db' w',
            DB_Open db w path mode = Ret (db', w', Some (Error "meta1 error" (Some e)))
      | None =>
          let cur := if meta_txnid m0 >? meta_txnid m1 then m0 else m1 in
          let p := Z.to_nat (meta_free cur * ps) in
          meta_free cur * ps < mmap_size ->
          if Z.of_nat p + freelist_size (w_disk w) p <=? mapped_end w
          then
            exists db' w',
              DB_Open db w path mode = Ret (db', w', None) /\
              db_opened db' = true /\
              db_data db' = Some (w_disk w) /\
              db_pageSize db' = ps /\
              db_meta0 db' = Some (Page.meta 0) /\
              db_meta1 db' = Some (Page.meta (Z.to_nat ps)) /\
              db_freelist db' = Some (freelist_read freelist_new (w_disk w) p)
          else DB_Open db w path mode = Panic "unexpected fault address"
      end
  end.
Proof.
  intros Ho Hint Hopen Hstat Hread Hmmap Hlen long m0 ps m1.
  assert (Hmin : minPageSize = 4096) by reflexivity.
  assert (H3263 : 2 ^ 32 < 2 ^ 63) by reflexivity.
  rewrite DB_Open_run by assumption.
  destruct (Z.eqb_spec (Z.of_nat (length (w_disk w))) 0) as [|_]; [lia|].
  set (db1 := set_metafile _ _). set (w1 := log _ EvStat).
  subst ps long.
  destruct (Z.leb_spec minPageSize (Z.of_nat (length (w_disk w)))) as [Hlong|Hshort].
  - (* the first page is read and validated before the file is mapped *)
    rewrite read_pageSize_run by assumption.
    change (w_disk w1) with (w_disk w). fold m0.
    destruct (validate m0) as [e|] eqn:Hv0.
    { rewrite bind_Ret. cbn [Open_finish]. split; [intros db' w' [=]|]. eauto. }
    rewrite bind_Ret.
    set (db2 := set_pageSize db1 (meta_pageSize m0)).
    set (w2 := log w1 _).
    assert (Hps : 0 <= meta_pageSize m0 < 2 ^ 32).
    { subst m0. cbn [meta_pageSize MetaAt.read]. apply is_u32_load. }
    destruct (Open_finish_metas db2 w2) as [Honly Hrun];
      [done|done|cbn [db2 db_pageSize set_pageSize]; lia|].
    change (db_pageSize db2) with (meta_pageSize m0) in Honly, Hrun.
    change (w_disk w2) with (w_disk w) in Honly, Hrun.
    change (mapped_end w2) with (mapped_end w) in Hrun.
    cbv zeta in Honly, Hrun. fold m0 in Honly, Hrun. fold m1 in Honly, Hrun.
    rewrite Hv0 in Hrun.
    split; [|exact Hrun].
    intros db' w' H. by destruct (Honly db' w' H) as [_ Hv1].
  - (* a short read: no validation and no page size before the file is mapped *)
    unfold read_pageSize.
    rewrite file_ReadAt_short by (try done; cbn [w_disk log w1]; lia).
    rewrite bind_Ret.
    set (w2 := log w1 _).
    destruct (Open_finish_metas db1 w2) as [Honly Hrun]; [done|done|exact Hint|].
    change (db_pageSize db1) with (db_pageSize db) in Honly, Hrun.
    change (w_disk w2) with (w_disk w) in Honly, Hrun.
    change (mapped_end w2) with (mapped_end w) in Hrun.
    cbv zeta in Honly, Hrun. fold m0 in Honly, Hrun. fold m1 in Honly, Hrun.
    split; [exact Honly|].
    destruct (validate m0) as [e|] eqn:Hv0; exact Hrun.
Qed.

(** ** The freelist of the spec *)

Lemma elem_of_released f minid pg :
  pg ∈ released f minid <->
  exists k pgs, fl_pending f !! k = Some pgs /\ k <= minid /\ pg ∈ pgs.
Proof.
  unfold released. rewrite list_elem_of_join. split.
  - intros (pgs & Hpg & Hin).
    apply list_elem_of_fmap in Hin as ([k pgs'] & -> & Hin).
    apply elem_of_map_to_list in Hin.
    apply map_lookup_filter_Some in Hin as [Hk Hle].
    exists k, pgs'. done.
  - intros (k & pgs & Hk & Hle & Hpg).
    exists pgs. split; [done|].
    apply list_elem_of_fmap. exists (k, pgs). split; [done|].
    apply elem_of_map_to_list. apply map_lookup_filter_Some. done.
Qed.

Lemma freelist_release_spec f minid :
  let f' := freelist_release f minid in
  (forall pg, pg ∈ fl_ids f' <-> pg ∈ fl_ids f \/ pg ∈ released f minid) /\
  (forall k, k <= minid -> fl_pending f' !! k = None) /\
  (forall k, minid < k -> fl_pending f' !! k = fl_pending f !! k) /\
  Sorted Z.le (fl_ids f').
Proof.
  cbn. repeat split.
  - rewrite merge_sort_Permutation. apply elem_of_app.
  - rewrite merge_sort_Permutation. intros H. by apply elem_of_app.
  - intros k Hk. apply map_lookup_filter_None. right. intros x _. cbn. lia.
  - intros k Hk. destruct (fl_pending f !! k) as [pgs|] eqn:E.
    + apply map_lookup_filter_Some. split; [done|]. cbn. lia.
    + apply map_lookup_filter_None. by left.
  - apply (Sorted_merge_sort Z.le).
Qed.

Lemma freelist_allocate_id f n :
  (freelist_allocate f n).2 = 0 \/ (freelist_allocate f n).2 ∈ fl_ids f.
Proof.
  unfold freelist_allocate.
  destruct (find _ _) as [id|] eqn:E; cbn; [|by left].
  right. apply find_some in E as [Hin _].
  apply list_elem_of_In in Hin. by rewrite merge_sort_Permutation in Hin.
Qed.

(** ** Beginning a writer *)

Lemma fold_min_spec (ids : list Z) (start : Z) :
  let m := fold_left (fun acc id => if id <? acc then id else acc) ids start in
  m <= start /\
  (forall id, id ∈ ids -> m <= id) /\
  (m = start \/ m ∈ ids).
Proof.
  revert start. induction ids as [|x r IH]; intros start; cbn.
  - split; [lia|]. split; [intros id H; by apply elem_of_nil in H|by left].
  - specialize (IH (if x <? start then x else start)).
    cbn in IH. destruct IH as (Hle & Hall & Hin).
    destruct (Z.ltb_spec x start) as [Hlt|Hge].
    + split; [lia|]. split.
      * intros id [->|H]%elem_of_cons; [lia|by apply Hall].
      * right. destruct Hin as [->|Hin]; [by left|by right].
    + split; [lia|]. split.
      * intros id [->|H]%elem_of_cons; [lia|by apply Hall].
      * destruct Hin as [->|Hin]; [by left|right; by right].
Qed.

Lemma min_reader_fold db :
  min_reader db =
  fold_left (fun acc id => if id <? acc then id else acc)
            ((fun at_ : nat * Transaction => Transaction_id db at_.2) <$> db_transactions db)
            max_txnid.
Proof.
  unfold min_reader, max_txnid. generalize 0xFFFFFFFFFFFFFFFF.
  induction (db_transactions db) as [|x r IH]; intros s; cbn; [done|].
  apply IH.
Qed.

Lemma min_reader_spec db :
  min_reader db <= max_txnid /\
  (forall a t, (a, t) ∈ db_transactions db -> min_reader db <= Transaction_id db t) /\
  (min_reader db = max_txnid \/
   exists a t, (a, t) ∈ db_transactions db /\ Transaction_id db t = min_reader db).
Proof.
  rewrite min_reader_fold.
  pose proof (fold_min_spec
    ((fun at_ : nat * Transaction => Transaction_id db at_.2) <$> db_transactions db)
    max_txnid) as (Hle & Hall & Hin).
  cbn zeta in *. split; [exact Hle|]. split.
  - intros a t Hat. apply Hall. apply list_elem_of_fmap. by exists (a, t).
  - destruct Hin as [Hs|Hin]; [by left|right].
    apply list_elem_of_fmap in Hin as ([a t] & Heq & Hat).
    exists a, t. done.
Qed.

Section EngineFacts.

Variable sys_read : list byte -> nat -> gmap string bucket.
Variable Cursor : Type.
Variable Bucket_Cursor : Transaction -> Bucket -> option Cursor.
Variable Cursor_Get : DB -> Transaction -> Cursor -> list byte -> option (list byte).

Lemma RWTransaction_init_ok db nodes t0 :
  Transaction_init sys_read db = Ret t0 ->
  exists t, RWTransaction_init sys_read db nodes = Ret t /\
    tx_meta (rw_tx t) =
      MetaHeap (set_meta_txnid (meta_of db (tx_meta t0))
                  (u64 (meta_txnid (meta_of db (tx_meta t0)) + 1))) /\
    tx_pages (rw_tx t) = Some ∅ /\
    tx_sys (rw_tx t) = tx_sys t0.
Proof.
  intros H. unfold RWTransaction_init. rewrite H, bind_Ret.
  eexists. split; [reflexivity|]. done.
Qed.

(** When a read/write transaction begins on an open database (writer lock
    free, freelist present), the loop of [DB.RWTransaction] computes
    [minid], the minimum transaction id over the readers listed in
    [db.transactions] (the largest [txnid] when the list is empty), and,
    when [minid > 0], the freelist becomes [freelist.release(minid - 1)];
    with the [release] of the spec, the pages of every pending entry of a
    transaction id below [minid] are then in the free set and the entry is
    no longer pending. *)
Lemma DB_RWTransaction_releases (db : DB) (f : freelist) (t0 : Transaction) :
  db_opened db = true ->
  db_rwlock db = false ->
  db_freelist db = Some f ->
  Transaction_init sys_read db = Ret t0 ->
  let minid := min_reader db in
  let f' := if minid >? 0 then freelist_release f (minid - 1) else f in
  (forall a t, (a, t) ∈ db_transactions db -> minid <= Transaction_id db t) /\
  (minid = max_txnid \/
   exists a t, (a, t) ∈ db_transactions db /\ Transaction_id db t = minid) /\
  (exists db' t,
     DB_RWTransaction sys_read db = Ret (db', Some t, None) /\
     db_rwtransaction db' = Some t /\
     db_transactions db' = db_transactions db /\
     db_freelist db' = Some f') /\
  (forall k pgs pg,
     fl_pending f !! k = Some pgs -> pg ∈ pgs -> 0 <= k < minid ->
     pg ∈ fl_ids f' /\ fl_pending f' !! k = None).
Proof.
  intros Ho Hl Hf Hinit minid f'.
  pose proof (min_reader_spec db) as (Hmax & Hall & Hin). fold minid in Hmax, Hall, Hin.
  split; [exact Hall|]. split; [exact Hin|]. split.
  - unfold DB_RWTransaction. rewrite Hl.
    change (db_opened (set_rwlock db true)) with (db_opened db). rewrite Ho.
    cbn [negb].
    destruct (RWTransaction_init_ok (set_rwlock db true) ∅ t0 Hinit)
      as (t & Ht & _).
    rewrite Ht, bind_Ret. cbv zeta.
    change (min_reader (set_rwtransaction (set_rwlock db true) (Some t))) with minid.
    change (db_freelist (set_rwtransaction (set_rwlock db true) (Some t)))
      with (db_freelist db).
    rewrite Hf. subst f'.
    destruct (Z.gtb_spec minid 0) as [Hpos|Hz].
    + unfold u64. rewrite Z.mod_small by (unfold max_txnid in Hmax; lia).
      eexists _, t. split; [reflexivity|]. done.
    + eexists _, t. split; [reflexivity|]. done.
  - intros k pgs pg Hk Hpg Hlt. subst f'.
    destruct (Z.gtb_spec minid 0) as [Hpos|Hz].
    + destruct (freelist_release_spec f (minid - 1)) as (Hids & Hgone & _).
      split.
      * apply Hids. right. apply elem_of_released. exists k, pgs.
        repeat split; [done|lia|done].
      * apply Hgone. lia.
    + lia.
Qed.

Lemma DB_Transaction_ok db t0 :
  db_opened db = true ->
  Transaction_init sys_read db = Ret t0 ->
  DB_Transaction sys_read db =
    Ret (set_transactions (set_heap db (S (db_heap db)))
           (db_transactions db ++ [(db_heap db, t0)]),
         Some (db_heap db, t0), None).
Proof.
  intros Ho Hinit. unfold DB_Transaction. rewrite Ho. cbn [negb].
  by rewrite Hinit, bind_Ret.
Qed.

Lemma DB_Transaction_inv db db1 a t :
  DB_Transaction sys_read db = Ret (db1, Some (a, t), None) ->
  db_opened db = true /\ Transaction_init sys_read db = Ret t /\
  a = db_heap db /\
  db1 = set_transactions (set_heap db (S a)) (db_transactions db ++ [(a, t)]).
Proof.
  unfold DB_Transaction. destruct (db_opened db); cbn [negb]; [|done].
  intros H. apply bind_Ret_inv in H as (t' & Hinit & H).
  by inversion H; subst.
Qed.

(** C8 (what the code does). After [t := db.Transaction()] and
    [t.Close()], the database is the one [Close] received: [t] is still an
    element of [db.transactions], and the minimum the next
    [DB.RWTransaction] computes is still bounded by the id of [t]. *)
Theorem Transaction_Close_keeps_reader (db db1 : DB) (a : nat) (t : Transaction) :
  DB_Transaction sys_read db = Ret (db1, Some (a, t), None) ->
  Transaction_Close db1 a = db1 /\
  (a, t) ∈ db_transactions (Transaction_Close db1 a) /\
  min_reader (Transaction_Close db1 a) <= Transaction_id db1 t.
Proof.
  intros H. apply DB_Transaction_inv in H as (Ho & Hinit & -> & ->).
  split; [reflexivity|].
  assert (Hin : (db_heap db, t) ∈ db_transactions
            (set_transactions (set_heap db (S (db_heap db)))
               (db_transactions db ++ [(db_heap db, t)]))).
  { cbn. apply elem_of_app. right. by apply list_elem_of_singleton. }
  split; [exact Hin|].
  unfold Transaction_Close.
  destruct (min_reader_spec (set_transactions (set_heap db (S (db_heap db)))
               (db_transactions db ++ [(db_heap db, t)]))) as (_ & Hall & _).
  exact (Hall _ _ Hin).
Qed.

(** [DB.removeTransaction], which [Close] does not call, is the operation
    that takes a reader out of [db.transactions]. *)
Lemma remove_first_not_in a l :
  NoDup l.*1 -> a ∉ (remove_first a l).*1.
Proof.
  induction l as [|[b t] r IH]; cbn; intros Hnd.
  - apply not_elem_of_nil.
  - apply NoDup_cons in Hnd as [Hb Hnd].
    destruct (Nat.eqb_spec b a) as [->|Hne]; [done|].
    cbn. apply not_elem_of_cons. split; [done|by apply IH].
Qed.

Lemma DB_removeTransaction_removes db a :
  NoDup (db_transactions db).*1 ->
  a ∉ (db_transactions (DB_removeTransaction db a)).*1.
Proof. intros H. unfold DB_removeTransaction. cbn. by apply remove_first_not_in. Qed.

(** A reader's id is the [txnid] of a meta page: it fits 64 bits. *)
Lemma Transaction_init_id db t :
  Transaction_init sys_read db = Ret t -> is_u64 (Transaction_id db t).
Proof.
  unfold Transaction_init. intros H.
  apply bind_Ret_inv in H as (q & _ & H).
  apply bind_Ret_inv in H as (r & _ & H).
  destruct (page_bytes db r) as [b p]. inversion H; subst t.
  unfold Transaction_id. cbn [meta_of tx_meta meta_txnid MetaAt.read].
  apply is_u64_load.
Qed.

(** C4 (what the code does). The loop of [DB.RWTransaction] runs over
    [db.transactions], and a reader that was closed is still in that list
    ([Transaction.Close] removes nothing): it counts like an open one. On a
    database with no reader, after [t := db.Transaction(); t.Close()] no
    reader is open, yet the next [db.RWTransaction()] finds the id of [t]
    as [minid] and calls [freelist.release(minid - 1)] (no release at all
    when that id is 0): with the [release] of the spec, every page pending
    from a transaction id from that of [t] on stays pending. Once [t] is
    taken out of the list (what [db.removeTransaction] does), [minid] is
    the largest [txnid] and the pages pending from every transaction id
    below it are released. *)
Theorem DB_RWTransaction_closed_reader (db db1 : DB) (a : nat) (t : Transaction)
    (f : freelist) :
  db_transactions db = [] ->
  db_rwlock db = false ->
  db_freelist db = Some f ->
  DB_Transaction sys_read db = Ret (db1, Some (a, t), None) ->
  let db2 := Transaction_Close db1 a in
  let id := Transaction_id db t in
  let f' := if id >? 0 then freelist_release f (id - 1) else f in
  let fall := freelist_release f (max_txnid - 1) in
  db_transactions db2 = [(a, t)] /\
  min_reader db2 = id /\
  (exists db' rw,
     DB_RWTransaction sys_read db2 = Ret (db', Some rw, None) /\
     db_freelist db' = Some f') /\
  (forall k pgs, fl_pending f !! k = Some pgs -> id <= k -> fl_pending f' !! k = Some pgs) /\
  db_transactions (DB_removeTransaction db2 a) = [] /\
  min_reader (DB_removeTransaction db2 a) = max_txnid /\
  (exists db' rw,
     DB_RWTransaction sys_read (DB_removeTransaction db2 a) = Ret (db', Some rw, None) /\
     db_freelist db' = Some fall) /\
  (forall k pgs pg,
     fl_pending f !! k = Some pgs -> pg ∈ pgs -> k < max_txnid ->
     pg ∈ fl_ids fall /\ fl_pending fall !! k = None).
Proof.
  intros Htx Hl Hf H db2 id f' fall.
  apply DB_Transaction_inv in H as (Ho & Hinit & -> & ->).
  pose proof (Transaction_init_id db t Hinit) as Hid.
  fold id in Hid. unfold is_u64 in Hid.
  assert (Hmax : max_txnid = 2 ^ 64 - 1) by reflexivity.
  assert (Htx2 : db_transactions db2 = [(db_heap db, t)]).
  { subst db2. unfold Transaction_Close. cbn [db_transactions set_transactions].
    by rewrite Htx. }
  assert (Hmin : min_reader db2 = id).
  { unfold min_reader. rewrite Htx2. cbn [fold_left snd].
    change 0xFFFFFFFFFFFFFFFF with max_txnid.
    change (Transaction_id db2 t) with id.
    destruct (Z.ltb_spec id max_txnid); lia. }
  set (db3 := DB_removeTransaction db2 (db_heap db)).
  assert (Htx3 : db_transactions db3 = []).
  { subst db3. unfold DB_removeTransaction. cbn [db_transactions set_transactions].
    rewrite Htx2. cbn [remove_first fst]. by rewrite Nat.eqb_refl. }
  assert (Hmin3 : min_reader db3 = max_txnid).
  { unfold min_reader. by rewrite Htx3. }
  split; [exact Htx2|]. split; [exact Hmin|]. split; [|split; [|split; [|split; [|split]]]].
  - destruct (DB_RWTransaction_releases db2 f t Ho Hl Hf Hinit)
      as (_ & _ & (db' & rw & Hrw & _ & _ & Hf') & _).
    rewrite Hmin in Hf'. by exists db', rw.
  - intros k pgs Hk Hle. subst f'.
    destruct (Z.gtb_spec id 0) as [Hpos|Hz]; [|exact Hk].
    destruct (freelist_release_spec f (id - 1)) as (_ & _ & Hkeep & _).
    rewrite Hkeep by lia. exact Hk.
  - exact Htx3.
  - exact Hmin3.
  - destruct (DB_RWTransaction_releases db3 f t Ho Hl Hf Hinit)
      as (_ & _ & (db' & rw & Hrw & _ & _ & Hf') & _).
    rewrite Hmin3 in Hf'. by exists db', rw.
  - intros k pgs pg Hk Hpg Hlt.
    destruct (freelist_release_spec f (max_txnid - 1)) as (Hids & Hgone & _).
    split.
    + apply Hids. right. apply elem_of_released. exists k, pgs.
      repeat split; [done|lia|done].
    + apply Hgone. lia.
Qed.

(** C10. When the catalog of a transaction has no bucket of the given
    name, [Transaction.Bucket] and [Transaction.Cursor] return nil and
    [Transaction.Get] returns a nil value; on an open database whose
    catalog has no such bucket, [DB.Get] (and [DB.Bucket]) return nil with
    a nil error. *)
Theorem Get_missing_bucket (db : DB) (t : Transaction) (name : string) (key : list byte) :
  (tx_sys t !! name = None ->
   Transaction_Bucket t name = None /\
   Transaction_Cursor Cursor Bucket_Cursor t name = None /\
   Transaction_Get Cursor Bucket_Cursor Cursor_Get db t name key = None) /\
  (db_opened db = true ->
   Transaction_init sys_read db = Ret t ->
   tx_sys t !! name = None ->
   exists db',
     DB_Get sys_read Cursor Bucket_Cursor Cursor_Get db name key = Ret (db', None, None) /\
     DB_Bucket sys_read db name = Ret (db', None, None)).
Proof.
  assert (Hb : tx_sys t !! name = None -> Transaction_Bucket t name = None).
  { intros Hn. unfold Transaction_Bucket, sys_get. by rewrite Hn. }
  assert (Hg : tx_sys t !! name = None ->
               Transaction_Get Cursor Bucket_Cursor Cursor_Get db t name key = None).
  { intros Hn. unfold Transaction_Get, Transaction_Cursor. by rewrite (Hb Hn). }
  split.
  - intros Hn. split; [by apply Hb|]. split; [|by apply Hg].
    unfold Transaction_Cursor. by rewrite (Hb Hn).
  - intros Ho Hinit Hn.
    unfold DB_Get, DB_Bucket. rewrite (DB_Transaction_ok db t Ho Hinit), !bind_Ret.
    eexists. split.
    + unfold Transaction_Get, Transaction_Cursor. rewrite (Hb Hn). reflexivity.
    + by rewrite (Hb Hn).
Qed.

End EngineFacts.

(** ** Allocation *)

(** C5 (as amended). For every [count >= 1] during a writer transaction,
    with a page size that holds the page header and a buffer size of
    [count * pageSize] bytes within what [make] allocates ([maxAlloc]),
    [DB.allocate(count)] returns a buffer of [count * pageSize] bytes, with
    the mapping untouched (the function reaches no file), whose overflow
    field is [uint32(count - 1)], that is [count - 1] for every count up to
    [2^32]; its page id is the id [freelist.allocate] returned when that is
    not zero, and otherwise the next-unallocated page id of the writer's
    meta, which is then [count] higher (modulo [2^64]), the other fields of
    that meta and the rest of the writer being as before. *)
Theorem DB_allocate_page (db : DB) (count : Z) (f : freelist) (rw : RWTransaction) (m : meta) :
  db_freelist db = Some f ->
  db_rwtransaction db = Some rw ->
  tx_meta (rw_tx rw) = MetaHeap m ->
  Forall is_u64 (fl_ids f) ->
  is_u64 (meta_pgid m) ->
  1 <= count ->
  Z.of_nat pageHeaderSize <= db_pageSize db ->
  count * db_pageSize db <= maxAlloc ->
  let f' := (freelist_allocate f count).1 in
  let id := (freelist_allocate f count).2 in
  exists db' buf,
    DB_allocate db count = Ret (db', buf) /\
    Z.of_nat (length buf) = count * db_pageSize db /\
    Page.overflow buf 0 = u32 (count - 1) /\
    (count <= 2 ^ 32 -> Page.overflow buf 0 = count - 1) /\
    db_data db' = db_data db /\
    db_freelist db' = Some f' /\
    (id <> 0 ->
     Page.id buf 0 = id /\ db_rwtransaction db' = Some rw) /\
    (id = 0 ->
     Page.id buf 0 = meta_pgid m /\
     exists rw' m',
       db_rwtransaction db' = Some rw' /\
       tx_meta (rw_tx rw') = MetaHeap m' /\
       meta_pgid m' = (meta_pgid m + count) mod 2 ^ 64 /\
       (meta_pgid m + count < 2 ^ 64 -> meta_pgid m' = meta_pgid m + count) /\
       meta_magic m' = meta_magic m /\
       meta_version m' = meta_version m /\
       meta_pageSize m' = meta_pageSize m /\
       meta_free m' = meta_free m /\
       meta_sys m' = meta_sys m /\
       meta_txnid m' = meta_txnid m /\
       tx_sys (rw_tx rw') = tx_sys (rw_tx rw) /\
       tx_pages (rw_tx rw') = tx_pages (rw_tx rw) /\
       rw_nodes rw' = rw_nodes rw).
Proof.
  intros Hf Hrw Hm Hids Hpg Hc Hps Hfit f' id.
  assert (H3264 : 2 ^ 32 < 2 ^ 64) by reflexivity.
  assert (H4863 : maxAlloc < 2 ^ 63) by reflexivity.
  assert (Hhdr : Z.of_nat pageHeaderSize = 16) by reflexivity.
  assert (Hid : is_u64 id).
  { subst id. destruct (freelist_allocate_id f count) as [->|Hin].
    - unfold is_u64. lia.
    - rewrite Forall_forall in Hids. by apply Hids. }
  set (n := count * db_pageSize db) in *.
  assert (Hn : 16 <= n) by (subst n; nia).
  unfold DB_allocate. fold n.
  rewrite int64_small by lia.
  rewrite make_in_range by lia.
  destruct (Z.eqb_spec n 0); [lia|].
  rewrite Hf.
  destruct (freelist_allocate f count) as [f1 id1] eqn:Hal.
  cbn [fst snd] in f', id. subst f' id.
  set (buf0 := Page.set_overflow (Mem.make (Z.to_nat n)) 0 (u32 (count - 1))).
  assert (Hlen0 : length buf0 = Z.to_nat n).
  { subst buf0. unfold Page.set_overflow.
    by rewrite MemFacts.length_store, MemFacts.length_make. }
  assert (Hid1 : Page.id (Page.set_id buf0 0 id1) 0 = id1).
  { fields. rewrite width8. by apply u64_small. }
  assert (Hov : forall v, Page.overflow (Page.set_id buf0 0 v) 0 = u32 (count - 1)).
  { intros v. subst buf0. fields. rewrite width4. unfold u32.
    by rewrite Z.mod_mod by lia. }
  assert (Hov' : count <= 2 ^ 32 -> u32 (count - 1) = count - 1).
  { intros Hle. unfold u32. apply Z.mod_small. lia. }
  rewrite Hid1.
  destruct (Z.eqb_spec id1 0) as [->|Hne]; cbn [negb].
  - change (db_rwtransaction (set_freelist db (Some f1))) with (db_rwtransaction db).
    rewrite Hrw, Hm.
    eexists _, _. split; [reflexivity|].
    split. { unfold Page.set_id. rewrite !MemFacts.length_store, Hlen0. lia. }
    assert (Hov2 : Page.overflow (Page.set_id (Page.set_id buf0 0 0) 0 (meta_pgid m)) 0
                   = u32 (count - 1)).
    { rewrite <- (Hov (meta_pgid m)). fields. reflexivity. }
    split; [exact Hov2|].
    split; [intros Hle; rewrite Hov2; by apply Hov'|].
    split; [reflexivity|]. split; [reflexivity|].
    split; [done|]. intros _. split.
    + fields. rewrite width8. by apply u64_small.
    + assert (Hp : u64 (meta_pgid m + u64 count) = (meta_pgid m + count) mod 2 ^ 64).
      { unfold u64. by rewrite Z.add_mod_idemp_r by lia. }
      eexists _, _. split; [reflexivity|]. split; [reflexivity|].
      cbn [meta_pgid meta_magic meta_version meta_pageSize meta_free meta_sys meta_txnid
           set_meta_pgid].
      split; [exact Hp|].
      split; [|done].
      intros Hlt. rewrite Hp. apply Z.mod_small. unfold is_u64 in Hpg. lia.
  - eexists _, _. split; [reflexivity|].
    split. { unfold Page.set_id. rewrite !MemFacts.length_store, Hlen0. lia. }
    split; [apply Hov|].
    split; [intros Hle; rewrite Hov; by apply Hov'|].
    split; [reflexivity|]. split; [reflexivity|].
    split; [|done]. intros _. split; [exact Hid1|exact Hrw].
Qed.

(** ** The properties at concrete inputs *)

(** C6 at the writer meta of [Ex] and a zeroed 64-byte page. *)
Lemma meta_write_roundtrip_witness :
  MetaAt.read (meta_write Ex.writer_meta (Mem.make 64) 0) (Page.meta 0) = Ex.writer_meta.
Proof.
  apply (meta_write_roundtrip Ex.writer_meta (Mem.make 64) 0).
  - unfold meta_wf, is_u32, is_u64. vm_compute. intuition discriminate.
  - vm_compute. lia.
Defined.

(** C1 at the database [Open] returns on the file [init] creates: the meta
    pages hold the ids 0 and 1, and the current meta is the second. *)
Lemma DB_meta_greater_txnid_witness : DB_meta Ex.db_open = Ret 4112%nat.
Proof.
  destruct (DB_meta_greater_txnid Ex.db_open 16 4112) as (_ & _ & H & _).
  - vm_compute. reflexivity.
  - vm_compute. reflexivity.
  - apply H. vm_compute. discriminate.
Defined.

(** C3 at the same open database. *)
Lemma DB_sync_open_fails_witness :
  DB_sync Ex.db_open Ex.world true = Ret (Ex.world, Some DatabaseAlreadyOpenedError).
Proof.
  apply (DB_sync_open_fails Ex.db_open Ex.world true).
  vm_compute. reflexivity.
Defined.

(** C9 at a writer that has buffered page 3. *)
Lemma Transaction_page_dirty_first_witness :
  Transaction_page Ex.db_open
    (MkTransaction 0 (MetaHeap Ex.writer_meta) ∅ (Some {[ 3 := Mem.make 4096 ]})) 3
  = Ret (PageHeap (Mem.make 4096)).
Proof.
  apply (Transaction_page_dirty_first Ex.db_open _ 3) with (pages := {[ 3 := Mem.make 4096 ]}).
  - reflexivity.
  - vm_compute. reflexivity.
Defined.

(** C7 as stated fails: on a new file with 4096-byte pages [init] makes one
    call, the write of the four pages, and no fsync. *)
Lemma DB_init_no_fsync :
  match DB_init Ex.db_files Ex.world_new with
  | Ret (_, w', None) =>
      w_trace w' = [EvWriteAt MetaFile 0 (4 * 4096)] /\
      ~ exists h, EvFsync h ∈ w_trace w'
  | _ => False
  end.
Proof.
  vm_compute. split; [reflexivity|].
  intros [h Hin]. repeat (apply elem_of_cons in Hin as [Hin|Hin]; [discriminate|]).
  by apply elem_of_nil in Hin.
Qed.

(** C7 (as amended) at the same input. *)
Lemma DB_init_layout_witness :
  exists db' w',
    DB_init Ex.db_files Ex.world_new = Ret (db', w', None) /\
    db_pageSize db' = 4096 /\
    w_trace w' = [EvWriteAt MetaFile 0 (4 * 4096)].
Proof.
  destruct (DB_init_layout Ex.db_files Ex.world_new MetaFile)
    as (db' & w' & Hinit & Hps & Htr & _).
  - reflexivity.
  - reflexivity.
  - reflexivity.
  - vm_compute. split; [discriminate|reflexivity].
  - exists db', w'. split; [exact Hinit|]. split; [exact Hps|]. exact Htr.
Defined.

(** C2 as stated fails: in the file [init] creates, with the magic of the
    second meta page zeroed, the first meta page validates and the second
    does not, and [Open] returns the error [meta1 error]. *)
Lemma DB_Open_one_valid_meta_fails :
  validate (MetaAt.read (w_disk Ex.world_bad_meta1) (Page.meta 0)) = None /\
  validate (MetaAt.read (w_disk Ex.world_bad_meta1) (Page.meta 4096)) = Some InvalidError /\
  match DB_Open NewDB Ex.world_bad_meta1 "chain.db" 384 with
  | Ret (_, _, Some (Error "meta1 error" (Some InvalidError))) => True
  | _ => False
  end.
Proof. vm_compute. done. Qed.

(** C2 (as amended) at the file [init] creates. *)
Lemma DB_Open_existing_witness :
  exists db' w',
    DB_Open NewDB Ex.world "chain.db" 384 = Ret (db', w', None) /\
    db_opened db' = true /\
    db_freelist db' = Some freelist_new.
Proof.
  pose proof (DB_Open_existing NewDB Ex.world "chain.db" 384
                eq_refl ltac:(vm_compute; split; [discriminate|reflexivity])
                (fun _ => eq_refl) eq_refl eq_refl eq_refl
                ltac:(vm_compute; reflexivity)) as H.
  assert (Hlong : (minPageSize <=? Z.of_nat (length (w_disk Ex.world))) = true)
    by (vm_compute; reflexivity).
  assert (Hm0 : MetaAt.read (w_disk Ex.world) (Page.meta 0) = Meta magic version 4096 4 2 3 0)
    by (vm_compute; reflexivity).
  assert (Hm1 : MetaAt.read (w_disk Ex.world) (Page.meta (Z.to_nat 4096))
                = Meta magic version 4096 4 2 3 1)
    by (vm_compute; reflexivity).
  cbv zeta in H. destruct H as [_ H].
  rewrite Hlong, Hm0 in H. cbn [meta_pageSize] in H. rewrite Hm1 in H.
  assert (Hv : forall i, validate (Meta magic version 4096 4 2 3 i) = None) by done.
  rewrite !Hv in H.
  cbn [meta_txnid meta_free] in H.
  change (0 >? 1) with false in H. cbv iota in H.
  specialize (H ltac:(vm_compute; split; [discriminate|reflexivity])
                ltac:(vm_compute; discriminate)
                ltac:(vm_compute; reflexivity)).
  match type of H with
  | if ?c then _ else _ =>
      assert (Hin : c = true) by (vm_compute; reflexivity); rewrite Hin in H
  end.
  destruct H as (db' & w' & Hopen & Ho & _ & _ & _ & _ & Hf).
  exists db', w'. split; [exact Hopen|]. split; [exact Ho|].
  rewrite Hf. vm_compute. reflexivity.
Defined.

(** C4 at the open database of [Ex] with the pages 5 and 6 pending from
    transaction 1: a reader is begun (its id is 1) and closed, and the
    writer that begins next leaves the two pages pending. *)
Lemma DB_RWTransaction_closed_reader_witness :
  exists db1 a t db' rw f',
    DB_Transaction Ex.no_buckets ExMore.db_pending = Ret (db1, Some (a, t), None) /\
    DB_RWTransaction Ex.no_buckets (Transaction_Close db1 a) = Ret (db', Some rw, None) /\
    db_freelist db' = Some f' /\
    fl_pending f' !! 1 = Some [5; 6].
Proof.
  set (t := MkTransaction 0 (MetaMmap 4112) ∅ None).
  set (db1 := set_transactions (set_heap ExMore.db_pending 1) [(0%nat, t)]).
  destruct (DB_RWTransaction_closed_reader Ex.no_buckets ExMore.db_pending db1 0 t
              ExMore.pending)
    as (_ & _ & (db' & rw & Hrw & Hf') & Hkeep & _).
  - vm_compute. reflexivity.
  - vm_compute. reflexivity.
  - vm_compute. reflexivity.
  - vm_compute. reflexivity.
  - exists db1, 0%nat, t, db', rw. eexists.
    split; [vm_compute; reflexivity|]. split; [exact Hrw|]. split; [exact Hf'|].
    apply (Hkeep 1 [5; 6]); [reflexivity|vm_compute; discriminate].
Defined.

(** C5 as stated fails: during a writer transaction on the database of
    [Ex] (4096-byte pages), a request for [2^37] pages asks [make] for
    [2^49] bytes, more than the runtime allocates: [allocate] panics and
    returns no buffer. *)
Lemma DB_allocate_beyond_make :
  1 <= 2 ^ 37 /\
  is_Some (db_rwtransaction ExMore.db_writer_eof) /\
  DB_allocate ExMore.db_writer_eof (2 ^ 37) = Panic "makeslice: len out of range" /\
  ~ exists db' buf, DB_allocate ExMore.db_writer_eof (2 ^ 37) = Ret (db', buf).
Proof.
  assert (H : DB_allocate ExMore.db_writer_eof (2 ^ 37)
              = Panic "makeslice: len out of range") by (vm_compute; reflexivity).
  split; [lia|]. split; [by eexists|]. split; [exact H|].
  intros (db' & buf & Hret). rewrite H in Hret. discriminate.
Qed.

(** C5 (as amended) at a writer whose freelist holds the run 7, 8. *)
Lemma DB_allocate_page_witness :
  exists db' buf,
    DB_allocate Ex.db_writer 2 = Ret (db', buf) /\
    Z.of_nat (length buf) = 8192 /\
    Page.overflow buf 0 = 1 /\
    Page.id buf 0 = 7.
Proof.
  destruct (DB_allocate_page Ex.db_writer 2 (MkFreelist [7; 8; 9] ∅) Ex.writer Ex.writer_meta)
    as (db' & buf & Hal & Hlen & _ & Hov & _ & _ & Hid & _).
  - vm_compute. reflexivity.
  - vm_compute. reflexivity.
  - reflexivity.
  - repeat constructor; vm_compute; discriminate.
  - split; vm_compute; [discriminate|reflexivity].
  - lia.
  - vm_compute. discriminate.
  - vm_compute. discriminate.
  - exists db', buf. split; [exact Hal|]. split; [exact Hlen|].
    split; [apply Hov; vm_compute; discriminate|].
    apply Hid. vm_compute. discriminate.
Defined.

(** C8 at the open database of [Ex]. *)
Lemma Transaction_Close_keeps_reader_witness :
  exists db1 a t,
    DB_Transaction Ex.no_buckets Ex.db_open = Ret (db1, Some (a, t), None) /\
    (a, t) ∈ db_transactions (Transaction_Close db1 a).
Proof.
  eexists _, _, _. split.
  - vm_compute. reflexivity.
  - eapply Transaction_Close_keeps_reader with (sys_read := Ex.no_buckets) (db := Ex.db_open).
    vm_compute. reflexivity.
Defined.

(** C10 at the open database of [Ex], whose catalog is empty. *)
Lemma Get_missing_bucket_witness :
  exists db',
    DB_Get Ex.no_buckets unit (fun _ _ => Some tt) (fun _ _ _ _ => Some [])
      Ex.db_open "blocks" [] = Ret (db', None, None).
Proof.
  destruct (Get_missing_bucket Ex.no_buckets unit (fun _ _ => Some tt) (fun _ _ _ _ => Some [])
              Ex.db_open (MkTransaction 0 (MetaMmap 4112) ∅ None) "blocks" [])
    as (_ & H).
  destruct H as (db' & Hget & _).
  - vm_compute. reflexivity.
  - vm_compute. reflexivity.
  - reflexivity.
  - exists db'. exact Hget.
Defined.

(** * Further properties of the page store *)

(** ** What [meta.write] leaves alone *)

Lemma lookup_store_other m off n v i :
  (i < off \/ off + n <= i)%nat -> Mem.store m off n v !! i = m !! i.
Proof.
  intros [H|H]; unfold Mem.store.
  - by apply list_lookup_inserts_lt.
  - apply list_lookup_inserts_ge. rewrite MemFacts.length_encode. lia.
Qed.

Lemma lor_u16 a b : 0 <= a < 2 ^ 16 -> 0 <= b < 2 ^ 16 -> Z.lor a b mod 2 ^ 16 = Z.lor a b.
Proof.
  intros Ha Hb.
  rewrite <- Z.land_ones by lia. rewrite Z.land_lor_distr_l.
  rewrite !Z.land_ones by lia. by rewrite !Z.mod_small by lia.
Qed.

(** X1. [m.write(p)] ORs the flag [p_meta] into the flags the page had,
    keeps its count and overflow fields and the length of the buffer, and
    changes no byte before the page, after its first 64 bytes, or in the
    gaps between the fields it writes (bytes 10 to 15 and 28 to 31). *)
Theorem meta_write_frame (m : meta) (b : list byte) (p : nat) :
  (p + 64 <= length b)%nat ->
  let b' := meta_write m b p in
  length b' = length b /\
  Page.flags b' p = Z.lor (Page.flags b p) p_meta /\
  Page.count b' p = Page.count b p /\
  Page.overflow b' p = Page.overflow b p /\
  (forall i : nat,
     (i < p \/ p + 10 <= i < p + 16 \/ p + 28 <= i < p + 32 \/ p + 64 <= i)%nat ->
     b' !! i = b !! i).
Proof.
  intros Hlen b'. subst b'. split; [|split; [|split; [|split]]].
  - fields_unfold. by rewrite !MemFacts.length_store.
  - fields. rewrite width2. apply lor_u16.
    + rewrite <- width2. apply MemFacts.load_range.
    + done.
  - by fields.
  - by fields.
  - intros i Hi. fields_unfold.
    rewrite !lookup_store_other by lia. reflexivity.
Qed.

(** ** The signature of a meta page *)

Lemma byte_of_to_Z b0 d : Mem.byte_of_Z (Mem.byte_to_Z b0 + 256 * d) = b0.
Proof.
  unfold Mem.byte_of_Z.
  pose proof (MemFacts.byte_to_Z_range b0) as Hr.
  replace ((Mem.byte_to_Z b0 + 256 * d) mod 256) with (Mem.byte_to_Z b0).
  2:{ rewrite (Z.mul_comm 256 d), Z.mod_add by lia. by rewrite Z.mod_small. }
  unfold Mem.byte_to_Z. rewrite N2Z.id. by rewrite Byte.of_to_N.
Qed.

Lemma encode_decode bs : Mem.encode (length bs) (Mem.decode bs) = bs.
Proof.
  induction bs as [|b0 r IH]; [done|].
  cbn [length Mem.encode Mem.decode]. rewrite byte_of_to_Z. f_equal.
  pose proof (MemFacts.byte_to_Z_range b0) as Hr.
  replace ((Mem.byte_to_Z b0 + 256 * Mem.decode r) / 256) with (Mem.decode r).
  2:{ rewrite (Z.mul_comm 256), Z.div_add by lia.
      rewrite (Z.div_small (Mem.byte_to_Z b0)) by lia. lia. }
  exact IH.
Qed.

Lemma load_eq_bytes b off n v :
  (off + n <= length b)%nat ->
  Mem.load b off n = v -> take n (drop off b) = Mem.encode n v.
Proof.
  intros Hlen <-. unfold Mem.load.
  rewrite <- (encode_decode (take n (drop off b))) at 1.
  f_equal. rewrite length_take, length_drop. lia.
Qed.

Lemma validate_None_iff m :
  validate m = None <-> meta_magic m = magic /\ meta_version m = version.
Proof.
  unfold validate.
  destruct (Z.eqb_spec (meta_magic m) magic), (Z.eqb_spec (meta_version m) version);
    cbn; split; intros H; try done; by destruct H.
Qed.

(** X2. A meta validates exactly when the first eight bytes of its
    body are [DE C0 AD DE 01 00 00 00] (the magic and the version, little
    endian), and [validate] reports [InvalidError] exactly when the first
    four differ from the magic, whatever the version bytes are. *)
Theorem validate_signature (b : list byte) (q : nat) :
  (q + 8 <= length b)%nat ->
  (validate (MetaAt.read b q) = None <-> take 8 (drop q b) = signature) /\
  (validate (MetaAt.read b q) = Some InvalidError <->
   take 4 (drop q b) ≠ take 4 signature).
Proof.
  intros Hlen.
  assert (Hsplit : take 8 (drop q b) = take 4 (drop q b) ++ take 4 (drop (q + 4) b)).
  { change 8%nat with (4 + 4)%nat. rewrite <- take_take_drop, drop_drop.
    reflexivity. }
  assert (Hmag : meta_magic (MetaAt.read b q) = magic <->
                 take 4 (drop q b) = take 4 signature).
  { cbn [meta_magic MetaAt.read]. unfold MetaAt.magic, MetaAt.off_magic.
    rewrite Nat.add_0_r. split.
    - intros H. apply load_eq_bytes in H; [|lia]. rewrite H. by vm_compute.
    - intros H. unfold Mem.load. rewrite H. by vm_compute. }
  assert (Hver : meta_version (MetaAt.read b q) = version <->
                 take 4 (drop (q + 4) b) = drop 4 signature).
  { cbn [meta_version MetaAt.read]. unfold MetaAt.version, MetaAt.off_version. split.
    - intros H. apply load_eq_bytes in H; [|lia]. rewrite H. by vm_compute.
    - intros H. unfold Mem.load. rewrite H. by vm_compute. }
  split.
  - rewrite validate_None_iff, Hmag, Hver, Hsplit. split.
    + intros [-> ->]. reflexivity.
    + intros H.
      assert (Hl : length (take 4 (drop q b)) = 4%nat)
        by (rewrite length_take, length_drop; lia).
      change signature with (take 4 signature ++ drop 4 signature) in H.
      apply app_inj_1 in H; [exact H|]. by rewrite Hl.
  - rewrite <- Hmag. unfold validate.
    destruct (Z.eqb_spec (meta_magic (MetaAt.read b q)) magic) as [He|Hne]; cbn.
    + destruct (negb _); split; intros H; try done.
    + split; done.
Qed.

(** ** Page addresses *)

(** X3. Within the mapping, [db.page(i)] is at byte [i * pageSize] and
    the pages of two ids [i < j] do not overlap; an id whose offset lies
    at or past the mapped size panics with an index out of range. *)
Theorem DB_page_disjoint (db : DB) (d : list byte) (i j : Z) :
  db_data db = Some d ->
  0 < db_pageSize db < 2 ^ 32 ->
  0 <= i < j ->
  j * db_pageSize db < mmap_size ->
  exists pi pj,
    DB_page db i = Ret pi /\ DB_page db j = Ret pj /\
    Z.of_nat pi = i * db_pageSize db /\
    Z.of_nat pi + db_pageSize db <= Z.of_nat pj /\
    (forall id, 0 <= id -> mmap_size <= id * db_pageSize db < 2 ^ 64 ->
       DB_page db id = Panic "index out of range").
Proof.
  intros Hd Hps Hij Hj.
  assert (Hm : mmap_size = 2 ^ 31) by reflexivity.
  assert (H32 : 2 ^ 32 < 2 ^ 64) by reflexivity.
  exists (Z.to_nat (i * db_pageSize db)), (Z.to_nat (j * db_pageSize db)).
  split; [apply (DB_page_in db d); [done|lia|lia|nia]|].
  split; [apply (DB_page_in db d); [done|lia|lia|nia]|].
  split; [nia|]. split; [nia|].
  intros id Hid Hout. unfold DB_page, data_len, u64. rewrite Hd.
  rewrite (Z.mod_small (db_pageSize db)) by lia.
  rewrite Z.mod_small by lia.
  by destruct (Z.ltb_spec (id * db_pageSize db) mmap_size); [lia|].
Qed.

Lemma DB_page_unmapped (db : DB) (id : Z) :
  db_data db = None -> DB_page db id = Panic "index out of range".
Proof.
  intros Hd. unfold DB_page, data_len. rewrite Hd.
  assert (0 <= u64 (id * u64 (db_pageSize db))) by (apply Z.mod_pos_bound; lia).
  by destruct (Z.ltb_spec (u64 (id * u64 (db_pageSize db))) 0); [lia|].
Qed.

(** ** Allocation at the end of the file *)

Lemma freelist_allocate_empty pend n :
  freelist_allocate (MkFreelist [] pend) n = (MkFreelist [] pend, 0).
Proof. reflexivity. Qed.

(** X4. [db.allocate(count)] panics when [count * pageSize] is not
    positive: in [make] when it is negative, at [&buf[0]] when it is
    zero. *)
Theorem DB_allocate_no_pages (db : DB) (count : Z) :
  - 2 ^ 63 <= count * db_pageSize db < 2 ^ 63 ->
  count * db_pageSize db <= 0 ->
  DB_allocate db count =
    Panic (if count * db_pageSize db <? 0
           then "makeslice: len out of range" else "index out of range").
Proof.
  intros Hfit Hz. unfold DB_allocate.
  assert (Hmax : 0 < maxAlloc) by reflexivity.
  rewrite int64_small by lia.
  destruct (Z.ltb_spec (count * db_pageSize db) 0); [done|].
  destruct (Z.ltb_spec maxAlloc (count * db_pageSize db)); [lia|]. cbn [orb].
  by destruct (Z.eqb_spec (count * db_pageSize db) 0); [|lia].
Qed.

Lemma DB_allocate_eof_run db count pend rw m :
  db_freelist db = Some (MkFreelist [] pend) ->
  db_rwtransaction db = Some rw ->
  tx_meta (rw_tx rw) = MetaHeap m ->
  is_u64 (meta_pgid m) ->
  1 <= count ->
  Z.of_nat pageHeaderSize <= db_pageSize db ->
  count * db_pageSize db <= maxAlloc ->
  exists buf,
    DB_allocate db count =
      Ret (set_rwtransaction (set_freelist db (Some (MkFreelist [] pend)))
             (Some (grow_writer rw m count)), buf) /\
    Z.of_nat (length buf) = count * db_pageSize db /\
    Page.id buf 0 = meta_pgid m /\
    Page.overflow buf 0 = u32 (count - 1).
Proof.
  intros Hf Hrw Hm Hpg Hc Hps Hfit.
  assert (Hhdr : Z.of_nat pageHeaderSize = 16) by reflexivity.
  assert (H4863 : maxAlloc < 2 ^ 63) by reflexivity.
  set (n := count * db_pageSize db) in *.
  assert (Hn : 16 <= n) by (subst n; nia).
  unfold DB_allocate. fold n.
  rewrite int64_small by lia.
  rewrite make_in_range by lia.
  destruct (Z.eqb_spec n 0); [lia|].
  rewrite Hf, freelist_allocate_empty.
  set (buf0 := Page.set_overflow (Mem.make (Z.to_nat n)) 0 (u32 (count - 1))).
  assert (Hlen0 : length buf0 = Z.to_nat n).
  { subst buf0. unfold Page.set_overflow.
    by rewrite MemFacts.length_store, MemFacts.length_make. }
  assert (Hid0 : Page.id (Page.set_id buf0 0 0) 0 = 0).
  { fields. reflexivity. }
  rewrite Hid0. cbn [negb Z.eqb].
  change (db_rwtransaction (set_freelist db (Some (MkFreelist [] pend))))
    with (db_rwtransaction db).
  rewrite Hrw, Hm.
  eexists. split; [reflexivity|]. split; [|split].
  - unfold Page.set_id. rewrite !MemFacts.length_store, Hlen0. lia.
  - fields. rewrite width8. by apply u64_small.
  - subst buf0. fields. rewrite width4. unfold u32. by rewrite Z.mod_mod by lia.
Qed.

(** X5. With no free page in the freelist, two allocations in a row (each
    of a size that [make] allocates) return the runs that start at the
    writer's next-unallocated page id and right after the first run: they
    do not overlap, the next-unallocated id ends [c1 + c2] higher, and the
    freelist, the mapping and the readers are as before. *)
Theorem DB_allocate_twice (db : DB) (c1 c2 : Z) (pend : gmap Z (list Z))
    (rw : RWTransaction) (m : meta) :
  db_freelist db = Some (MkFreelist [] pend) ->
  db_rwtransaction db = Some rw ->
  tx_meta (rw_tx rw) = MetaHeap m ->
  0 <= meta_pgid m ->
  meta_pgid m + c1 + c2 < 2 ^ 64 ->
  1 <= c1 -> 1 <= c2 ->
  Z.of_nat pageHeaderSize <= db_pageSize db ->
  c1 * db_pageSize db <= maxAlloc ->
  c2 * db_pageSize db <= maxAlloc ->
  exists db1 b1 db2 b2 rw2,
    DB_allocate db c1 = Ret (db1, b1) /\
    DB_allocate db1 c2 = Ret (db2, b2) /\
    Page.id b1 0 = meta_pgid m /\
    Page.id b2 0 = meta_pgid m + c1 /\
    db_rwtransaction db2 = Some rw2 /\
    meta_pgid (meta_of db2 (tx_meta (rw_tx rw2))) = meta_pgid m + c1 + c2 /\
    db_freelist db2 = db_freelist db /\
    db_data db2 = db_data db /\
    db_transactions db2 = db_transactions db.
Proof.
  intros Hf Hrw Hm Hpg0 Hpg Hc1 Hc2 Hps Hfit1 Hfit2.
  assert (Hu1 : u64 (meta_pgid m + u64 c1) = meta_pgid m + c1).
  { unfold u64. rewrite Z.add_mod_idemp_r by lia. apply Z.mod_small. lia. }
  destruct (DB_allocate_eof_run db c1 pend rw m) as (b1 & Hr1 & _ & Hid1 & _);
    try done. { unfold is_u64. lia. }
  set (db1 := set_rwtransaction _ _) in Hr1.
  set (m1 := set_meta_pgid m (u64 (meta_pgid m + u64 c1))).
  destruct (DB_allocate_eof_run db1 c2 pend (grow_writer rw m c1) m1)
    as (b2 & Hr2 & _ & Hid2 & _); try done.
  { unfold is_u64. cbn [m1 meta_pgid set_meta_pgid]. rewrite Hu1. lia. }
  eexists _, b1, _, b2, _. split; [exact Hr1|]. split; [exact Hr2|].
  split; [exact Hid1|]. split.
  { rewrite Hid2. cbn [m1 meta_pgid set_meta_pgid]. exact Hu1. }
  split; [reflexivity|]. split.
  { cbn. rewrite Hu1. unfold u64. rewrite Z.add_mod_idemp_r by lia.
    apply Z.mod_small. lia. }
  cbn. by rewrite Hf.
Qed.

(** ** Opening: the paths of [Open] *)

(** [Open_finish] on the file [init] writes (with the page size [init]
    gave it): both meta pages validate, the second is current, the
    freelist page is empty. *)
Lemma Open_finish_init db dbi w :
  w_stat_err w = None ->
  w_mmap_err w = None ->
  64 <= db_pageSize db < 2 ^ 30 ->
  db_pageSize dbi = db_pageSize db ->
  w_disk w = init_bytes dbi ->
  let P := Z.to_nat (db_pageSize db) in
  let db' :=
    set_opened
      (set_freelist
         (set_meta1 (set_meta0 (set_data db (Some (init_bytes dbi))) (Some (Page.meta 0)))
                    (Some (Page.meta P)))
         (Some freelist_new)) true in
  Open_finish (db, w, None) = Ret (db', log (log w EvStat) (EvMmap mmap_size), None) /\
  DB_meta db' = Ret (Page.meta P) /\
  MetaAt.read (init_bytes dbi) (Page.meta 0) = Meta magic version (db_pageSize db) 4 2 3 0 /\
  MetaAt.read (init_bytes dbi) (Page.meta P) = Meta magic version (db_pageSize db) 4 2 3 1.
Proof.
  intros Hstat Hmmap Hps Hpsi Hdisk P db'.
  assert (Hm : mmap_size = 2 ^ 31) by reflexivity.
  assert (H3032 : 2 ^ 30 < 2 ^ 32) by reflexivity.
  assert (H3031 : 2 ^ 30 * 2 = 2 ^ 31) by reflexivity.
  pose proof (init_bytes_meta dbi 0 ltac:(rewrite Hpsi; lia) ltac:(lia)) as (_ & _ & H0).
  pose proof (init_bytes_meta dbi 1 ltac:(rewrite Hpsi; lia) ltac:(lia)) as (_ & _ & H1).
  pose proof (init_bytes_empty_pages dbi ltac:(rewrite Hpsi; lia)) as ((_ & _ & Hc & Hfl) & _).
  rewrite Hpsi in H0, H1, Hc, Hfl. fold P in H0, H1, Hc, Hfl. cbn zeta in Hc, Hfl.
  change (0 * P)%nat with 0%nat in H0.
  replace (1 * P)%nat with P in H1 by lia.
  change (Z.of_nat 0) with 0 in H0. change (Z.of_nat 1) with 1 in H1.
  assert (Hv : forall i, validate (Meta magic version (db_pageSize db) 4 2 3 i) = None) by done.
  set (db3 := set_freelist
         (set_meta1 (set_meta0 (set_data db (Some (init_bytes dbi))) (Some (Page.meta 0)))
                    (Some (Page.meta P)))
         (Some freelist_new)).
  assert (Hmeta : DB_meta db3 = Ret (Page.meta P)).
  { unfold DB_meta. cbn [db3 db_meta0 db_meta1 set_freelist set_meta1 set_meta0].
    change (db_bytes db3) with (init_bytes dbi).
    change (MetaAt.txnid (init_bytes dbi) (Page.meta 0))
      with (meta_txnid (MetaAt.read (init_bytes dbi) (Page.meta 0))).
    change (MetaAt.txnid (init_bytes dbi) (Page.meta P))
      with (meta_txnid (MetaAt.read (init_bytes dbi) (Page.meta P))).
    rewrite H0, H1. reflexivity. }
  split; [|split; [exact Hmeta|split; assumption]].
  unfold Open_finish.
  rewrite DB_mmap_run;
    [| done | done | lia | rewrite Hdisk, init_bytes_length, Hpsi; lia].
  rewrite Hdisk. fold P. rewrite H0, H1, !Hv, bind_Ret. cbv beta iota zeta.
  fold db3. rewrite Hmeta, bind_Ret.
  change (db_bytes db3) with (init_bytes dbi).
  change (MetaAt.free (init_bytes dbi) (Page.meta P))
    with (meta_free (MetaAt.read (init_bytes dbi) (Page.meta P))).
  rewrite H1. cbn [meta_free].
  rewrite (DB_page_in db3 (init_bytes dbi) 2) by (try done; cbn; lia).
  rewrite bind_Ret.
  change (db_pageSize db3) with (db_pageSize db).
  replace (Z.to_nat (2 * db_pageSize db)) with (2 * P)%nat by lia.
  rewrite mapped_load_in, bind_Ret.
  - unfold freelist_read. rewrite Hfl. reflexivity.
  - pose proof (mapped_end_ge w) as Hend.
    rewrite Hdisk, init_bytes_length, Hpsi in Hend. fold P in Hend.
    change (mapped_end (log (log w EvStat) (EvMmap mmap_size))) with (mapped_end w).
    change (db_bytes db3) with (init_bytes dbi).
    unfold freelist_size. rewrite Hc. change (Z.of_nat pageHeaderSize) with 16. lia.
Qed.

Lemma DB_init_run db w h :
  db_metafile db = Some h ->
  w_writeat_err w = None ->
  w_disk w = [] ->
  0 < w_pagesize w < 2 ^ 32 ->
  let db1 := set_pageSize db (w_pagesize w) in
  DB_init db w =
    Ret (db1,
         set_disk (log w (EvWriteAt h 0 (4 * Z.to_nat (w_pagesize w)))) (init_bytes db1),
         None).
Proof.
  intros Hh Hw Hd Hps db1. unfold DB_init. fold db1.
  rewrite init_buffer_closed by exact Hps.
  rewrite bind_Ret.
  replace (db_metafile db1) with (Some h) by (symmetry; exact Hh).
  rewrite file_WriteAt_empty by assumption.
  rewrite init_bytes_length. reflexivity.
Qed.

(** X6. [Open] on a new (empty) file, when the system calls succeed:
    it writes the four pages of [init] through the metadata handle, maps
    them, and returns an open database with the OS page size, an empty
    freelist and the second meta page (transaction id 1) as the current
    meta; the calls it makes are two [OpenFile], [Stat], [WriteAt], [Stat]
    and [Mmap], in this order. *)
Theorem DB_Open_new_file (db : DB) (w : World) (path : string) (mode : Z) :
  db_opened db = false ->
  (forall h, w_open_err w h = None) ->
  w_stat_err w = None ->
  w_writeat_err w = None ->
  w_mmap_err w = None ->
  w_disk w = [] ->
  64 <= w_pagesize w < 2 ^ 30 ->
  let ps := w_pagesize w in
  let P := Z.to_nat ps in
  exists db' w',
    DB_Open db w path mode = Ret (db', w', None) /\
    db_opened db' = true /\
    DB_Path db' = path /\
    db_pageSize db' = ps /\
    length (w_disk w') = (4 * P)%nat /\
    db_data db' = Some (w_disk w') /\
    db_freelist db' = Some freelist_new /\
    db_transactions db' = db_transactions db /\
    DB_meta db' = Ret (Page.meta P) /\
    MetaAt.read (w_disk w') (Page.meta P) = Meta magic version ps 4 2 3 1 /\
    w_trace w' = w_trace w ++
      [EvOpenFile DataFile; EvOpenFile MetaFile; EvStat;
       EvWriteAt MetaFile 0 (4 * P); EvStat; EvMmap mmap_size].
Proof.
  intros Ho Hopen Hstat Hwrite Hmmap Hdisk Hps ps P.
  assert (H3032 : 2 ^ 30 < 2 ^ 32) by reflexivity.
  rewrite DB_Open_run by assumption.
  rewrite Hdisk. cbn [length]. change (Z.of_nat 0 =? 0) with true. cbv iota.
  set (db1 := set_metafile _ _).
  rewrite (DB_init_run db1 _ MetaFile) by (try done; cbn [w_pagesize log]; lia).
  rewrite bind_Ret. cbn [w_pagesize log].
  set (db2 := set_pageSize db1 (w_pagesize w)).
  set (w2 := set_disk _ _).
  destruct (Open_finish_init db2 db2 w2) as (Hrun & Hmeta & _ & H1); try done.
  rewrite Hrun. eexists _, _. split; [reflexivity|].
  cbn [w_disk set_disk log w_trace w2].
  rewrite init_bytes_length. 
  repeat split; try reflexivity.
  - exact Hmeta.
  - exact H1.
  - rewrite <- !app_assoc. reflexivity.
Qed.

(** X7. The file a first [Open] creates can be opened again by another
    [DB] value: the second [Open] succeeds without writing, finds the same
    page size in the first meta page, and ends with the same mapping, meta
    references, current meta and freelist as the first (page sizes from
    1024 bytes, so that the file holds [minPageSize] bytes). *)
Theorem DB_Open_reopen (db db2 : DB) (w : World) (path : string) (mode : Z) :
  db_opened db = false ->
  db_opened db2 = false ->
  (forall h, w_open_err w h = None) ->
  w_stat_err w = None ->
  w_readat_err w = None ->
  w_writeat_err w = None ->
  w_mmap_err w = None ->
  w_disk w = [] ->
  1024 <= w_pagesize w < 2 ^ 30 ->
  exists db' w' db2' w2',
    DB_Open db w path mode = Ret (db', w', None) /\
    DB_Open db2 w' path mode = Ret (db2', w2', None) /\
    w_disk w2' = w_disk w' /\
    db_opened db2' = true /\
    db_pageSize db2' = db_pageSize db' /\
    db_data db2' = db_data db' /\
    db_meta0 db2' = db_meta0 db' /\
    db_meta1 db2' = db_meta1 db' /\
    DB_meta db2' = DB_meta db' /\
    db_freelist db2' = db_freelist db'.
Proof.
  intros Ho Ho2 Hopen Hstat Hread Hwrite Hmmap Hdisk Hps.
  assert (H3032 : 2 ^ 30 < 2 ^ 32) by reflexivity.
  assert (Hmin : minPageSize = 4096) by reflexivity.
  rewrite DB_Open_run by assumption.
  rewrite Hdisk. cbn [length]. change (Z.of_nat 0 =? 0) with true. cbv iota.
  set (db1 := set_metafile _ _).
  rewrite (DB_init_run db1 _ MetaFile) by (try done; cbn [w_pagesize log]; lia).
  rewrite bind_Ret. cbn [w_pagesize log].
  set (dbi := set_pageSize db1 (w_pagesize w)).
  set (wi := set_disk _ _).
  destruct (Open_finish_init dbi dbi wi) as (Hrun & Hmeta & _ & _);
    [done|done|cbn; lia|done|done|].
  rewrite Hrun. clear Hrun.
  eexists _, (log (log wi EvStat) (EvMmap mmap_size)), _, _.
  split; [reflexivity|].
  set (w' := log (log wi EvStat) (EvMmap mmap_size)).
  assert (Hdisk' : w_disk w' = init_bytes dbi) by reflexivity.
  assert (Hlen' : Z.of_nat (length (w_disk w')) = 4 * w_pagesize w).
  { rewrite Hdisk', init_bytes_length. cbn [dbi db_pageSize set_pageSize]. lia. }
  rewrite (DB_Open_run db2 w') by assumption.
  destruct (Z.eqb_spec (Z.of_nat (length (w_disk w'))) 0) as [|_]; [lia|].
  rewrite read_pageSize_run by (try done; cbn [w_disk log]; lia).
  cbn [w_disk log]. rewrite Hdisk'.
  set (db21 := set_metafile _ _).
  assert (Hps0 : db_pageSize dbi = w_pagesize w) by reflexivity.
  pose proof (init_bytes_meta dbi 0 ltac:(rewrite Hps0; lia) ltac:(lia)) as (_ & _ & H0).
  change (0 * _)%nat with 0%nat in H0. rewrite Hps0 in H0.
  rewrite H0.
  assert (Hv : forall i, validate (Meta magic version (w_pagesize w) 4 2 3 i) = None) by done.
  rewrite Hv, bind_Ret. cbn [meta_pageSize].
  set (db22 := set_pageSize db21 (w_pagesize w)).
  set (w22 := log _ (EvReadAt _ _)).
  destruct (Open_finish_init db22 dbi w22) as (Hrun2 & Hmeta2 & _ & _);
    [done|done|cbn; lia|done|done|].
  rewrite Hrun2.
  split; [reflexivity|].
  repeat split; try reflexivity.
Qed.

(** X8. [Open] on a file whose first meta page validates but which
    is shorter than two pages of the size that meta records fails with the
    error [file size too small], without mapping the file; the database
    stays closed and its freelist is nil. *)
Theorem DB_Open_truncated (db : DB) (w : World) (path : string) (mode : Z) :
  db_opened db = false ->
  (forall h, w_open_err w h = None) ->
  w_stat_err w = None ->
  w_readat_err w = None ->
  minPageSize <= Z.of_nat (length (w_disk w)) ->
  let m0 := MetaAt.read (w_disk w) (Page.meta 0) in
  validate m0 = None ->
  Z.of_nat (length (w_disk w)) < meta_pageSize m0 * 2 ->
  exists db',
    DB_Open db w path mode =
      Ret (db',
           log (log (log (log (log w (EvOpenFile DataFile)) (EvOpenFile MetaFile))
                         EvStat) (EvReadAt 0 (Z.to_nat minPageSize))) EvStat,
           Some (Error "file size too small" None)) /\
    db_opened db' = false /\
    db_data db' = db_data db /\
    db_freelist db' = None.
Proof.
  intros Ho Hopen Hstat Hread Hsize m0 Hv Hsmall.
  assert (H3263 : 2 ^ 32 * 2 < 2 ^ 63) by reflexivity.
  assert (Hps : 0 <= meta_pageSize m0 < 2 ^ 32).
  { subst m0. cbn [meta_pageSize MetaAt.read]. apply is_u32_load. }
  rewrite DB_Open_run by assumption.
  destruct (Z.eqb_spec (Z.of_nat (length (w_disk w))) 0) as [Hz|_].
  { assert (minPageSize = 4096) by reflexivity. lia. }
  rewrite read_pageSize_run by assumption.
  cbn [w_disk log]. fold m0. rewrite Hv, bind_Ret.
  unfold Open_finish, DB_mmap.
  rewrite file_Stat_ok by assumption.
  cbv beta iota zeta. cbn [w_disk log db_pageSize set_pageSize].
  rewrite int64_small by lia.
  destruct (Z.ltb_spec (Z.of_nat (length (w_disk w))) (meta_pageSize m0 * 2)); [|lia].
  rewrite bind_Ret.
  eexists. split; [reflexivity|]. cbn. by rewrite Ho.
Qed.

(** X9. On a file that is not empty but shorter than [minPageSize],
    [ReadAt] returns [io.EOF] and [Open] skips both the first validation
    and the page size: with [db.pageSize] still 0 both meta references
    point at the first page, a bad meta is reported as [meta0 error], and
    a good one makes [Open] succeed with page size 0, every page id
    resolving to the same address (the freelist entries that [Open] then
    reads, counted by the header of that page, are taken to lie within the
    file). *)
Theorem DB_Open_short_file (db : DB) (w : World) (path : string) (mode : Z) :
  db_opened db = false ->
  db_pageSize db = 0 ->
  (forall h, w_open_err w h = None) ->
  w_stat_err w = None ->
  w_readat_err w = None ->
  w_mmap_err w = None ->
  64 <= Z.of_nat (length (w_disk w)) < minPageSize ->
  Z.of_nat pageHeaderSize + 8 * Page.count (w_disk w) 0
    <= Z.of_nat (length (w_disk w)) ->
  let m := MetaAt.read (w_disk w) (Page.meta 0) in
  match validate m with
  | Some e =>
      exists db' w',
        DB_Open db w path mode = Ret (db', w', Some (Error "meta0 error" (Some e)))
  | None =>
      exists db' w',
        DB_Open db w path mode = Ret (db', w', None) /\
        db_opened db' = true /\
        db_pageSize db' = 0 /\
        db_meta0 db' = Some (Page.meta 0) /\
        db_meta1 db' = Some (Page.meta 0) /\
        DB_page db' 1 = DB_page db' 0
  end.
Proof.
  intros Ho Hps Hopen Hstat Hread Hmmap Hlen Hfl m.
  assert (Hmin : minPageSize = 4096) by reflexivity.
  assert (Hm : mmap_size = 2 ^ 31) by reflexivity.
  rewrite DB_Open_run by assumption.
  destruct (Z.eqb_spec (Z.of_nat (length (w_disk w))) 0) as [|_]; [lia|].
  unfold read_pageSize.
  rewrite file_ReadAt_short by (try done; cbn [w_disk log]; lia).
  rewrite bind_Ret.
  unfold Open_finish.
  rewrite DB_mmap_run by (try done; cbn; rewrite Hps; lia).
  cbn [db_pageSize set_metafile set_file set_path w_disk log].
  rewrite Hps. change (Z.to_nat 0) with 0%nat. fold m.
  destruct (validate m) as [e|] eqn:Hv.
  { rewrite bind_Ret. eauto. }
  rewrite bind_Ret. cbv beta iota zeta.
  set (db3 := set_freelist _ (Some freelist_new)).
  assert (Hmeta : DB_meta db3 = Ret (Page.meta 0)).
  { unfold DB_meta. cbn. by destruct (_ >? _). }
  rewrite Hmeta, bind_Ret.
  assert (Hpage : forall id, DB_page db3 id = Ret 0%nat).
  { intros id. unfold DB_page, data_len, u64. cbn. rewrite Hps.
    rewrite Z.mod_0_l, Z.mul_0_r, Z.mod_0_l by lia. reflexivity. }
  rewrite Hpage, bind_Ret.
  rewrite mapped_load_in, bind_Ret.
  2:{ pose proof (mapped_end_ge w) as Hend.
      change (mapped_end (log _ _)) with (mapped_end w).
      change (db_bytes db3) with (w_disk w).
      unfold freelist_size. cbn [Z.of_nat]. lia. }
  eexists _, _. split; [reflexivity|].
  repeat split; try reflexivity; try exact Hps.
  unfold DB_page, data_len, u64. cbn. rewrite Hps.
  by rewrite Z.mod_0_l, !Z.mul_0_r by lia.
Qed.

Lemma DB_init_opened db w db' w' e :
  DB_init db w = Ret (db', w', e) -> db_opened db' = db_opened db.
Proof.
  unfold DB_init. intros H.
  apply bind_Ret_inv in H as (buf & _ & H).
  cbn [db_metafile set_pageSize] in H.
  destruct (db_metafile db); [|done].
  destruct (file_WriteAt _ _ _ _) as [w1 [e1|]]; by inversion H.
Qed.

Lemma read_pageSize_opened db w db' w' e :
  read_pageSize db w = Ret (db', w', e) -> db_opened db' = db_opened db.
Proof.
  unfold read_pageSize. intros H.
  destruct (file_ReadAt _ _ _) as [[w1 buf] [e1|]]; [by inversion H|].
  apply bind_Ret_inv in H as (p & _ & H).
  destruct (validate _); by inversion H.
Qed.

Lemma DB_mmap_opened db w db' w' e :
  DB_mmap db w = Ret (db', w', e) -> db_opened db' = db_opened db.
Proof.
  unfold DB_mmap. intros H.
  destruct (file_Stat w) as [[w1 size] [e1|]]; [by inversion H|].
  destruct (_ <? _); [by inversion H|].
  destruct (syscall_Mmap _ _) as [[w2 d] [e2|]]; [by inversion H|].
  apply bind_Ret_inv in H as (p0 & _ & H).
  apply bind_Ret_inv in H as (p1 & _ & H).
  destruct (validate _); [by inversion H|].
  destruct (validate _); by inversion H.
Qed.

(** X10. Whatever the file and the answers of the system, when [Open]
    returns on a database that was not open, the database is marked open
    exactly when the error is nil. *)
Theorem DB_Open_opened_iff (db : DB) (w : World) (path : string) (mode : Z)
    (db' : DB) (w' : World) (err : option error) :
  db_opened db = false ->
  DB_Open db w path mode = Ret (db', w', err) ->
  (db_opened db' = true <-> err = None).
Proof.
  intros Ho H. unfold DB_Open in H. rewrite Ho in H.
  destruct (os_OpenFile w DataFile) as [[w1 f1] [e1|]].
  { inversion H; subst. cbn. rewrite Ho. split; discriminate. }
  destruct (os_OpenFile w1 MetaFile) as [[w2 f2] [e2|]].
  { inversion H; subst. cbn. rewrite Ho. split; discriminate. }
  destruct (file_Stat w2) as [[w3 size] [e3|]].
  { inversion H; subst. cbn. rewrite Ho. split; discriminate. }
  apply bind_Ret_inv in H as ([[db4 w4] e4] & H4 & H).
  assert (Ho4 : db_opened db4 = false).
  { destruct (size =? 0).
    - apply DB_init_opened in H4. by rewrite H4.
    - apply read_pageSize_opened in H4. by rewrite H4. }
  destruct e4 as [e4|].
  { inversion H; subst. rewrite Ho4. split; discriminate. }
  apply bind_Ret_inv in H as ([[db5 w5] e5] & H5 & H).
  apply DB_mmap_opened in H5. rewrite Ho4 in H5.
  destruct e5 as [e5|].
  { inversion H; subst. cbn. rewrite H5. split; discriminate. }
  apply bind_Ret_inv in H as (q & _ & H).
  apply bind_Ret_inv in H as (p & _ & H).
  apply bind_Ret_inv in H as (u & _ & H).
  inversion H; subst. done.
Qed.

(** X11. [Close] sets the freelist to nil and nothing else: the
    database is still marked open, so a later [Open] fails with
    [DatabaseAlreadyOpenedError] without a system call, and read-only
    transactions still begin as before. *)
Theorem DB_Close_stays_open (db : DB) (w : World) (path : string) (mode : Z)
    (db' : DB) (w' : World) :
  DB_Open db w path mode = Ret (db', w', None) ->
  db_freelist (DB_Close db') = None /\
  (forall w2 path2 mode2,
      DB_Open (DB_Close db') w2 path2 mode2
      = Ret (DB_Close db', w2, Some DatabaseAlreadyOpenedError)) /\
  (forall sys_read db1 a t,
      DB_Transaction sys_read db' = Ret (db1, Some (a, t), None) ->
      DB_Transaction sys_read (DB_Close db') = Ret (DB_Close db1, Some (a, t), None)).
Proof.
  intros H. apply DB_Open_ok in H as (Ho & _).
  split; [reflexivity|]. split.
  - intros w2 path2 mode2. unfold DB_Open.
    change (db_opened (DB_Close db')) with (db_opened db'). by rewrite Ho.
  - intros sys_read db1 a t Ht. unfold DB_Transaction in *.
    change (db_opened (DB_Close db')) with (db_opened db').
    rewrite Ho in *. cbn [negb] in *.
    change (Transaction_init sys_read (DB_Close db')) with (Transaction_init sys_read db').
    apply bind_Ret_inv in Ht as (t' & Hinit & Ht). rewrite Hinit, bind_Ret.
    by inversion Ht; subst.
Qed.

(** X12. When the write of [init] fails after [n] bytes, [Open] returns
    that error as it is, nothing is mapped and the database stays closed,
    with the page size of the system in [db.pageSize]. [init] does not
    look at the count: the file is left with the first [n] bytes of the
    four pages. *)
Theorem DB_Open_init_write_fails (db : DB) (w : World) (path : string) (mode : Z)
    (n : nat) (e : error) :
  db_opened db = false ->
  (forall h, w_open_err w h = None) ->
  w_stat_err w = None ->
  w_disk w = [] ->
  0 < w_pagesize w < 2 ^ 32 ->
  w_writeat_err w = Some (n, e) ->
  exists db' w',
    DB_Open db w path mode = Ret (db', w', Some e) /\
    db_opened db' = false /\
    db_data db' = db_data db /\
    db_pageSize db' = w_pagesize w /\
    w_disk w' = take n (init_bytes db') /\
    length (w_disk w') = (n `min` (4 * Z.to_nat (w_pagesize w)))%nat /\
    w_trace w' = w_trace w ++
      [EvOpenFile DataFile; EvOpenFile MetaFile; EvStat;
       EvWriteAt MetaFile 0 (4 * Z.to_nat (w_pagesize w))].
Proof.
  intros Ho Hopen Hstat Hdisk Hps Hwrite.
  rewrite DB_Open_run by assumption.
  rewrite Hdisk. cbn [length]. change (Z.of_nat 0 =? 0) with true. cbv iota.
  unfold DB_init.
  rewrite init_buffer_closed by (cbn [db_pageSize set_pageSize w_pagesize log]; lia).
  rewrite bind_Ret. cbn [db_metafile set_pageSize set_metafile].
  unfold file_WriteAt. cbn [w_writeat_err w_disk log]. rewrite Hwrite, Hdisk.
  rewrite pwrite_empty.
  rewrite bind_Ret. cbn [Open_finish].
  eexists _, _. split; [reflexivity|].
  cbn [w_disk w_trace set_disk log db_opened db_data db_pageSize
       set_pageSize set_metafile set_file set_path].
  rewrite init_bytes_length. cbn [db_pageSize set_pageSize w_pagesize log].
  repeat split; try assumption; try reflexivity.
  - rewrite length_take, init_bytes_length. reflexivity.
  - rewrite <- !app_assoc. reflexivity.
Qed.

(** ** Readers: registering and removing *)

Lemma remove_first_fresh a l :
  a ∉ l.*1 -> remove_first a l = l.
Proof.
  induction l as [|[b t] r IH]; cbn; intros Hn; [done|].
  apply not_elem_of_cons in Hn as [Hne Hn].
  destruct (Nat.eqb_spec b a) as [->|_]; [done|]. by rewrite IH.
Qed.

Lemma remove_first_snoc a t l :
  a ∉ l.*1 -> remove_first a (l ++ [(a, t)]) = l.
Proof.
  induction l as [|[b u] r IH]; cbn; intros Hn.
  - by rewrite Nat.eqb_refl.
  - apply not_elem_of_cons in Hn as [Hne Hn].
    destruct (Nat.eqb_spec b a) as [->|_]; [done|]. by rewrite IH.
Qed.

Lemma filter_other_readers a (l : list (nat * Transaction)) :
  a ∉ l.*1 -> filter (fun x : nat * Transaction => x.1 ≠ a) l = l.
Proof.
  induction l as [|[b t] r IH]; intros Hn; [done|].
  rewrite fmap_cons in Hn. apply not_elem_of_cons in Hn as [Hne Hn].
  rewrite filter_cons_True by (cbn; auto). by rewrite IH.
Qed.

Lemma remove_first_filter a l :
  NoDup l.*1 ->
  remove_first a l = filter (fun x : nat * Transaction => x.1 ≠ a) l.
Proof.
  induction l as [|[b t] r IH]; intros Hnd; [done|].
  rewrite fmap_cons in Hnd. apply NoDup_cons in Hnd as [Hb Hnd].
  cbn [remove_first fst] in *.
  destruct (Nat.eqb_spec b a) as [->|Hne].
  - rewrite filter_cons_False by (cbn; auto).
    symmetry. by apply filter_other_readers.
  - rewrite filter_cons_True by done. by rewrite IH.
Qed.

Lemma fold_min_init_le (ids : list Z) (s1 s2 : Z) :
  s1 <= s2 ->
  fold_left (fun acc id => if id <? acc then id else acc) ids s1 <=
  fold_left (fun acc id => if id <? acc then id else acc) ids s2.
Proof.
  revert s1 s2. induction ids as [|x r IH]; intros s1 s2 Hle; cbn; [done|].
  apply IH. destruct (Z.ltb_spec x s1), (Z.ltb_spec x s2); lia.
Qed.

Lemma fold_min_app (ids1 ids2 : list Z) (s : Z) :
  fold_left (fun acc id => if id <? acc then id else acc) (ids1 ++ ids2) s =
  fold_left (fun acc id => if id <? acc then id else acc) ids2
    (fold_left (fun acc id => if id <? acc then id else acc) ids1 s).
Proof. apply fold_left_app. Qed.

Section ReaderFacts.

Variable sys_read : list byte -> nat -> gmap string bucket.

(** X13. [db.Transaction()] appends the new reader at the end of
    [db.transactions] under an address no other reader has, and
    [db.removeTransaction] of that reader gives back the list of readers
    there was before. *)
Theorem DB_Transaction_remove_roundtrip (db db1 : DB) (a : nat) (t : Transaction) :
  (forall x, x ∈ db_transactions db -> (x.1 < db_heap db)%nat) ->
  DB_Transaction sys_read db = Ret (db1, Some (a, t), None) ->
  db_transactions db1 = db_transactions db ++ [(a, t)] /\
  (a ∉ (db_transactions db).*1) /\
  db_transactions (DB_removeTransaction db1 a) = db_transactions db /\
  (forall x, x ∈ db_transactions db1 -> (x.1 < db_heap db1)%nat).
Proof.
  intros Hfresh H. apply DB_Transaction_inv in H as (Ho & Hinit & -> & ->).
  assert (Hn : db_heap db ∉ (db_transactions db).*1).
  { intros Hin. apply list_elem_of_fmap in Hin as (x & Hx & Hin).
    apply Hfresh in Hin. lia. }
  split; [reflexivity|]. split; [exact Hn|]. split.
  - unfold DB_removeTransaction. cbn. by apply remove_first_snoc.
  - cbn. intros x Hin. apply elem_of_app in Hin as [Hin|Hin].
    + apply Hfresh in Hin. lia.
    + apply list_elem_of_singleton in Hin. subst x. cbn. lia.
Qed.

End ReaderFacts.

(** X14. [db.removeTransaction(t)] changes nothing when [t] is not
    in [db.transactions]; when the readers are distinct it removes [t] and
    keeps every other reader, in order; it never touches the mapping, the
    freelist, the open flag or the writer. *)
Theorem DB_removeTransaction_spec (db : DB) (a : nat) :
  let db' := DB_removeTransaction db a in
  (a ∉ (db_transactions db).*1 -> db' = db) /\
  (NoDup (db_transactions db).*1 ->
   db_transactions db' = filter (fun x : nat * Transaction => x.1 ≠ a) (db_transactions db) /\
   (a ∉ (db_transactions db').*1) /\
   (forall x, x.1 ≠ a -> (x ∈ db_transactions db' <-> x ∈ db_transactions db))) /\
  db_data db' = db_data db /\ db_freelist db' = db_freelist db /\
  db_opened db' = db_opened db /\ db_rwtransaction db' = db_rwtransaction db.
Proof.
  cbn zeta. split; [|split].
  - intros Hn. unfold DB_removeTransaction. rewrite remove_first_fresh by done.
    by destruct db.
  - intros Hnd. unfold DB_removeTransaction. cbn [db_transactions set_transactions].
    rewrite remove_first_filter by done.
    split; [reflexivity|]. split.
    + intros Hin. apply list_elem_of_fmap in Hin as (x & -> & Hin).
      by apply list_elem_of_filter in Hin as [Hne _].
    + intros x Hne. rewrite list_elem_of_filter. tauto.
  - done.
Qed.

Section ReaderMin.

Variable sys_read : list byte -> nat -> gmap string bucket.

(** X15. The minimum reader id that [DB.RWTransaction] computes
    never gets smaller when a reader is removed, and after
    [db.Transaction()] it is the minimum of the old value and the id of the
    new reader. *)
Theorem min_reader_monotone (db : DB) (a : nat) :
  min_reader db <= min_reader (DB_removeTransaction db a) /\
  (forall db1 b t,
      DB_Transaction sys_read db = Ret (db1, Some (b, t), None) ->
      min_reader db1 = Z.min (min_reader db) (Transaction_id db t)).
Proof.
  split.
  - rewrite !min_reader_fold. unfold DB_removeTransaction.
    cbn [db_transactions set_transactions].
    change (Transaction_id (set_transactions db (remove_first a (db_transactions db))))
      with (Transaction_id db).
    generalize max_txnid.
    induction (db_transactions db) as [|[b t] r IH]; intros s; cbn; [lia|].
    destruct (Nat.eqb_spec b a) as [->|Hne].
    + apply fold_min_init_le. destruct (Z.ltb_spec (Transaction_id db t) s); lia.
    + cbn. apply IH.
  - intros db1 b t H. apply DB_Transaction_inv in H as (_ & _ & -> & ->).
    rewrite !min_reader_fold.
    cbn [db_transactions set_transactions].
    change (Transaction_id (set_transactions (set_heap db (S (db_heap db)))
                              (db_transactions db ++ [(db_heap db, t)])))
      with (Transaction_id db).
    rewrite fmap_app, fold_min_app. cbn.
    destruct (Z.ltb_spec (Transaction_id db t)
                (fold_left (fun acc id => if id <? acc then id else acc)
                   ((fun at_ : nat * Transaction => Transaction_id db at_.2)
                      <$> db_transactions db) max_txnid)); lia.
Qed.

End ReaderMin.

(** ** The facade *)

Section FacadeFacts.

Variable sys_read : list byte -> nat -> gmap string bucket.
Variable Cursor : Type.
Variable Bucket_Cursor : Transaction -> Bucket -> option Cursor.
Variable Cursor_Get : DB -> Transaction -> Cursor -> list byte -> option (list byte).
Variable RW_CreateBucket : DB -> World -> string -> outcome (DB * World * option error).
Variable RW_DeleteBucket : DB -> World -> string -> outcome (DB * World * option error).
Variable RW_Put : DB -> World -> string -> list byte -> list byte -> outcome (DB * World * option error).
Variable RW_Delete : DB -> World -> string -> list byte -> outcome (DB * World * option error).
Variable RW_Commit : DB -> World -> outcome (DB * World * option error).
Variable RW_Rollback : DB -> World -> outcome (DB * World).

(** X16. After [db.RWTransaction()] has returned a writer the
    writer lock is held and a second [db.RWTransaction()] blocks, while the
    current meta, every page address and the reader a [db.Transaction()]
    returns are what they were before the writer began. *)
Theorem DB_RWTransaction_exclusive (db db1 : DB) (t : RWTransaction) :
  DB_RWTransaction sys_read db = Ret (db1, Some t, None) ->
  db_rwlock db1 = true /\
  DB_RWTransaction sys_read db1 = Blocked /\
  DB_meta db1 = DB_meta db /\
  (forall id, DB_page db1 id = DB_page db id) /\
  Transaction_init sys_read db1 = Transaction_init sys_read db /\
  (exists db2 a r,
      DB_Transaction sys_read db1 = Ret (db2, Some (a, r), None) /\
      Transaction_init sys_read db = Ret r).
Proof.
  unfold DB_RWTransaction. intros H.
  destruct (db_rwlock db) eqn:Hl; [done|].
  change (db_opened (set_rwlock db true)) with (db_opened db) in H.
  destruct (db_opened db) eqn:Ho; cbn [negb] in H; [|done].
  apply bind_Ret_inv in H as (t' & Hinit & H).
  unfold RWTransaction_init in Hinit.
  apply bind_Ret_inv in Hinit as (r & Hr & _).
  change (Transaction_init sys_read (set_rwlock db true))
    with (Transaction_init sys_read db) in Hr.
  assert (Hfr : db_rwlock db1 = true /\ db_opened db1 = true /\
                db_data db1 = db_data db /\ db_meta0 db1 = db_meta0 db /\
                db_meta1 db1 = db_meta1 db /\ db_pageSize db1 = db_pageSize db).
  { destruct (_ >? 0) in H.
    - destruct (db_freelist _) in H; [|done]. inversion H; subst. by cbn.
    - inversion H; subst. by cbn. }
  destruct Hfr as (Hl1 & Ho1 & Hd & Hm0 & Hm1 & Hps).
  assert (Hb : db_bytes db1 = db_bytes db) by (unfold db_bytes; by rewrite Hd).
  assert (Hmeta : DB_meta db1 = DB_meta db).
  { unfold DB_meta. by rewrite Hm0, Hm1, Hb. }
  assert (Hpage : forall id, DB_page db1 id = DB_page db id).
  { intros id. unfold DB_page, data_len. by rewrite Hd, Hps. }
  assert (Hti : Transaction_init sys_read db1 = Transaction_init sys_read db).
  { unfold Transaction_init, Transaction_page, page_bytes, meta_of.
    rewrite Hmeta. cbn [tx_pages tx_meta]. rewrite Hb.
    destruct (DB_meta db); [|done..]. rewrite !bind_Ret. by rewrite Hpage. }
  split; [exact Hl1|]. split; [by rewrite Hl1|].
  split; [exact Hmeta|]. split; [exact Hpage|]. split; [exact Hti|].
  eexists _, (db_heap db1), r. split; [|exact Hr].
  unfold DB_Transaction. rewrite Ho1. cbn [negb].
  by rewrite Hti, Hr, bind_Ret.
Qed.

(** X17. Every [db.Get] that returns without error leaves the reader
    it began in [db.transactions] (its deferred [Close] removes nothing):
    the list is one longer, and the minimum the next writer computes is at
    most that reader's id. *)
Theorem DB_Get_leaves_reader (db db1 : DB) (name : string) (key : list byte)
    (v : option (list byte)) :
  DB_Get sys_read Cursor Bucket_Cursor Cursor_Get db name key = Ret (db1, v, None) ->
  exists t,
    Transaction_init sys_read db = Ret t /\
    db_transactions db1 = db_transactions db ++ [(db_heap db, t)] /\
    v = Transaction_Get Cursor Bucket_Cursor Cursor_Get db1 t name key /\
    min_reader db1 <= Transaction_id db t.
Proof.
  unfold DB_Get. intros H.
  apply bind_Ret_inv in H as ([[db2 ot] oe] & Ht & H).
  destruct oe as [e|]; [done|].
  destruct ot as [[a t]|]; [|done].
  apply DB_Transaction_inv in Ht as (Ho & Hinit & -> & ->).
  inversion H; subst. clear H.
  exists t. split; [exact Hinit|]. split; [reflexivity|]. split; [reflexivity|].
  unfold Transaction_Close.
  set (db1 := set_transactions _ _).
  destruct (min_reader_spec db1) as (_ & Hall & _).
  apply (Hall (db_heap db) t). subst db1. cbn.
  apply elem_of_app. right. by apply list_elem_of_singleton.
Qed.

(** X18. On an open database [db.Buckets()] returns a nil list and
    a nil error whatever the catalog holds, and leaves one more reader in
    [db.transactions]. *)
Theorem DB_Buckets_lists_nothing (db : DB) (t : Transaction) :
  db_opened db = true ->
  Transaction_init sys_read db = Ret t ->
  exists db1,
    DB_Buckets sys_read db = Ret (db1, None, None) /\
    db_transactions db1 = db_transactions db ++ [(db_heap db, t)].
Proof.
  intros Ho Hinit. unfold DB_Buckets.
  rewrite (DB_Transaction_ok sys_read db t Ho Hinit), bind_Ret.
  eexists. split; reflexivity.
Qed.

(** X19. On a database that is not open, [Get], [Bucket], [Buckets]
    and [Copy] return [DatabaseNotOpenError] and leave the database as it
    was; so do [CreateBucket], [DeleteBucket], [Put] and [Delete] (the
    writer lock being free), which release the writer lock again and call
    no method of the transaction. *)
Theorem facade_not_open (db : DB) (w : World) (name : string) (key value : list byte)
    (env : CopyEnv) :
  db_opened db = false ->
  DB_Get sys_read Cursor Bucket_Cursor Cursor_Get db name key
    = Ret (db, None, Some DatabaseNotOpenError) /\
  DB_Bucket sys_read db name = Ret (db, None, Some DatabaseNotOpenError) /\
  DB_Buckets sys_read db = Ret (db, None, Some DatabaseNotOpenError) /\
  DB_Copy sys_read db w env = Ret (db, [], Some DatabaseNotOpenError) /\
  (db_rwlock db = false ->
   DB_CreateBucket sys_read RW_CreateBucket RW_Commit RW_Rollback db w name
     = Ret (db, w, Some DatabaseNotOpenError) /\
   DB_DeleteBucket sys_read RW_DeleteBucket RW_Commit RW_Rollback db w name
     = Ret (db, w, Some DatabaseNotOpenError) /\
   DB_Put sys_read RW_Put RW_Commit RW_Rollback db w name key value
     = Ret (db, w, Some DatabaseNotOpenError) /\
   DB_Delete sys_read RW_Delete RW_Commit RW_Rollback db w name key
     = Ret (db, w, Some DatabaseNotOpenError)).
Proof.
  intros Ho.
  assert (Ht : DB_Transaction sys_read db = Ret (db, None, Some DatabaseNotOpenError)).
  { unfold DB_Transaction. by rewrite Ho. }
  repeat split.
  - unfold DB_Get. by rewrite Ht.
  - unfold DB_Bucket. by rewrite Ht.
  - unfold DB_Buckets. by rewrite Ht.
  - unfold DB_Copy. by rewrite Ho.
  - unfold DB_CreateBucket, with_writer, DB_RWTransaction. rewrite H.
    change (db_opened (set_rwlock db true)) with (db_opened db). rewrite Ho.
    cbn [negb]. rewrite bind_Ret. destruct db. cbn in *. by subst.
  - unfold DB_DeleteBucket, with_writer, DB_RWTransaction. rewrite H.
    change (db_opened (set_rwlock db true)) with (db_opened db). rewrite Ho.
    cbn [negb]. rewrite bind_Ret. destruct db. cbn in *. by subst.
  - unfold DB_Put, with_writer, DB_RWTransaction. rewrite H.
    change (db_opened (set_rwlock db true)) with (db_opened db). rewrite Ho.
    cbn [negb]. rewrite bind_Ret. destruct db. cbn in *. by subst.
  - unfold DB_Delete, with_writer, DB_RWTransaction. rewrite H.
    change (db_opened (set_rwlock db true)) with (db_opened db). rewrite Ho.
    cbn [negb]. rewrite bind_Ret. destruct db. cbn in *. by subst.
Qed.

(** X20. [db.CopyFile(path)] creates (or truncates) the file before
    it looks at the database: if [os.Create] fails the file is untouched;
    on a database that is not open the file is left empty and the error is
    [DatabaseNotOpenError]; on an open database, when the calls succeed,
    the file holds exactly the bytes of the database file, and the reader
    begun for the copy stays in [db.transactions]. *)
Theorem DB_CopyFile_result (db : DB) (w : World) (env : CopyEnv) (dest : option (list byte)) :
  (forall e, ce_create_err env = Some e ->
     DB_CopyFile sys_read db w env dest = Ret (db, dest, Some e)) /\
  (ce_create_err env = None -> db_opened db = false ->
     DB_CopyFile sys_read db w env dest = Ret (db, Some [], Some DatabaseNotOpenError)) /\
  (ce_create_err env = None -> ce_open_err env = None -> ce_copy_err env = None ->
   db_opened db = true ->
   forall t, Transaction_init sys_read db = Ret t ->
     exists db1,
       DB_CopyFile sys_read db w env dest = Ret (db1, Some (w_disk w), None) /\
       db_transactions db1 = db_transactions db ++ [(db_heap db, t)] /\
       db_data db1 = db_data db).
Proof.
  split; [|split].
  - intros e He. unfold DB_CopyFile. by rewrite He.
  - intros Hc Ho. unfold DB_CopyFile, DB_Copy. by rewrite Hc, Ho.
  - intros Hc Hop Hcp Ho t Hinit. unfold DB_CopyFile, DB_Copy.
    rewrite Hc, Ho. cbn [negb].
    rewrite (DB_Transaction_ok sys_read db t Ho Hinit), bind_Ret.
    rewrite Hop, Hcp, bind_Ret.
    eexists. split; [reflexivity|]. done.
Qed.

End FacadeFacts.

(** ** Sorting pages *)

Lemma pages_at_Ret s i r :
  pages_at s i = Ret r <-> 0 <= i < Z.of_nat (length s) /\ s !! Z.to_nat i = Some r.
Proof.
  unfold pages_at.
  destruct (Z.leb_spec 0 i) as [Hlo|Hlo],
           (Z.ltb_spec i (Z.of_nat (length s))) as [Hhi|Hhi]; cbn;
    try (split; [done|lia]).
  destruct (s !! Z.to_nat i) as [x|] eqn:E.
  - split; [intros [= ->]; split; [lia|done]|intros [_ [= ->]]; done].
  - split; [done|intros [_ Hn]; done].
Qed.

Lemma pages_at_in s i :
  0 <= i < Z.of_nat (length s) -> exists r, pages_at s i = Ret r.
Proof.
  intros Hi. destruct (lookup_lt_is_Some_2 s (Z.to_nat i)) as [r Hr]; [lia|].
  exists r. by apply pages_at_Ret.
Qed.

Lemma pages_at_out s i :
  i < 0 \/ Z.of_nat (length s) <= i -> pages_at s i = Panic "index out of range".
Proof.
  intros Hi. unfold pages_at.
  destruct (Z.leb_spec 0 i), (Z.ltb_spec i (Z.of_nat (length s))); cbn; try done; lia.
Qed.

(** X21. [Swap(i, j)] on a page slice keeps its length, exchanges the
    elements at [i] and [j] and leaves the others in place, is undone by a
    second [Swap(i, j)], and turns [Less(i, j)] into what [Less(j, i)]
    was. *)
Theorem pages_Swap_spec (s s' : list pageref) (i j : Z) :
  pages_Swap s i j = Ret s' ->
  pages_Len s' = pages_Len s /\
  (forall k, pages_at s' k =
             if k =? i then pages_at s j
             else if k =? j then pages_at s i
             else pages_at s k) /\
  pages_Swap s' i j = Ret s /\
  (forall db, pages_Less db s' i j = pages_Less db s j i).
Proof.
  unfold pages_Swap. intros H.
  apply bind_Ret_inv in H as (pj & Hj & H).
  apply bind_Ret_inv in H as (pi & Hi & H).
  injection H as <-.
  pose proof Hi as Hi'. pose proof Hj as Hj'.
  apply pages_at_Ret in Hi' as [Hir Hil], Hj' as [Hjr Hjl].
  set (s' := <[Z.to_nat j:=pi]> (<[Z.to_nat i:=pj]> s)).
  assert (Hlen : length s' = length s) by (subst s'; by rewrite !length_insert).
  assert (Hat : forall k, pages_at s' k =
             if k =? i then pages_at s j
             else if k =? j then pages_at s i
             else pages_at s k).
  { intros k. destruct (Z.eqb_spec k i) as [->|Hki].
    - rewrite Hj. apply pages_at_Ret. split; [lia|]. subst s'.
      destruct (decide (i = j)) as [->|Hij].
      + rewrite list_lookup_insert_eq by (rewrite length_insert; lia). congruence.
      + rewrite list_lookup_insert_ne by lia.
        apply list_lookup_insert_eq. lia.
    - destruct (Z.eqb_spec k j) as [->|Hkj].
      + rewrite Hi. apply pages_at_Ret. split; [lia|]. subst s'.
        apply list_lookup_insert_eq. rewrite length_insert. lia.
      + unfold pages_at. rewrite Hlen.
        destruct ((0 <=? k) && (k <? Z.of_nat (length s))) eqn:Hk; [|done].
        apply andb_true_iff in Hk as [Hk0 Hk1].
        apply Z.leb_le in Hk0. apply Z.ltb_lt in Hk1.
        subst s'. by rewrite !list_lookup_insert_ne by lia. }
  split; [unfold pages_Len; by rewrite Hlen|]. split; [exact Hat|]. split.
  - rewrite (Hat j), (Hat i), Z.eqb_refl.
    destruct (Z.eqb_spec j i) as [->|Hne].
    + rewrite Hj, !bind_Ret. f_equal. subst s'.
      assert (pi = pj) by congruence. subst pj.
      assert (Hs : <[Z.to_nat i:=pi]> s = s) by (by apply list_insert_id).
      by rewrite !Hs.
    + rewrite Z.eqb_refl, Hi, Hj, !bind_Ret. f_equal.
      apply list_eq. intros k. subst s'.
      destruct (decide (k = Z.to_nat j)) as [->|Hkj].
      { rewrite list_lookup_insert_eq by (rewrite !length_insert; lia). congruence. }
      rewrite list_lookup_insert_ne by done.
      destruct (decide (k = Z.to_nat i)) as [->|Hki].
      { rewrite list_lookup_insert_eq by (rewrite !length_insert; lia). congruence. }
      by rewrite !list_lookup_insert_ne by done.
  - intros db. unfold pages_Less.
    rewrite (Hat i), (Hat j), !Z.eqb_refl.
    destruct (Z.eqb_spec j i) as [Heq|Hne]; [by rewrite Heq|done].
Qed.

(** X22. [Less] is a strict weak order on the indices of a page
    slice (by page id): irreflexive, asymmetric, transitive, with a
    transitive complement, as [sort.Sort] needs. *)
Theorem pages_Less_strict_order (db : DB) (s : list pageref) (i j k : Z) :
  0 <= i < pages_Len s -> 0 <= j < pages_Len s -> 0 <= k < pages_Len s ->
  pages_Less db s i i = Ret false /\
  (pages_Less db s i j = Ret true -> pages_Less db s j i = Ret false) /\
  (pages_Less db s i j = Ret true -> pages_Less db s j k = Ret true ->
   pages_Less db s i k = Ret true) /\
  (pages_Less db s i j = Ret false -> pages_Less db s j k = Ret false ->
   pages_Less db s i k = Ret false).
Proof.
  unfold pages_Len. intros Hi Hj Hk.
  destruct (pages_at_in s i Hi) as [ri Hri].
  destruct (pages_at_in s j Hj) as [rj Hrj].
  destruct (pages_at_in s k Hk) as [rk Hrk].
  unfold pages_Less. rewrite Hri, Hrj, Hrk, !bind_Ret.
  repeat split.
  - f_equal. apply Z.ltb_irrefl.
  - intros [= H]. f_equal. apply Z.ltb_lt in H. apply Z.ltb_ge. lia.
  - intros [= H1] [= H2]. f_equal. apply Z.ltb_lt in H1, H2. apply Z.ltb_lt. lia.
  - intros [= H1] [= H2]. f_equal. apply Z.ltb_ge in H1, H2. apply Z.ltb_ge. lia.
Qed.

(** X23. An index [i] outside the slice makes both [Swap(i, j)] and
    [Less(i, j)] panic with an index out of range, whatever [j] is: neither
    method checks its arguments. *)
Theorem pages_out_of_range (db : DB) (s : list pageref) (i j : Z) :
  (i < 0 \/ pages_Len s <= i) ->
  pages_Swap s i j = Panic "index out of range" /\
  pages_Less db s i j = Panic "index out of range".
Proof.
  intros Hi. unfold pages_Swap, pages_Less.
  rewrite (pages_at_out s i Hi). split; [|done].
  unfold pages_at at 1.
  destruct ((0 <=? j) && (j <? Z.of_nat (length s))); [|done].
  by destruct (s !! Z.to_nat j).
Qed.

(** ** The further properties at concrete inputs *)

(** X1 at the meta of [Ex.writer] written over a zeroed page. *)
Lemma meta_write_frame_witness :
  Page.flags (meta_write Ex.writer_meta ExMore.page9 0) 0 = p_meta /\
  Page.count (meta_write Ex.writer_meta ExMore.page9 0) 0 = 0.
Proof.
  destruct (meta_write_frame Ex.writer_meta ExMore.page9 0) as (_ & Hf & Hc & _).
  - vm_compute. lia.
  - split; [rewrite Hf|rewrite Hc]; vm_compute; reflexivity.
Defined.

(** X2 at the first meta page of the file [init] creates. *)
Lemma validate_signature_witness :
  take 8 (drop 16 Ex.disk) = signature.
Proof.
  apply (validate_signature Ex.disk 16).
  - vm_compute. lia.
  - vm_compute. reflexivity.
Defined.

(** X3 at the pages 0 and 1 of [Ex.db_open]. *)
Lemma DB_page_disjoint_witness :
  exists p0 p1, DB_page Ex.db_open 0 = Ret p0 /\ DB_page Ex.db_open 1 = Ret p1 /\
                Z.of_nat p0 + 4096 <= Z.of_nat p1.
Proof.
  destruct (DB_page_disjoint Ex.db_open Ex.disk 0 1) as (p0 & p1 & H0 & H1 & _ & Hd & _).
  - vm_compute. reflexivity.
  - vm_compute. split; reflexivity.
  - lia.
  - vm_compute. reflexivity.
  - exists p0, p1. split; [exact H0|]. split; [exact H1|]. exact Hd.
Defined.

(** X4 at a request for zero pages. *)
Lemma DB_allocate_no_pages_witness :
  DB_allocate ExMore.db_writer_eof 0 = Panic "index out of range".
Proof.
  apply (DB_allocate_no_pages ExMore.db_writer_eof 0).
  - vm_compute. split; [discriminate|reflexivity].
  - vm_compute. discriminate.
Defined.

(** X5 at a writer with an empty free set, asking for 2 and then 3 pages. *)
Lemma DB_allocate_twice_witness :
  exists db1 b1 db2 b2,
    DB_allocate ExMore.db_writer_eof 2 = Ret (db1, b1) /\
    DB_allocate db1 3 = Ret (db2, b2) /\
    Page.id b1 0 = 4 /\ Page.id b2 0 = 6.
Proof.
  destruct (DB_allocate_twice ExMore.db_writer_eof 2 3 ∅ Ex.writer Ex.writer_meta)
    as (db1 & b1 & db2 & b2 & rw2 & H1 & H2 & Hi1 & Hi2 & _).
  - vm_compute. reflexivity.
  - vm_compute. reflexivity.
  - reflexivity.
  - vm_compute. discriminate.
  - vm_compute. reflexivity.
  - lia.
  - lia.
  - vm_compute. discriminate.
  - vm_compute. discriminate.
  - vm_compute. discriminate.
  - exists db1, b1, db2, b2. split; [exact H1|]. split; [exact H2|].
    split; [exact Hi1|exact Hi2].
Defined.

(** X6 at a system with 4096-byte pages and no file. *)
Lemma DB_Open_new_file_witness :
  exists db' w',
    DB_Open NewDB Ex.world_new "chain.db" 384 = Ret (db', w', None) /\
    db_opened db' = true /\
    db_freelist db' = Some freelist_new.
Proof.
  destruct (DB_Open_new_file NewDB Ex.world_new "chain.db" 384)
    as (db' & w' & H & Ho & _ & _ & _ & _ & Hf & _).
  - reflexivity.
  - reflexivity.
  - reflexivity.
  - reflexivity.
  - reflexivity.
  - reflexivity.
  - vm_compute. split; [discriminate|reflexivity].
  - exists db', w'. split; [exact H|]. split; [exact Ho|exact Hf].
Defined.

(** X7 at the same system, opened twice. *)
Lemma DB_Open_reopen_witness :
  exists db' w' db2' w2',
    DB_Open NewDB Ex.world_new "chain.db" 384 = Ret (db', w', None) /\
    DB_Open NewDB w' "chain.db" 384 = Ret (db2', w2', None) /\
    DB_meta db2' = DB_meta db'.
Proof.
  destruct (DB_Open_reopen NewDB NewDB Ex.world_new "chain.db" 384)
    as (db' & w' & db2' & w2' & H1 & H2 & _ & _ & _ & _ & _ & _ & Hm & _).
  - reflexivity.
  - reflexivity.
  - reflexivity.
  - reflexivity.
  - reflexivity.
  - reflexivity.
  - reflexivity.
  - reflexivity.
  - vm_compute. split; [discriminate|reflexivity].
  - exists db', w', db2', w2'. split; [exact H1|]. split; [exact H2|exact Hm].
Defined.

(** X8 at the file of [Ex] cut after its first page. *)
Lemma DB_Open_truncated_witness :
  exists db' w',
    DB_Open NewDB ExMore.world_one_page "chain.db" 384
    = Ret (db', w', Some (Error "file size too small" None)).
Proof.
  destruct (DB_Open_truncated NewDB ExMore.world_one_page "chain.db" 384)
    as (db' & H & _).
  - reflexivity.
  - reflexivity.
  - reflexivity.
  - reflexivity.
  - vm_compute. discriminate.
  - vm_compute. reflexivity.
  - vm_compute. reflexivity.
  - eexists _, _. exact H.
Defined.

(** X9 at the first 100 bytes of the file of [Ex]. *)
Lemma DB_Open_short_file_witness :
  exists db' w',
    DB_Open NewDB ExMore.world_100_bytes "chain.db" 384 = Ret (db', w', None) /\
    db_pageSize db' = 0.
Proof.
  pose proof (DB_Open_short_file NewDB ExMore.world_100_bytes "chain.db" 384
                eq_refl eq_refl (fun _ => eq_refl) eq_refl eq_refl eq_refl) as H.
  assert (Hv : validate (MetaAt.read (w_disk ExMore.world_100_bytes) (Page.meta 0)) = None)
    by (vm_compute; reflexivity).
  cbv zeta in H. rewrite Hv in H.
  destruct H as (db' & w' & H & _ & Hps & _).
  - vm_compute. split; [discriminate|reflexivity].
  - vm_compute. discriminate.
  - exists db', w'. split; [exact H|exact Hps].
Defined.

(** X10 at the call that returns [Ex.db_open]. *)
Lemma DB_Open_opened_iff_witness :
  db_opened Ex.db_open = true <-> (None : option error) = None.
Proof.
  apply (DB_Open_opened_iff NewDB Ex.world "chain.db" 384 Ex.db_open ExMore.world_opened None).
  - reflexivity.
  - vm_compute. reflexivity.
Defined.

(** X11 at [Ex.db_open], closed and opened again. *)
Lemma DB_Close_stays_open_witness :
  DB_Open (DB_Close Ex.db_open) Ex.world "chain.db" 384
  = Ret (DB_Close Ex.db_open, Ex.world, Some DatabaseAlreadyOpenedError).
Proof.
  destruct (DB_Close_stays_open NewDB Ex.world "chain.db" 384 Ex.db_open ExMore.world_opened)
    as (_ & H & _).
  - vm_compute. reflexivity.
  - apply H.
Defined.

(** X12 at a system whose writes fail with errno 28 after 100 bytes. *)
Lemma DB_Open_init_write_fails_witness :
  exists db' w',
    DB_Open NewDB ExMore.world_no_write "chain.db" 384 = Ret (db', w', Some (SysError 28)) /\
    length (w_disk w') = 100%nat.
Proof.
  destruct (DB_Open_init_write_fails NewDB ExMore.world_no_write "chain.db" 384
              100 (SysError 28))
    as (db' & w' & H & _ & _ & _ & _ & Hd & _).
  - reflexivity.
  - reflexivity.
  - reflexivity.
  - reflexivity.
  - vm_compute. split; reflexivity.
  - reflexivity.
  - exists db', w'. split; [exact H|exact Hd].
Defined.

(** X13 at the first reader of [Ex.db_open]. *)
Lemma DB_Transaction_remove_roundtrip_witness :
  exists db1 a t,
    DB_Transaction Ex.no_buckets Ex.db_open = Ret (db1, Some (a, t), None) /\
    db_transactions (DB_removeTransaction db1 a) = db_transactions Ex.db_open.
Proof.
  destruct (DB_Transaction Ex.no_buckets Ex.db_open) as [[[db1 [[a t]|]] [e|]]| |] eqn:E;
    try (vm_compute in E; discriminate E).
  exists db1, a, t. split; [reflexivity|].
  apply (DB_Transaction_remove_roundtrip Ex.no_buckets Ex.db_open db1 a t).
  - intros x Hx. vm_compute in Hx. inversion Hx.
  - exact E.
Defined.

(** X14 at an address that [Ex.db_open] does not list. *)
Lemma DB_removeTransaction_spec_witness :
  DB_removeTransaction Ex.db_open 7 = Ex.db_open.
Proof.
  apply (DB_removeTransaction_spec Ex.db_open 7).
  intros H. vm_compute in H. inversion H.
Defined.

(** X15 at a second reader of [Ex.db_reader]. *)
Lemma min_reader_monotone_witness :
  exists db1 b t,
    DB_Transaction Ex.no_buckets Ex.db_reader = Ret (db1, Some (b, t), None) /\
    min_reader db1 = Z.min (min_reader Ex.db_reader) (Transaction_id Ex.db_reader t).
Proof.
  destruct (DB_Transaction Ex.no_buckets Ex.db_reader) as [[[db1 [[b t]|]] [e|]]| |] eqn:E;
    try (vm_compute in E; discriminate E).
  exists db1, b, t. split; [reflexivity|].
  destruct (min_reader_monotone Ex.no_buckets Ex.db_reader 0) as [_ H].
  apply (H db1 b t E).
Defined.

(** X16 at the writer of [Ex.db_reader]. *)
Lemma DB_RWTransaction_exclusive_witness :
  exists db1 t,
    DB_RWTransaction Ex.no_buckets Ex.db_reader = Ret (db1, Some t, None) /\
    DB_RWTransaction Ex.no_buckets db1 = Blocked.
Proof.
  destruct (DB_RWTransaction Ex.no_buckets Ex.db_reader) as [[[db1 [t|]] [e|]]| |] eqn:E;
    try (vm_compute in E; discriminate E).
  exists db1, t. split; [reflexivity|].
  apply (DB_RWTransaction_exclusive Ex.no_buckets Ex.db_reader db1 t). exact E.
Defined.

(** X17 at a lookup in [Ex.db_open], whose catalog is empty. *)
Lemma DB_Get_leaves_reader_witness :
  exists db1 v t,
    DB_Get Ex.no_buckets unit (fun _ _ => None) (fun _ _ _ _ => None)
           Ex.db_open "blocks" [] = Ret (db1, v, None) /\
    db_transactions db1 = db_transactions Ex.db_open ++ [(db_heap Ex.db_open, t)].
Proof.
  destruct (DB_Get Ex.no_buckets unit (fun _ _ => None) (fun _ _ _ _ => None)
                   Ex.db_open "blocks" []) as [[[db1 v] [e|]]| |] eqn:E;
    try (vm_compute in E; discriminate E).
  destruct (DB_Get_leaves_reader Ex.no_buckets unit (fun _ _ => None) (fun _ _ _ _ => None)
              Ex.db_open db1 "blocks" [] v E) as (t & _ & Ht & _).
  exists db1, v, t. split; [reflexivity|exact Ht].
Defined.

(** X18 at [Ex.db_open]. *)
Lemma DB_Buckets_lists_nothing_witness :
  exists db1, DB_Buckets Ex.no_buckets Ex.db_open = Ret (db1, None, None).
Proof.
  destruct (Transaction_init Ex.no_buckets Ex.db_open) as [t| |] eqn:E;
    try (vm_compute in E; discriminate E).
  destruct (DB_Buckets_lists_nothing Ex.no_buckets Ex.db_open t) as (db1 & H & _).
  - vm_compute. reflexivity.
  - exact E.
  - exists db1. exact H.
Defined.

(** X19 at a database that was never opened. *)
Lemma facade_not_open_witness :
  DB_Get Ex.no_buckets unit (fun _ _ => None) (fun _ _ _ _ => None) NewDB "blocks" []
  = Ret (NewDB, None, Some DatabaseNotOpenError) /\
  DB_Put Ex.no_buckets (fun db w _ _ _ => ExMore.no_op db w) ExMore.no_op ExMore.no_rollback
         NewDB Ex.world_new "blocks" [] []
  = Ret (NewDB, Ex.world_new, Some DatabaseNotOpenError).
Proof.
  destruct (facade_not_open Ex.no_buckets unit (fun _ _ => None) (fun _ _ _ _ => None)
              (fun db w _ => ExMore.no_op db w) (fun db w _ => ExMore.no_op db w)
              (fun db w _ _ _ => ExMore.no_op db w) (fun db w _ _ => ExMore.no_op db w)
              ExMore.no_op ExMore.no_rollback
              NewDB Ex.world_new "blocks" [] [] ExMore.copy_ok)
    as (Hg & _ & _ & _ & Hw).
  - reflexivity.
  - split; [exact Hg|]. destruct Hw as (_ & _ & Hp & _); [reflexivity|exact Hp].
Defined.

(** X20 at a copy of [Ex.db_open] where every call succeeds. *)
Lemma DB_CopyFile_result_witness :
  exists db1,
    DB_CopyFile Ex.no_buckets Ex.db_open Ex.world ExMore.copy_ok None
    = Ret (db1, Some Ex.disk, None).
Proof.
  destruct (Transaction_init Ex.no_buckets Ex.db_open) as [t| |] eqn:E;
    try (vm_compute in E; discriminate E).
  destruct (DB_CopyFile_result Ex.no_buckets Ex.db_open Ex.world ExMore.copy_ok None)
    as (_ & _ & H).
  destruct (H eq_refl eq_refl eq_refl) with (t := t) as (db1 & H1 & _).
  - vm_compute. reflexivity.
  - exact E.
  - exists db1. exact H1.
Defined.

(** X21 at the pages 4 and 9, swapped and swapped back. *)
Lemma pages_Swap_spec_witness :
  pages_Swap [PageHeap ExMore.page4; PageHeap ExMore.page9] 0 1 = Ret ExMore.two_pages /\
  pages_Swap ExMore.two_pages 0 1 = Ret [PageHeap ExMore.page4; PageHeap ExMore.page9].
Proof.
  assert (H : pages_Swap [PageHeap ExMore.page4; PageHeap ExMore.page9] 0 1
              = Ret ExMore.two_pages) by reflexivity.
  split; [exact H|].
  apply (pages_Swap_spec _ _ 0 1 H).
Defined.

(** X22 at the pages 9 and 4. *)
Lemma pages_Less_strict_order_witness :
  pages_Less NewDB ExMore.two_pages 0 0 = Ret false.
Proof.
  apply (pages_Less_strict_order NewDB ExMore.two_pages 0 1 1);
    vm_compute; split; first [discriminate|reflexivity].
Defined.

(** X23 at the index 2 of a slice of two pages. *)
Lemma pages_out_of_range_witness :
  pages_Swap ExMore.two_pages 2 0 = Panic "index out of range" /\
  pages_Less NewDB ExMore.two_pages 2 0 = Panic "index out of range".
Proof.
  apply (pages_out_of_range NewDB ExMore.two_pages 2 0).
  right. vm_compute. discriminate.
Defined.
